(** * FBNet supernet and trainer (fbnet-pytorch/model.py)

    A shallow embedding of [MixedOp], [FBNet] and [Trainer], followed by
    one of the block factory of the MXNet version
    (fbnet-symbol/blocks_se.py).

    Conventions of the embedding:
    - float tensors are nested lists of reals ([R]): arithmetic is the
      idealised one, so rounding, [inf] and [nan] are not represented;
    - a tensor carries, next to its values, the architecture parameters
      (theta leaves) its autograd history reaches;
    - a raised Python exception is the [Raise] case of [result];
    - the random draws of [gumbel_softmax], the clock, the file system and
      the log are explicit arguments or state. *)

From Stdlib Require Import String Ascii.
From Stdlib Require Import DecimalString.
From Stdlib Require Import List Arith ZArith Lia Bool.
From Stdlib Require Import Reals Lra.
Import ListNotations.

Set Implicit Arguments.

(** ** Python results: a value or a raised exception *)

Inductive exn : Type :=
| AssertionError
| IndexError
| ValueError
| TypeError
| AttributeError
| RuntimeError
| IOError
| ZeroDivisionError.

Inductive result (A : Type) : Type :=
| Ok (a : A)
| Raise (e : exn).

Arguments Ok {A} a.
Arguments Raise {A} e.

Definition bind {A B : Type} (m : result A) (k : A -> result B) : result B :=
  match m with
  | Ok a => k a
  | Raise e => Raise e
  end.

Notation "x <- m ;; k" := (bind m (fun x => k))
  (at level 61, m at next level, right associativity).
Notation "' p <- m ;; k" := (bind m (fun x => match x with p => k end))
  (at level 61, p pattern, m at next level, right associativity).

Fixpoint mapM {A B : Type} (f : A -> result B) (l : list A) : result (list B) :=
  match l with
  | [] => Ok []
  | x :: r => y <- f x ;; ys <- mapM f r ;; Ok (y :: ys)
  end.

Fixpoint foldM {A B : Type} (f : B -> A -> result B) (l : list A) (acc : B)
  : result B :=
  match l with
  | [] => Ok acc
  | x :: r => acc' <- f acc x ;; foldM f r acc'
  end.

(** Pairwise combination of two sequences of the same length. *)
Fixpoint zipM {A B C : Type} (f : A -> B -> result C)
  (xs : list A) (ys : list B) : result (list C) :=
  match xs, ys with
  | x :: xs', y :: ys' => z <- f x y ;; zs <- zipM f xs' ys' ;; Ok (z :: zs)
  | _, _ => Ok []
  end.

(** [l[i]] on a Python list: [IndexError] out of range. *)
Definition index {A : Type} (l : list A) (i : nat) : result A :=
  match nth_error l i with
  | Some a => Ok a
  | None => Raise IndexError
  end.

(** [enumerate(l)], counting from [start]. *)
Fixpoint enumerate_from {A : Type} (start : nat) (l : list A) : list (nat * A) :=
  match l with
  | [] => []
  | x :: r => (start, x) :: enumerate_from (S start) r
  end.

Definition enumerate {A : Type} (l : list A) : list (nat * A) :=
  enumerate_from 0 l.

(** ** Tensors *)

Module torch.

Local Open Scope R_scope.

(** Values of 1-D to 4-D float tensors.  A dimension of size zero hides the
    sizes of the dimensions below it. *)
Definition T1 : Type := list R.
Definition T2 : Type := list T1.
Definition T3 : Type := list T2.
Definition T4 : Type := list T3.

(** A tensor: its values, and the theta leaves it was computed from through
    operations that record autograd history.  With [leaves t = []]
    backpropagation from [t] reaches no theta. *)
Record Tensor (A : Type) : Type := mkTensor {
  data : A;
  leaves : list nat
}.

(** A tensor without history ([requires_grad=False]). *)
Definition constant {A : Type} (x : A) : Tensor A := mkTensor x [].

(** [nn.Parameter(x, requires_grad=True)], the [i]-th theta. *)
Definition nn_Parameter {A : Type} (i : nat) (x : A) : Tensor A := mkTensor x [i].

(** The leaves reached from either of two histories. *)
Definition union (a b : list nat) : list nat := nodup Nat.eq_dec (a ++ b).

(** A differentiable operation of one, resp. two, tensor arguments. *)
Definition op1 {A B : Type} (f : A -> B) (t : Tensor A) : Tensor B :=
  mkTensor (f (data t)) (leaves t).

Definition op2 {A B C : Type} (f : A -> B -> C) (a : Tensor A) (b : Tensor B)
  : Tensor C :=
  mkTensor (f (data a) (data b)) (union (leaves a) (leaves b)).

Definition op2M {A B C : Type} (f : A -> B -> result C)
  (a : Tensor A) (b : Tensor B) : result (Tensor C) :=
  c <- f (data a) (data b) ;; Ok (mkTensor c (union (leaves a) (leaves b))).

(** [torch.tensor(l)] on a list of Python floats. *)
Definition tensor_of_floats (l : list R) : Tensor T1 := constant l.

(** [torch.tensor(l)] on a list of 0-dim tensors: the values are copied into
    a new leaf tensor, which has no history. *)
Definition tensor_of_scalars (l : list (Tensor R)) : Tensor T1 :=
  constant (map (@data R) l).

(** [x.sum()] on a 0-dim tensor. *)
Definition sum0 (x : R) : R := x.

Definition sum1 (l : T1) : R := fold_right Rplus 0 l.
Definition sum2 (m : T2) : R := sum1 (map sum1 m).

(** [t.repeat(n, 1)] on a 1-D tensor: [n] rows, each a copy of [t]. *)
Definition repeat_rows (n : nat) (t : T1) : T2 := List.repeat t n.

(** Broadcasting along one dimension: equal sizes combine pairwise, a size
    of one is stretched, anything else is a shape error. *)
Definition broadcast {A B C : Type} (f : A -> B -> result C)
  (xs : list A) (ys : list B) : result (list C) :=
  if Nat.eqb (length xs) (length ys) then zipM f xs ys
  else match xs, ys with
       | [x], _ => mapM (f x) ys
       | _, [y] => mapM (fun x => f x y) xs
       | _, _ => Raise RuntimeError
       end.

Definition pure2 {A B C : Type} (f : A -> B -> C) (a : A) (b : B) : result C :=
  Ok (f a b).

(** [a * b] on 2-D tensors. *)
Definition mul2 : T2 -> T2 -> result T2 :=
  broadcast (broadcast (pure2 Rmult)).

(** [a + b] on 4-D tensors. *)
Definition add4 : T4 -> T4 -> result T4 :=
  broadcast (broadcast (broadcast (broadcast (pure2 Rplus)))).

Definition map3 (f : R -> R) (e : T3) : T3 := map (map (map f)) e.
Definition map4 (f : R -> R) (t : T4) : T4 := map (map3 f) t.

(** [w * r] for [w] of shape (B,1,1,1): along the batch dimension the usual
    broadcasting, below it the scalar of each example multiplies the whole
    feature map. *)
Definition mul_per_example (w : T1) (r : T4) : result T4 :=
  broadcast (fun wn e => Ok (map3 (Rmult wn) e)) w r.

(** [weights[..., i]] on a 2-D tensor. *)
Definition column (i : nat) (w : T2) : result T1 :=
  mapM (fun row => index row i) w.

(** [softmax] along the last dimension. *)
Definition softmax (row : T1) : T1 :=
  map (fun x => exp x / sum1 (map exp row)) row.

(** [nn.functional.gumbel_softmax(t, tau)]: [softmax((t + g) / tau)] along
    the last dimension, [g n k] being the Gumbel(0,1) draw for entry
    [(n, k)].  For [tau] = 0 the floats divide by zero and the weights are
    [nan]; the value here has then no counterpart in the code, and what is
    proved of the values of the weights is stated for a [tau] other than
    0. *)
Definition gumbel_softmax (g : nat -> nat -> R) (t : T2) (tau : R) : T2 :=
  map (fun '(n, row) =>
         softmax (map (fun '(k, x) => (x + g n k) / tau) (enumerate row)))
      (enumerate t).

End torch.

(** ** Python strings *)

Module Py.

(** [c.isspace()] for a code point below 256. *)
Definition isspace (c : ascii) : bool :=
  let n := nat_of_ascii c in
  ((9 <=? n) && (n <=? 13)) || ((28 <=? n) && (n <=? 32))
  || (n =? 133) || (n =? 160).

(** Cut [s] at every character satisfying [sep]; between two adjacent
    separators stands an empty piece. *)
Fixpoint split_by (sep : ascii -> bool) (s : string) : list string :=
  match s with
  | EmptyString => [EmptyString]
  | String c r =>
      if sep c then EmptyString :: split_by sep r
      else match split_by sep r with
           | h :: t => String c h :: t
           | [] => [String c EmptyString]
           end
  end.

(** [s.split(' ')]. *)
Definition split_space (s : string) : list string :=
  split_by (Ascii.eqb " "%char) s.

Definition nonempty (s : string) : bool :=
  match s with
  | EmptyString => false
  | String _ _ => true
  end.

(** [s.split()]: the maximal runs of non-whitespace characters. *)
Definition split (s : string) : list string :=
  filter nonempty (split_by isspace s).

Fixpoint lstrip (s : string) : string :=
  match s with
  | String c r => if isspace c then lstrip r else s
  | EmptyString => EmptyString
  end.

Fixpoint rstrip (s : string) : string :=
  match s with
  | EmptyString => EmptyString
  | String c r =>
      match rstrip r with
      | EmptyString => if isspace c then EmptyString else String c EmptyString
      | r' => String c r'
      end
  end.

(** The newline character as a string. *)
Definition newline : string := String "010" EmptyString.

(** [s.strip()]. *)
Definition strip (s : string) : string := rstrip (lstrip s).

(** [sep.join(l)]. *)
Fixpoint join (sep : string) (l : list string) : string :=
  match l with
  | [] => EmptyString
  | [x] => x
  | x :: r => (x ++ sep ++ join sep r)%string
  end.

(** [f.readlines()] on the text of a file: each line keeps its newline. *)
Fixpoint readlines_from (cur : string) (s : string) : list string :=
  match s with
  | EmptyString =>
      match cur with
      | EmptyString => []
      | _ => [cur]
      end
  | String c r =>
      if Ascii.eqb c "010"%char
      then (cur ++ String c EmptyString)%string :: readlines_from EmptyString r
      else readlines_from (cur ++ String c EmptyString)%string r
  end.

Definition readlines (s : string) : list string :=
  readlines_from EmptyString s.

(** *** [float(s)] on decimal literals

    Covered: optional surrounding whitespace, an optional sign, decimal
    digits with an optional fraction, an optional decimal exponent.  The
    literals [inf], [nan] and digit-group underscores have no counterpart
    here and are rejected like malformed text. *)

Definition digit_of (c : ascii) : option Z :=
  let n := nat_of_ascii c in
  if (48 <=? n) && (n <=? 57) then Some (Z.of_nat (n - 48)) else None.

Fixpoint digits (s : string) : list Z * string :=
  match s with
  | EmptyString => ([], EmptyString)
  | String c r =>
      match digit_of c with
      | Some d => let '(ds, rest) := digits r in (d :: ds, rest)
      | None => ([], s)
      end
  end.

Definition Z_of_digits (ds : list Z) : Z :=
  fold_left (fun a d => 10 * a + d)%Z ds 0%Z.

Definition sign (s : string) : bool * string :=
  match s with
  | String "-"%char r => (true, r)
  | String "+"%char r => (false, r)
  | _ => (false, s)
  end.

Definition exponent (s : string) : option Z :=
  match s with
  | EmptyString => Some 0%Z
  | String c r =>
      if Ascii.eqb c "e"%char || Ascii.eqb c "E"%char then
        let '(neg, r1) := sign r in
        match digits r1 with
        | (d :: ds, EmptyString) =>
            let e := Z_of_digits (d :: ds) in
            Some (if neg then (- e)%Z else e)
        | _ => None
        end
      else None
  end.

Definition float (s : string) : result R :=
  let '(neg, s1) := sign (strip s) in
  let '(ip, s2) := digits s1 in
  let '(fp, s3) :=
    match s2 with
    | String "."%char r => digits r
    | _ => ([], s2)
    end in
  match ip ++ fp, exponent s3 with
  | _ :: _, Some e =>
      let m := IZR (Z_of_digits (ip ++ fp)) in
      let v := (m / IZR (10 ^ Z.of_nat (length fp)) * powerRZ 10 e)%R in
      Ok (if neg then (- v)%R else v)
  | _, _ => Raise ValueError
  end.

End Py.

(** ** model.py *)

(** A candidate block: an opaque module taking a feature tensor to a feature
    tensor; it may raise, e.g. on a shape it does not accept. *)
Definition Block : Type := torch.T4 -> result torch.T4.

(** The values the running feature data can hold: a 4-D tensor, or the
    integer that the builtin [sum] returns for an empty list. *)
Inductive pyval : Type :=
| PyInt (z : Z)
| PyTensor (t : torch.Tensor torch.T4).

(** [op(x)] for a module [op]: the output depends differentiably on the
    input; a module rejects an argument that is not a tensor. *)
Definition call (op : Block) (x : pyval) : result (torch.Tensor torch.T4) :=
  match x with
  | PyTensor t => r <- op (torch.data t) ;; Ok (torch.mkTensor r (torch.leaves t))
  | PyInt _ => Raise TypeError
  end.

(** [acc + t] as the builtin [sum] performs it. *)
Definition py_add (acc : pyval) (t : torch.Tensor torch.T4) : result pyval :=
  match acc with
  | PyInt z => Ok (PyTensor (torch.op1 (torch.map4 (Rplus (IZR z))) t))
  | PyTensor a => c <- torch.op2M torch.add4 a t ;; Ok (PyTensor c)
  end.

(** [sum(tmp)]: starts from the integer 0. *)
Definition py_sum (tmp : list (torch.Tensor torch.T4)) : result pyval :=
  foldM py_add tmp (PyInt 0).

(** The module [nn.Sequential] built from [mods], applied to [x]. *)
Fixpoint Sequential (mods : list Block) (x : pyval) : result pyval :=
  match mods with
  | [] => Ok x
  | m :: r => y <- call m x ;; Sequential r (PyTensor y)
  end.

Module MixedOp.

Import torch.

(** One round of the loop of [forward]: [w * op(x)] with
    [w = weights[..., i].reshape((-1, 1, 1, 1))]. *)
Definition term (x : pyval) (weights : Tensor T2) (i : nat) (op : Block)
  : result (Tensor T4) :=
  r <- call op x ;;
  w <- column i (data weights) ;;
  res <- mul_per_example w (data r) ;;
  Ok (mkTensor res (union (leaves weights) (leaves r))).

Definition forward (_ops : list Block) (x : pyval) (weights : Tensor T2)
  : result pyval :=
  tmp <- mapM (fun '(i, op) => term x weights i op) (enumerate _ops) ;;
  py_sum tmp.

End MixedOp.

Module FBNet.

Import torch.
Local Open Scope R_scope.

(** An element of [blocks]: a single module, a list of candidate modules, or
    any other object. *)
Inductive entry : Type :=
| Module_ (b : Block)
| List_ (bs : list Block)
| Other.

(** [nn.Linear]. *)
Record Linear : Type := mkLinear {
  in_features : nat;
  out_features : nat;
  weight : T2;
  bias : T1
}.

Record t : Type := mk {
  _alpha : R;
  _beta : R;
  theta : list (Tensor T1);
  _ops : list (list Block);
  _blocks : list entry;
  _input_conv : list Block;
  _input_conv_count : nat;
  _output_conv : list Block;
  _speed : list string;
  classifier : Linear;
  (* set by forward *)
  batch_size : option nat;
  ce : option (Tensor R);
  lat_loss : option (Tensor R);
  loss : option (Tensor R);
  acc : option (Tensor R)
}.

(** The leading modules of a sequence, up to the first element that is not
    a module (the loops at lines 51-56 and 68-73). *)
Fixpoint leading_modules (blocks : list entry) : list Block :=
  match blocks with
  | Module_ b :: r => b :: leading_modules r
  | _ => []
  end.

(** The elements that are lists, in order (the loop at lines 59-66). *)
Fixpoint lists (blocks : list entry) : list (list Block) :=
  match blocks with
  | [] => []
  | List_ b :: r => b :: lists r
  | _ :: r => lists r
  end.

(** [FBNet.__init__].  [files] maps a path to the text of the file, if it
    can be opened; [fc] holds the initial weights drawn for the classifier. *)
Definition init (files : string -> option string)
  (num_classes : nat) (blocks : list entry) (init_theta : R)
  (speed_f : string) (alpha beta : R) (fc : T2 * T1) : result t :=
  let tmp := leading_modules blocks in
  let input_conv_count := length tmp in
  let theta :=
    map (fun '(i, b) => nn_Parameter i (List.repeat init_theta (length b)))
        (enumerate (lists blocks)) in
  let ops := lists blocks in
  let input_conv_count' := (input_conv_count + length (lists blocks))%nat in
  let tmp' := leading_modules (skipn input_conv_count' blocks) in
  if negb (length theta =? 22)%nat then Raise AssertionError else
  match files speed_f with
  | None => Raise IOError
  | Some text =>
      Ok (mk alpha beta theta ops blocks tmp input_conv_count tmp'
             (Py.readlines text)
             (mkLinear 1984 num_classes (fst fc) (snd fc))
             None None None None None)
  end.

(** Lines 98-99: the latency row of a layer. *)
Definition speed_row (line : string) (blk_len : nat) : result (list R) :=
  mapM Py.float (firstn blk_len (Py.split_space (Py.strip line))).

(** The loop of [forward] (lines 87-106) over the blocks that follow the
    input stem; [g] gives the Gumbel draws of the [theta_idx]-th sampling. *)
Fixpoint layers (g : nat -> nat -> nat -> R) (self : t)
  (thetas : list (Tensor T1)) (batch_size : nat) (temperature : R)
  (blocks : list entry) (theta_idx : nat) (data : pyval)
  (lat : list (Tensor R)) : result (pyval * list (Tensor R)) :=
  match blocks with
  | List_ block :: rest =>
      let blk_len := length block in
      theta <- index thetas theta_idx ;;
      let t := op1 (repeat_rows batch_size) theta in
      let weight := op1 (fun t => gumbel_softmax (g theta_idx) t temperature) t in
      line <- index (_speed self) theta_idx ;;
      speed <- speed_row line blk_len ;;
      lat_ <- op2M mul2 weight
                (op1 (repeat_rows batch_size) (tensor_of_floats speed)) ;;
      let lat := (lat ++ [op1 sum2 lat_])%list in
      op <- index (_ops self) theta_idx ;;
      data <- MixedOp.forward op data weight ;;
      layers g self thetas batch_size temperature rest (S theta_idx) data lat
  | _ => Ok (data, lat)
  end.

(** [nn.functional.avg_pool2d(data, data.size()[2:])]: every channel is
    averaged over its whole spatial extent.  The two trailing dimensions of
    size one are left out of the result. *)
Definition mean2 (channel : T2) : result R :=
  let n := length (concat channel) in
  if (n =? 0)%nat then Raise RuntimeError
  else Ok (sum1 (concat channel) / INR n).

Definition avg_pool2d (x : T4) : result T2 := mapM (mapM mean2) x.

Fixpoint chunks (size rows : nat) (l : list R) : T2 :=
  match rows with
  | O => []
  | S r => firstn size l :: chunks size r (skipn size l)
  end.

(** [x.reshape((rows, -1))]. *)
Definition reshape (rows : nat) (x : T2) : result T2 :=
  let flat := concat x in
  if (rows =? 0)%nat then Raise RuntimeError
  else if negb (length flat mod rows =? 0)%nat then Raise RuntimeError
  else Ok (chunks (length flat / rows) rows flat).

Definition dot (x w : T1) : R :=
  sum1 (map (fun '(a, b) => a * b) (combine x w)).

(** [self.classifier(x)], for a weight of [out_features] rows of
    [in_features] entries each. *)
Definition Linear_forward (l : Linear) (x : T2) : result T2 :=
  mapM (fun row =>
          if negb (length row =? in_features l)%nat then Raise RuntimeError
          else Ok (map (fun '(w, b) => dot row w + b)
                       (combine (weight l) (bias l))))
       x.

(** The cross-entropy of one example: minus the log-softmax of its logits
    at the target class. *)
Definition cross_entropy (row : T1) (target : nat) : result R :=
  x <- index row target ;; Ok (ln (sum1 (map exp row)) - x).

(** One example under [nn.CrossEntropyLoss()]: a target equal to
    [ignore_index] (-100) is left out, any other must be a class index. *)
Definition example_loss (row : T1) (target : Z) : result (option R) :=
  if (target =? -100)%Z then Ok None
  else if (target <? 0)%Z then Raise RuntimeError
  else match cross_entropy row (Z.to_nat target) with
       | Ok v => Ok (Some v)
       | Raise _ => Raise RuntimeError
       end.

Fixpoint somes {A : Type} (l : list (option A)) : list A :=
  match l with
  | [] => []
  | Some a :: r => a :: somes r
  | None :: r => somes r
  end.

(** [nn.CrossEntropyLoss()(logits, target)], with the default reduction:
    the mean over the examples that are not ignored. *)
Definition CrossEntropyLoss (logits : T2) (target : list Z) : result R :=
  if negb (length logits =? length target)%nat then Raise ValueError
  else
    losses <- zipM example_loss logits target ;;
    Ok (sum1 (somes losses) / INR (length (somes losses))).

(** Index of the first maximal entry, scanning from position [i]. *)
Fixpoint argmax_from (best_i : nat) (best : R) (i : nat) (l : T1) : nat :=
  match l with
  | [] => best_i
  | x :: r =>
      if Rlt_dec best x then argmax_from i x (S i) r
      else argmax_from best_i best (S i) r
  end.

Definition argmax_row (row : T1) : result nat :=
  match row with
  | [] => Raise IndexError
  | x :: r => Ok (argmax_from 0 x 1 r)
  end.

(** [torch.argmax(logits, dim=1)]. *)
Definition argmax (logits : T2) : result (list nat) := mapM argmax_row logits.

(** [torch.sum(pred == target).float()]. *)
Definition count_equal (pred : list nat) (target : list Z) : result R :=
  eqs <- broadcast (pure2 (fun p y => (Z.of_nat p =? y)%Z)) pred target ;;
  Ok (INR (length (filter (fun b : bool => b) eqs))).

(** [x.pow(y)] on reals: the real power of a positive base; for a negative
    base the integer power when [y] is integer-valued; 0 to the power 0 is
    1 and 0 to a positive power is 0.  Where the float result is [inf] (a
    zero base with a negative exponent) or [nan] (a negative base with an
    exponent that is not an integer) the value chosen here is 0. *)
Definition pow (x y : R) : R :=
  if Rlt_dec 0 x then Rpower x y
  else if Req_dec_T x 0 then (if Req_dec_T y 0 then 1 else 0)
  else if Req_dec_T y (IZR (Int_part y)) then powerRZ x (Int_part y)
  else 0.

(** The four values [forward] returns, in order. *)
Record ret : Type := mkRet {
  ret_loss : Tensor R;
  ret_ce : Tensor R;
  ret_lat_loss : Tensor R;
  ret_acc : Tensor R
}.

(** Lines 82-113: the logits of the batch and the per-layer latencies. *)
Definition features (g : nat -> nat -> nat -> R) (self : t)
  (input : Tensor T4) (temperature : option R)
  (theta_list : option (list (Tensor T1)))
  : result (Tensor T2 * list (Tensor R)) :=
  let temperature := match temperature with Some v => v | None => 5 end in
  let batch_size := length (data input) in
  data0 <- Sequential (_input_conv self) (PyTensor input) ;;
  let thetas := match theta_list with None => theta self | Some l => l end in
  '(data1, lat) <- layers g self thetas batch_size temperature
                     (skipn (_input_conv_count self) (_blocks self)) 0 data0 [] ;;
  data2 <- Sequential (_output_conv self) data1 ;;
  match data2 with
  | PyInt _ => Raise AttributeError
  | PyTensor x =>
      pooled <- avg_pool2d (data x) ;;
      flat <- reshape batch_size pooled ;;
      logits <- Linear_forward (classifier self) flat ;;
      Ok (mkTensor logits (leaves x), lat)
  end.

(** [FBNet.forward]: the returned tuple and the object with the attributes
    the call assigns. *)
Definition forward (g : nat -> nat -> nat -> R) (self : t)
  (input : Tensor T4) (target : list Z) (temperature : option R)
  (theta_list : option (list (Tensor T1))) : result (ret * t) :=
  let batch_size := length (data input) in
  '(logits, lat) <- features g self input temperature theta_list ;;
  let lat := tensor_of_scalars lat in
  c <- CrossEntropyLoss (data logits) target ;;
  let ce := op1 sum0 (mkTensor c (leaves logits)) in
  let lat_loss := op1 (fun l => sum1 l / INR batch_size) lat in
  let loss :=
    op2 Rplus ce (op1 (fun l => _alpha self * pow l (_beta self)) lat_loss) in
  pred <- argmax (data logits) ;;
  n <- count_equal pred target ;;
  let acc := constant (n / INR batch_size) in
  Ok (mkRet loss ce lat_loss acc,
      mk (_alpha self) (_beta self) (theta self) (_ops self) (_blocks self)
         (_input_conv self) (_input_conv_count self) (_output_conv self)
         (_speed self) (classifier self)
         (Some batch_size) (Some ce) (Some lat_loss) (Some loss) (Some acc)).

End FBNet.

(** ** The trainer *)

Module Trainer.

Import torch.
Local Open Scope R_scope.

(** Modelled from the spec: the class [AvgrageMeter] of the module [utils],
    which is not part of the sources.  A running metric is an accumulator
    (sum, count) of one tracked quantity; [reset] empties it. *)
Record AvgrageMeter : Type := mkMeter {
  sum : R;
  cnt : nat
}.

(** Modelled from the spec: [AvgrageMeter.reset], which leaves an empty
    accumulator. *)
Definition reset (m : AvgrageMeter) : AvgrageMeter := mkMeter 0 0.

(** Modelled from the spec: [AvgrageMeter.update], which adds one value to
    the accumulator. *)
Definition update (m : AvgrageMeter) (val : Tensor R) : AvgrageMeter :=
  mkMeter (sum m + data val) (S (cnt m)).

(** What the logger receives: the format used and its arguments. *)
Inductive record : Type :=
| ChangeTemperature (old new : R)
| StartTrainW (epoch : Z)
| StartTrainTheta (epoch : Z)
| Batch (epoch : Z) (step : nat) (speed : R)
    (loss_avg acc_avg ce_avg lat_avg : AvgrageMeter).

(** A lazy iterator, as the builtin [map] of Python 3 returns it: the calls
    it stands for happen when it is consumed. *)
Record iterator (A : Type) : Type := mkIter {
  pending : list A
}.

Definition py_map {A B : Type} (f : A -> B) (l : list A) : iterator B :=
  mkIter (map f l).

Section WithNetwork.

(** The network wrapped by [DataParallel], together with both optimizers
    and the learning-rate scheduler.  Their code lies outside model.py. *)
Variable Net : Type.
Variable Input Target : Type.

(** [self._mod(input, target, temp)]. *)
Variable mod_call :
  Net -> Input -> Target -> R -> result (FBNet.ret * Net).
(** [self._mod.batch_size] and [self.theta]. *)
Variable mod_batch_size : Net -> Z.
Variable mod_theta : Net -> list T1.
(** [loss.backward()]. *)
Variable backward : Tensor R -> Net -> result Net.
Variable w_opt_zero_grad w_opt_step : Net -> Net.
Variable t_opt_zero_grad t_opt_step : Net -> Net.
Variable w_sche_step : Net -> Net.
(** [str(x)] of a float32 scalar. *)
Variable str : R -> string.

Record t : Type := mk {
  _mod : Net;
  _tem_decay : R;
  temp : R;
  save_theta_prefix : string;
  _acc_avg : AvgrageMeter;
  _ce_avg : AvgrageMeter;
  _lat_avg : AvgrageMeter;
  _loss_avg : AvgrageMeter;
  (* created by the first assignment *)
  tic : option R;
  toc : option R;
  (* the surroundings: clock, logger, file system *)
  clock : nat -> R;
  ticks : nat;
  log : list record;
  files : string -> option string;
  writable : string -> bool
}.

Definition set_mod (self : t) (n : Net) : t :=
  mk n (_tem_decay self) (temp self) (save_theta_prefix self)
     (_acc_avg self) (_ce_avg self) (_lat_avg self) (_loss_avg self)
     (tic self) (toc self) (clock self) (ticks self) (log self)
     (files self) (writable self).

Definition set_temp (self : t) (v : R) : t :=
  mk (_mod self) (_tem_decay self) v (save_theta_prefix self)
     (_acc_avg self) (_ce_avg self) (_lat_avg self) (_loss_avg self)
     (tic self) (toc self) (clock self) (ticks self) (log self)
     (files self) (writable self).

Definition set_meters (self : t) (acc_avg ce_avg lat_avg loss_avg : AvgrageMeter)
  : t :=
  mk (_mod self) (_tem_decay self) (temp self) (save_theta_prefix self)
     acc_avg ce_avg lat_avg loss_avg
     (tic self) (toc self) (clock self) (ticks self) (log self)
     (files self) (writable self).

Definition set_tic (self : t) (v : R) : t :=
  mk (_mod self) (_tem_decay self) (temp self) (save_theta_prefix self)
     (_acc_avg self) (_ce_avg self) (_lat_avg self) (_loss_avg self)
     (Some v) (toc self) (clock self) (ticks self) (log self)
     (files self) (writable self).

Definition set_toc (self : t) (v : R) : t :=
  mk (_mod self) (_tem_decay self) (temp self) (save_theta_prefix self)
     (_acc_avg self) (_ce_avg self) (_lat_avg self) (_loss_avg self)
     (tic self) (Some v) (clock self) (ticks self) (log self)
     (files self) (writable self).

(** [time.time()]: the next reading of the clock. *)
Definition time (self : t) : R * t :=
  (clock self (ticks self),
   mk (_mod self) (_tem_decay self) (temp self) (save_theta_prefix self)
      (_acc_avg self) (_ce_avg self) (_lat_avg self) (_loss_avg self)
      (tic self) (toc self) (clock self) (S (ticks self)) (log self)
      (files self) (writable self)).

(** [self.logger.info(...)]. *)
Definition info (self : t) (r : record) : t :=
  mk (_mod self) (_tem_decay self) (temp self) (save_theta_prefix self)
     (_acc_avg self) (_ce_avg self) (_lat_avg self) (_loss_avg self)
     (tic self) (toc self) (clock self) (ticks self) (log self ++ [r])
     (files self) (writable self).

(** [open(path, 'w')], the writes, and the close: the file holds [text]. *)
Definition write_file (self : t) (path text : string) : result t :=
  if writable self path then
    Ok (mk (_mod self) (_tem_decay self) (temp self) (save_theta_prefix self)
           (_acc_avg self) (_ce_avg self) (_lat_avg self) (_loss_avg self)
           (tic self) (toc self) (clock self) (ticks self) (log self)
           (fun p => if String.eqb p path then Some text else files self p)
           (writable self))
  else Raise IOError.

(** [tmp = self.temp; self.temp *= ratio] and the log line (lines 183-185,
    196-198 and 202-207).  The product is the exact one; a product of
    floats is rounded, and can underflow to 0.0. *)
Definition decay (self : t) (ratio : R) : t :=
  let tmp := temp self in
  let self := set_temp self (temp self * ratio) in
  info self (ChangeTemperature tmp (temp self)).

(** [train_w]: update the model parameters. *)
Definition train_w (self : t) (input : Input) (target : Target)
  (decay_temperature : bool) : result (FBNet.ret * t) :=
  let self := set_mod self (w_opt_zero_grad (_mod self)) in
  '(out, net) <- mod_call (_mod self) input target (temp self) ;;
  net <- backward (FBNet.ret_loss out) net ;;
  let self := set_mod self (w_opt_step net) in
  let self := if decay_temperature then decay self (_tem_decay self) else self in
  Ok (out, self).

(** [train_t]: update theta. *)
Definition train_t (self : t) (input : Input) (target : Target)
  (decay_temperature : bool) : result (FBNet.ret * t) :=
  let self := set_mod self (t_opt_zero_grad (_mod self)) in
  '(out, net) <- mod_call (_mod self) input target (temp self) ;;
  net <- backward (FBNet.ret_loss out) net ;;
  let self := set_mod self (t_opt_step net) in
  let self := if decay_temperature then decay self (_tem_decay self) else self in
  Ok (out, self).

Definition decay_temperature (self : t) (decay_ratio : option R) : t :=
  match decay_ratio with
  | None => decay self (_tem_decay self)
  | Some r => decay self r
  end.

(** [_step]: one step of training.  The builtin [map] only builds an
    iterator over the [reset] calls; nothing consumes it. *)
Definition _step (self : t) (input : Input) (target : Target)
  (epoch : Z) (step : nat) (log_frequence : Z)
  (func : t -> Input -> Target -> result (FBNet.ret * t)) : result t :=
  '(out, self) <- func self input target ;;
  let batch_size := mod_batch_size (_mod self) in
  let self :=
    set_meters self
      (update (_acc_avg self) (FBNet.ret_acc out))
      (update (_ce_avg self) (FBNet.ret_ce out))
      (update (_lat_avg self) (FBNet.ret_lat_loss out))
      (update (_loss_avg self) (FBNet.ret_loss out)) in
  if (1 <? step)%nat then
    if (log_frequence =? 0)%Z then Raise ZeroDivisionError
    else if (Z.of_nat step mod log_frequence =? 0)%Z then
      let '(now, self) := time self in
      let self := set_toc self now in
      match tic self with
      | None => Raise AttributeError
      | Some tic0 =>
          if Req_dec_T (now - tic0) 0 then Raise ZeroDivisionError
          else
            let speed := 1 * IZR (batch_size * log_frequence) / (now - tic0) in
            let self :=
              info self (Batch epoch step speed (_loss_avg self)
                           (_acc_avg self) (_ce_avg self) (_lat_avg self)) in
            let _unused :=
              py_map reset [_loss_avg self; _acc_avg self;
                            _ce_avg self; _lat_avg self] in
            let '(now', self) := time self in
            Ok (set_tic self now')
      end
    else Ok self
  else Ok self.

(** The loop of [save_theta] (lines 278-282): the list returned and the text
    written so far. *)
Definition save_line (acc : list T1 * string) (t_list : T1) : list T1 * string :=
  let '(res, text) := acc in
  let s := Py.join " " (map str t_list) in
  ((res ++ [t_list])%list, (text ++ (s ++ Py.newline))%string).

Definition save_theta (self : t) (save_path : string) : result (list T1 * t) :=
  if negb (writable self save_path) then Raise IOError else
  let '(res, text) := fold_left save_line (mod_theta (_mod self)) ([], EmptyString) in
  self <- write_file self save_path text ;;
  Ok (res, self).

(** [range(n)]. *)
Definition range (n : Z) : list Z := map Z.of_nat (seq 0 (Z.to_nat n)).

(** ['./theta-result/%s_theta_epoch_%d.txt' % (prefix, epoch)]. *)
Definition theta_path (prefix : string) (epoch : Z) : string :=
  ("./theta-result/" ++ prefix ++ "_theta_epoch_"
   ++ NilZero.string_of_int (Z.to_int epoch) ++ ".txt")%string.

(** [search]. *)
Definition search (self : t) (train_w_ds train_t_ds : list (Input * Target))
  (total_epoch start_w_epoch log_frequence : Z) : result t :=
  if negb (1 <=? start_w_epoch)%Z then Raise AssertionError else
  let '(now, self) := time self in
  let self := set_tic self now in
  self <-
    foldM (fun self epoch =>
             let self := info self (StartTrainW epoch) in
             foldM (fun self '(step, (input, target)) =>
                      self <- _step self input target epoch step log_frequence
                                (fun s x y => train_w s x y false) ;;
                      Ok (set_mod self (w_sche_step (_mod self))))
                   (enumerate train_w_ds) self)
          (range start_w_epoch) self ;;
  let '(now, self) := time self in
  let self := set_tic self now in
  foldM (fun self epoch =>
           let self := info self (StartTrainTheta (epoch + start_w_epoch)) in
           self <-
             foldM (fun self '(step, (input, target)) =>
                      self <- _step self input target (epoch + start_w_epoch)
                                step log_frequence
                                (fun s x y => train_t s x y false) ;;
                      '(_, self) <- save_theta self
                                      (theta_path (save_theta_prefix self)
                                                  (epoch + start_w_epoch)) ;;
                      Ok self)
                   (enumerate train_t_ds) self ;;
           let self := decay_temperature self None in
           let self := info self (StartTrainW (epoch + start_w_epoch)) in
           foldM (fun self '(step, (input, target)) =>
                    self <- _step self input target (epoch + start_w_epoch)
                              step log_frequence
                              (fun s x y => train_w s x y false) ;;
                    Ok (set_mod self (w_sche_step (_mod self))))
                 (enumerate train_w_ds) self)
        (range total_epoch) self.

End WithNetwork.

End Trainer.

(** ** A small supernet

    One stem module followed by 22 groups of two candidates.  Every module
    returns, for each example, 1984 channels of size 1x1 holding zero. *)

Module Tiny.

Import torch.
Local Open Scope R_scope.

Definition zeros (n : nat) : T1 := List.repeat 0 n.

Definition feature_map : T3 := List.repeat [[0]] 1984.

Definition block : Block := fun x => Ok (map (fun _ => feature_map) x).

Definition blocks : list FBNet.entry :=
  FBNet.Module_ block :: List.repeat (FBNet.List_ [block; block]) 22.

Definition speed_text : string :=
  String.concat EmptyString (List.repeat ("1.0 2.0" ++ Py.newline)%string 22).

Definition files (p : string) : option string :=
  if String.eqb p "./speed.txt" then Some speed_text else None.

Definition fc : T2 * T1 := ([zeros 1984; zeros 1984], [0; 0]).

Definition thetas : list (Tensor T1) :=
  map (fun i => nn_Parameter i [1; 1]) (seq 0 22).

Definition net : FBNet.t :=
  FBNet.mk (2 / 10) (6 / 10) thetas (List.repeat [block; block] 22) blocks
    [block] 1 [] (List.repeat ("1.0 2.0" ++ Py.newline)%string 22)
    (FBNet.mkLinear 1984 2 (fst fc) (snd fc)) None None None None None.

(** A batch of two examples with labels 0 and 0. *)
Definition input : Tensor T4 := constant [[[[0]]]; [[[0]]]].
Definition target : list Z := [0%Z; 0%Z].

(** Gumbel draws that are all zero. *)
Definition gumbels (layer n k : nat) : R := 0.

(** The same files, the latency rows written with two spaces between the
    values. *)
Definition speed_text2 : string :=
  String.concat EmptyString (List.repeat ("1.0  2.0" ++ Py.newline)%string 22).

Definition files2 (p : string) : option string :=
  if String.eqb p "./speed.txt" then Some speed_text2 else None.

Definition net2 : FBNet.t :=
  FBNet.mk (2 / 10) (6 / 10) thetas (List.repeat [block; block] 22) blocks
    [block] 1 [] (List.repeat ("1.0  2.0" ++ Py.newline)%string 22)
    (FBNet.mkLinear 1984 2 (fst fc) (snd fc)) None None None None None.

(** 22 groups with a single module between the second and the third. *)
Definition blocks_interleaved : list FBNet.entry :=
  FBNet.Module_ block
    :: List.repeat (FBNet.List_ [block; block]) 2
    ++ FBNet.Module_ block :: List.repeat (FBNet.List_ [block; block]) 20.

End Tiny.

(** ** blocks_se.py

    The block factory of the MXNet version (fbnet-symbol/blocks_se.py).
    MXNet itself lies outside the sources: its symbols, the state of the
    library in which symbols are created, and the Python numbers handed to
    it are kept abstract, and every call into the library may raise.  The
    embedding fixes which calls are made, in which order and with which
    arguments. *)

Unset Implicit Arguments.

Module blocks_se.

Local Open Scope string_scope.

Section WithMXNet.

(** [mx.sym.Symbol], and the state of the library. *)
Variable Symbol : Type.
Variable Graph : Type.

(** Python numbers: a literal by its text, [a * b] and [int(a)]. *)
Variable number : Type.
Variable literal : string -> number.
Variable mul : number -> number -> result number.
Variable int : number -> result number.

(** An argument of a call into MXNet. *)
Inductive value : Type :=
| Num (n : number)
| Bool (b : bool)
| Str (s : string)
| Tuple (l : list number)
| Sym (s : Symbol).

(** A call of a function of [mx.sym] by its name, with its positional and
    its keyword arguments; [a + b] on symbols; [s._set_attr] with its
    keyword arguments. *)
Variable create :
  string -> list value -> list (string * value) -> Graph
  -> result (Symbol * Graph).
Variable add : Symbol -> Symbol -> Graph -> result (Symbol * Graph).
Variable _set_attr : Symbol -> list (string * string) -> Graph -> result Graph.

Definition channel_shuffle (data : Symbol) (groups : number) (g : Graph)
  : result (Symbol * Graph) :=
  '(data, g) <- create "reshape" [Sym data]
                  [("shape", Tuple [literal "0"; literal "-4"; groups;
                                    literal "-1"; literal "-2"])] g ;;
  '(data, g) <- create "swapaxes" [Sym data; Num (literal "1"); Num (literal "2")]
                  [] g ;;
  create "reshape" [Sym data]
    [("shape", Tuple [literal "0"; literal "-3"; literal "-2"])] g.

(** [type in ['bottle_neck', 'resnet', 'shape']]. *)
Definition known_type (type : string) : bool :=
  existsb (String.eqb type) ["bottle_neck"; "resnet"; "shape"].

(** [type == ['shape']]: a string compared with a list, which are never
    equal. *)
Definition eq_str_list (type : string) (l : list string) : bool := false.

(** [block_factory_se], for [name] and [type] strings and flags that are
    booleans.  The flag [bn] only guards a [pass], and [kwargs] is not
    read. *)
Definition block_factory_se (input_symbol : Symbol) (num_filter : number)
  (name : string) (k_size : number) (type : string)
  (group stride : number) (bn : bool) (bn_mom workspace expansion ratio : number)
  (se shuffle dim_match memonger : bool) (kwargs : list (string * value))
  (g : Graph) : result (Symbol * Graph) :=
  if negb (known_type type) then Raise AssertionError else
  let data := input_symbol in
  if type =? "bottle_neck" then
    '(bn1, g) <- create "BatchNorm" []
      [("data", Sym data); ("fix_gamma", Bool false);
       ("eps", Num (literal "2e-5")); ("momentum", Num bn_mom);
       ("name", Str (name ++ "_bn1"))] g ;;
    '(act1, g) <- create "Activation" []
      [("data", Sym bn1); ("act_type", Str "relu");
       ("name", Str (name ++ "_relu1"))] g ;;
    n1 <- (p <- mul num_filter expansion ;; q <- mul p (literal "0.25") ;; int q) ;;
    '(conv1, g) <- create "Convolution" []
      [("data", Sym act1); ("num_filter", Num n1);
       ("kernel", Tuple [literal "1"; literal "1"]);
       ("stride", Tuple [literal "1"; literal "1"]);
       ("pad", Tuple [literal "0"; literal "0"]); ("num_group", Num group);
       ("no_bias", Bool true); ("workspace", Num workspace);
       ("name", Str (name ++ "_conv1"))] g ;;
    '(data, g) <- (if shuffle then channel_shuffle data group g else Ok (data, g)) ;;
    '(bn2, g) <- create "BatchNorm" []
      [("data", Sym conv1); ("fix_gamma", Bool false);
       ("eps", Num (literal "2e-5")); ("momentum", Num bn_mom);
       ("name", Str (name ++ "_bn2"))] g ;;
    '(act2, g) <- create "Activation" []
      [("data", Sym bn2); ("act_type", Str "relu");
       ("name", Str (name ++ "_relu2"))] g ;;
    n2 <- (q <- mul num_filter (literal "0.25") ;; int q) ;;
    '(conv2, g) <- create "Convolution" []
      [("data", Sym act2); ("num_filter", Num n2);
       ("kernel", Tuple [k_size; k_size]); ("stride", Tuple [stride; stride]);
       ("pad", Tuple [literal "1"; literal "1"]); ("no_bias", Bool true);
       ("workspace", Num workspace); ("name", Str (name ++ "_conv2"))] g ;;
    '(bn3, g) <- create "BatchNorm" []
      [("data", Sym conv2); ("fix_gamma", Bool false);
       ("eps", Num (literal "2e-5")); ("momentum", Num bn_mom);
       ("name", Str (name ++ "_bn3"))] g ;;
    '(act3, g) <- create "Activation" []
      [("data", Sym bn3); ("act_type", Str "relu");
       ("name", Str (name ++ "_relu3"))] g ;;
    '(conv3, g) <- create "Convolution" []
      [("data", Sym act3); ("num_filter", Num num_filter);
       ("kernel", Tuple [literal "1"; literal "1"]);
       ("stride", Tuple [literal "1"; literal "1"]);
       ("pad", Tuple [literal "0"; literal "0"]); ("no_bias", Bool true);
       ("workspace", Num workspace); ("name", Str (name ++ "_conv3"))] g ;;
    '(conv3, g) <-
      (if se then
         '(squeeze, g) <- create "Pooling" []
           [("data", Sym conv3); ("global_pool", Bool true);
            ("kernel", Tuple [literal "7"; literal "7"]);
            ("pool_type", Str "avg"); ("name", Str (name ++ "_squeeze"))] g ;;
         '(squeeze, g) <- create "Flatten" []
           [("data", Sym squeeze); ("name", Str (name ++ "_flatten"))] g ;;
         hidden <- (p <- mul num_filter ratio ;; int p) ;;
         '(excitation, g) <- create "FullyConnected" []
           [("data", Sym squeeze); ("num_hidden", Num hidden);
            ("name", Str (name ++ "_excitation1"))] g ;;
         '(excitation, g) <- create "Activation" []
           [("data", Sym excitation); ("act_type", Str "relu");
            ("name", Str (name ++ "_excitation1_relu"))] g ;;
         '(excitation, g) <- create "FullyConnected" []
           [("data", Sym excitation); ("num_hidden", Num num_filter);
            ("name", Str (name ++ "_excitation2"))] g ;;
         '(excitation, g) <- create "Activation" []
           [("data", Sym excitation); ("act_type", Str "sigmoid");
            ("name", Str (name ++ "_excitation2_sigmoid"))] g ;;
         '(shaped, g) <- create "reshape" []
           [("data", Sym excitation);
            ("shape", Tuple [literal "-1"; num_filter; literal "1"; literal "1"])] g ;;
         create "broadcast_mul" [Sym conv3; Sym shaped] [] g
       else Ok (conv3, g)) ;;
    '(shortcut, g) <-
      (if dim_match then Ok (data, g)
       else
         create "Convolution" []
           [("data", Sym act1); ("num_filter", Num num_filter);
            ("kernel", Tuple [literal "1"; literal "1"]);
            ("stride", Tuple [stride; stride]); ("no_bias", Bool true);
            ("workspace", Num workspace); ("name", Str (name ++ "_sc"))] g) ;;
    g <- (if memonger then _set_attr shortcut [("mirror_stage", "True")] g
          else Ok g) ;;
    add conv3 shortcut g
  else if type =? "resnet" then
    '(bn1, g) <- create "BatchNorm" []
      [("data", Sym data); ("fix_gamma", Bool false); ("momentum", Num bn_mom);
       ("eps", Num (literal "2e-5")); ("name", Str (name ++ "_bn1"))] g ;;
    '(act1, g) <- create "Activation" []
      [("data", Sym bn1); ("act_type", Str "relu");
       ("name", Str (name ++ "_relu1"))] g ;;
    '(conv1, g) <- create "Convolution" []
      [("data", Sym act1); ("num_filter", Num num_filter);
       ("kernel", Tuple [k_size; k_size]); ("stride", Tuple [stride; stride]);
       ("pad", Tuple [literal "1"; literal "1"]); ("no_bias", Bool true);
       ("workspace", Num workspace); ("name", Str (name ++ "_conv1"))] g ;;
    '(bn2, g) <- create "BatchNorm" []
      [("data", Sym conv1); ("fix_gamma", Bool false);
       ("momentum", Num bn_mom); ("eps", Num (literal "2e-5"));
       ("name", Str (name ++ "_bn2"))] g ;;
    '(act2, g) <- create "Activation" []
      [("data", Sym bn2); ("act_type", Str "relu");
       ("name", Str (name ++ "_relu2"))] g ;;
    '(conv2, g) <- create "Convolution" []
      [("data", Sym act2); ("num_filter", Num num_filter);
       ("kernel", Tuple [k_size; k_size]);
       ("stride", Tuple [literal "1"; literal "1"]);
       ("pad", Tuple [literal "1"; literal "1"]); ("no_bias", Bool true);
       ("workspace", Num workspace); ("name", Str (name ++ "_conv2"))] g ;;
    '(conv2, g) <-
      (if se then
         '(squeeze, g) <- create "Pooling" []
           [("data", Sym conv2); ("global_pool", Bool true);
            ("kernel", Tuple [literal "7"; literal "7"]);
            ("pool_type", Str "avg"); ("name", Str (name ++ "_squeeze"))] g ;;
         '(squeeze, g) <- create "Flatten" []
           [("data", Sym squeeze); ("name", Str (name ++ "_flatten"))] g ;;
         hidden <- (p <- mul num_filter ratio ;; int p) ;;
         '(excitation, g) <- create "FullyConnected" []
           [("data", Sym squeeze); ("num_hidden", Num hidden);
            ("name", Str (name ++ "_excitation1"))] g ;;
         '(excitation, g) <- create "Activation" []
           [("data", Sym excitation); ("act_type", Str "relu");
            ("name", Str (name ++ "_excitation1_relu"))] g ;;
         '(excitation, g) <- create "FullyConnected" []
           [("data", Sym excitation); ("num_hidden", Num num_filter);
            ("name", Str (name ++ "_excitation2"))] g ;;
         '(excitation, g) <- create "Activation" []
           [("data", Sym excitation); ("act_type", Str "sigmoid");
            ("name", Str (name ++ "_excitation2_sigmoid"))] g ;;
         '(shaped, g) <- create "reshape" []
           [("data", Sym excitation);
            ("shape", Tuple [literal "-1"; num_filter; literal "1"; literal "1"])] g ;;
         create "broadcast_mul" [Sym conv2; Sym shaped] [] g
       else Ok (conv2, g)) ;;
    '(shortcut, g) <-
      (if dim_match then Ok (data, g)
       else
         create "Convolution" []
           [("data", Sym data); ("num_filter", Num num_filter);
            ("kernel", Tuple [literal "1"; literal "1"]);
            ("stride", Tuple [stride; stride]); ("no_bias", Bool true);
            ("workspace", Num workspace); ("name", Str (name ++ "_sc"))] g) ;;
    g <- (if memonger then _set_attr shortcut [("mirror_stage", "True")] g
          else Ok g) ;;
    add conv2 shortcut g
  else if eq_str_list type ["shape"] then
    '(bn1, g) <- create "BatchNorm" []
      [("data", Sym data); ("fix_gamma", Bool false); ("momentum", Num bn_mom);
       ("eps", Num (literal "2e-5")); ("name", Str (name ++ "_bn1"))] g ;;
    '(act1, g) <- create "Activation" []
      [("data", Sym bn1); ("act_type", Str "relu");
       ("name", Str (name ++ "_relu1"))] g ;;
    n <- (a <- mul (literal "2") k_size ;; b <- mul a k_size ;;
          c <- mul b (literal "4") ;; int c) ;;
    '(_offset, g) <- create "Convolution" []
      [("name", Str (name ++ "res5a_branch2b_offset")); ("data", Sym act1);
       ("num_filter", Num n); ("pad", Tuple [literal "2"; literal "2"]);
       ("kernel", Tuple [k_size; k_size]);
       ("stride", Tuple [literal "1"; literal "1"]);
       ("dilate", Tuple [literal "2"; literal "2"]); ("cudnn_off", Bool true)] g ;;
    '(data, g) <- create "contrib.DeformableConvolution" []
      [("name", Str "res5a_branch2b"); ("data", Sym act1);
       ("offset", Sym _offset); ("num_filter", Num (literal "512"));
       ("pad", Tuple [literal "2"; literal "2"]);
       ("kernel", Tuple [k_size; k_size]);
       ("num_deformable_group", Num (literal "4"));
       ("stride", Tuple [literal "1"; literal "1"]);
       ("dilate", Tuple [literal "2"; literal "2"]); ("no_bias", Bool true)] g ;;
    '(bn2, g) <- create "BatchNorm" []
      [("data", Sym data); ("fix_gamma", Bool false); ("momentum", Num bn_mom);
       ("eps", Num (literal "2e-5")); ("name", Str (name ++ "_bn2"))] g ;;
    '(act2, g) <- create "Activation" []
      [("data", Sym bn2); ("act_type", Str "relu");
       ("name", Str (name ++ "_relu2"))] g ;;
    n <- (a <- mul (literal "2") k_size ;; b <- mul a k_size ;;
          c <- mul b (literal "4") ;; int c) ;;
    '(_offset, g) <- create "Convolution" []
      [("name", Str (name ++ "res5a_branch2b_offset")); ("data", Sym act2);
       ("num_filter", Num n); ("pad", Tuple [literal "2"; literal "2"]);
       ("kernel", Tuple [k_size; k_size]);
       ("stride", Tuple [literal "1"; literal "1"]);
       ("dilate", Tuple [literal "2"; literal "2"]); ("cudnn_off", Bool true)] g ;;
    '(data, g) <- create "contrib.DeformableConvolution" []
      [("name", Str (name ++ "res5a_branch2b")); ("data", Sym act2);
       ("offset", Sym _offset); ("num_filter", Num (literal "512"));
       ("pad", Tuple [literal "2"; literal "2"]);
       ("kernel", Tuple [k_size; k_size]);
       ("num_deformable_group", Num (literal "4"));
       ("stride", Tuple [literal "1"; literal "1"]);
       ("dilate", Tuple [literal "2"; literal "2"]); ("no_bias", Bool true)] g ;;
    '(shortcut, g) <-
      (if dim_match then Ok (data, g)
       else
         create "Convolution" []
           [("data", Sym data); ("num_filter", Num num_filter);
            ("kernel", Tuple [literal "1"; literal "1"]);
            ("stride", Tuple [stride; stride]); ("no_bias", Bool true);
            ("workspace", Num workspace); ("name", Str (name ++ "_sc"))] g) ;;
    g <- (if memonger then _set_attr shortcut [("mirror_stage", "True")] g
          else Ok g) ;;
    add data shortcut g
  else
    (* raise("Not Support op %s" % type): a string is not an exception *)
    Raise TypeError.

End WithMXNet.

End blocks_se.

(** * Vocabulary of the properties *)

Unset Implicit Arguments.

(** [isinstance(b, list)]. *)
Definition is_list (b : FBNet.entry) : bool :=
  match b with
  | FBNet.List_ _ => true
  | _ => false
  end.

(** The number of candidate groups of a block sequence. *)
Definition group_count (blocks : list FBNet.entry) : nat :=
  length (filter is_list blocks).

(** The network [self] with [th] as stored theta. *)
Definition with_theta (self : FBNet.t) (th : list (torch.Tensor torch.T1))
  : FBNet.t :=
  FBNet.mk (FBNet._alpha self) (FBNet._beta self) th (FBNet._ops self)
    (FBNet._blocks self) (FBNet._input_conv self) (FBNet._input_conv_count self)
    (FBNet._output_conv self) (FBNet._speed self) (FBNet.classifier self)
    (FBNet.batch_size self) (FBNet.ce self) (FBNet.lat_loss self)
    (FBNet.loss self) (FBNet.acc self).

(** The result of a call, with the stored theta of the returned object
    replaced. *)
Definition restore_theta (th : list (torch.Tensor torch.T1))
  (r : result (FBNet.ret * FBNet.t)) : result (FBNet.ret * FBNet.t) :=
  match r with
  | Ok (out, s) => Ok (out, with_theta s th)
  | Raise e => Raise e
  end.

(** The number of examples whose predicted class is the target. *)
Definition matches (pred : list nat) (target : list Z) : nat :=
  length (filter (fun '(p, y) => (Z.of_nat p =? y)%Z) (combine pred target)).

Section TensorVocabulary.

Import torch.
Local Open Scope R_scope.

(** Entries of a tensor, 0 outside of it. *)
Definition get1 (r : T1) (w : nat) : R := nth w r 0.
Definition get2 (c : T2) (h w : nat) : R := get1 (nth h c []) w.
Definition get3 (e : T3) (c h w : nat) : R := get2 (nth c e []) h w.
Definition get4 (t : T4) (n c h w : nat) : R := get3 (nth n t []) c h w.

(** The sizes of a tensor along all dimensions. *)
Definition shape2 (c : T2) : list nat := map (@length R) c.
Definition shape3 (e : T3) : list (list nat) := map shape2 e.
Definition shape4 (t : T4) : list (list (list nat)) := map shape3 t.

(** Entrywise combination of two lists. *)
Definition zip_with {A B C : Type} (h : A -> B -> C) (xs : list A) (ys : list B)
  : list C :=
  map (fun '(x, y) => h x y) (combine xs ys).

(** Entrywise sums of tensors. *)
Definition plus1 : T1 -> T1 -> T1 := zip_with Rplus.
Definition plus2 : T2 -> T2 -> T2 := zip_with plus1.
Definition plus3 : T3 -> T3 -> T3 := zip_with plus2.
Definition plus4 : T4 -> T4 -> T4 := zip_with plus3.

(** The weight of candidate [i] for example [n]: one row of weights per
    example, or a single row for all. *)
Definition weight_at (ws : T2) (n i : nat) : R :=
  nth i (if (length ws =? 1)%nat then nth 0 ws [] else nth n ws []) 0.

(** The tensors appended to [tmp] by the loop of [MixedOp.forward]. *)
Definition scaled_by (ws : T2) (r : T4) (i : nat) (t : Tensor T4) : Prop :=
  shape4 (data t) = shape4 r
  /\ forall n c h w, (n < length r)%nat ->
       get4 (data t) n c h w = weight_at ws n i * get4 r n c h w.

End TensorVocabulary.

(** Two candidates on one example of two entries: the identity and the
    doubling; all the weight on the first. *)
Definition doubling : Block := fun x => Ok (torch.map4 (Rmult 2) x).
Definition keeping : Block := fun x => Ok x.
Definition one_example : torch.Tensor torch.T4 := torch.constant [[[[1%R; 2%R]]]].
Definition first_only : torch.Tensor torch.T2 := torch.constant [[1%R; 0%R]].

(** No character of [s] satisfies [sep]. *)
Fixpoint free_of (sep : ascii -> bool) (s : string) : Prop :=
  match s with
  | EmptyString => True
  | String c r => sep c = false /\ free_of sep r
  end.

(** A token: a non-empty string without whitespace. *)
Definition token (s : string) : Prop :=
  s <> EmptyString /\ free_of Py.isspace s.

(** The lists at the head of a block sequence: the layers the loop of
    [forward] handles. *)
Fixpoint leading_lists (blocks : list FBNet.entry) : list (list Block) :=
  match blocks with
  | FBNet.List_ b :: r => b :: leading_lists r
  | _ => []
  end.

(** What stands for a theta that does not exist. *)
Definition no_theta : torch.Tensor torch.T1 := torch.constant [].

(** The selection weights of layer [i]: one row per example. *)
Definition selection_weights (g : nat -> nat -> nat -> R)
  (thetas : list (torch.Tensor torch.T1)) (batch_size : nat) (temperature : R)
  (i : nat) : torch.T2 :=
  torch.gumbel_softmax (g i)
    (torch.repeat_rows batch_size (torch.data (nth i thetas no_theta)))
    temperature.

(** The sum over the examples and over the candidates of weight times
    latency. *)
Definition expected_latency (weights : torch.T2) (row : torch.T1) : R :=
  torch.sum1
    (map (fun wrow => torch.sum1 (zip_with Rmult wrow row)) weights).

(** Layer [i] with candidates [block]: theta has an entry per candidate and
    the latency row has at least as many values. *)
Definition row_fits (self : FBNet.t) (thetas : list (torch.Tensor torch.T1))
  (layer : nat * list Block) : Prop :=
  let '(i, block) := layer in
  length (torch.data (nth i thetas no_theta)) = length block
  /\ length block
     <= length (Py.split_space (Py.strip (nth i (FBNet._speed self) EmptyString))).

(** [p] is the power [x ** y], where it is a real number: a positive base,
    a negative base with an integer exponent, or the base 0 with an
    exponent that is not negative. *)
Definition power_is (x y p : R) : Prop :=
  ((0 < x)%R /\ p = Rpower x y)
  \/ ((x < 0)%R /\ exists k : Z, y = IZR k /\ p = powerRZ x k)
  \/ (x = 0%R /\ y = 0%R /\ p = 1%R)
  \/ (x = 0%R /\ (0 < y)%R /\ p = 0%R).

(** *** The searchable layers, as the specification describes them

    For each searchable layer, in order: the selection weights are the
    Gumbel-Softmax of the layer's entry of the theta list in use, one row
    per example; the expected latency of the layer is the sum of the
    weights times its latency row; and the running data goes through the
    mixed operation of the layer with these weights. *)

(** The selection weights of layer [i], with their history. *)
Definition layer_weights (g : nat -> nat -> nat -> R)
  (thetas : list (torch.Tensor torch.T1)) (batch_size : nat) (temperature : R)
  (i : nat) : result (torch.Tensor torch.T2) :=
  theta <- index thetas i ;;
  Ok (torch.op1
        (fun t => torch.gumbel_softmax (g i) (torch.repeat_rows batch_size t)
                    temperature)
        theta).

(** One searchable layer: from the running data and the latencies so far
    to the data and the latencies after the layer. *)
Definition mixed_layer (g : nat -> nat -> nat -> R) (self : FBNet.t)
  (thetas : list (torch.Tensor torch.T1)) (batch_size : nat) (temperature : R)
  (acc : pyval * list (torch.Tensor R)) (layer : nat * list Block)
  : result (pyval * list (torch.Tensor R)) :=
  let '(data, lat) := acc in
  let '(i, block) := layer in
  weight <- layer_weights g thetas batch_size temperature i ;;
  line <- index (FBNet._speed self) i ;;
  row <- FBNet.speed_row line (length block) ;;
  lat_ <- torch.op2M torch.mul2 weight
            (torch.op1 (torch.repeat_rows batch_size) (torch.tensor_of_floats row)) ;;
  op <- index (FBNet._ops self) i ;;
  data <- MixedOp.forward op data weight ;;
  Ok (data, (lat ++ [torch.op1 torch.sum2 lat_])%list).

(** What follows the searchable layers (lines 108-113): the output stem,
    the pooling and the classifier. *)
Definition after_layers (self : FBNet.t) (batch_size : nat) (data1 : pyval)
  : result (torch.Tensor torch.T2) :=
  data2 <- Sequential (FBNet._output_conv self) data1 ;;
  match data2 with
  | PyInt _ => Raise AttributeError
  | PyTensor x =>
      pooled <- FBNet.avg_pool2d (torch.data x) ;;
      flat <- FBNet.reshape batch_size pooled ;;
      logits <- FBNet.Linear_forward (FBNet.classifier self) flat ;;
      Ok (torch.mkTensor logits (torch.leaves x))
  end.

(** The logits and the latencies of a pass in which every searchable layer
    takes its weights from [thetas]. *)
Definition features_from (g : nat -> nat -> nat -> R) (self : FBNet.t)
  (input : torch.Tensor torch.T4) (temperature : R)
  (thetas : list (torch.Tensor torch.T1))
  : result (torch.Tensor torch.T2 * list (torch.Tensor R)) :=
  let batch_size := length (torch.data input) in
  data0 <- Sequential (FBNet._input_conv self) (PyTensor input) ;;
  '(data1, lat) <- foldM (mixed_layer g self thetas batch_size temperature)
                     (enumerate
                        (leading_lists
                           (skipn (FBNet._input_conv_count self)
                                  (FBNet._blocks self))))
                     (data0, []) ;;
  logits <- after_layers self batch_size data1 ;;
  Ok (logits, lat).

(** The line written for one theta vector, without the newline. *)
Definition theta_line (str : R -> string) (t_list : torch.T1) : string :=
  Py.join " " (map str t_list).

(** A trainer whose network is just its theta vectors, in a file system
    where every path can be written and no file exists yet. *)
Definition bare_trainer (thetas : list torch.T1) : Trainer.t (list torch.T1) :=
  Trainer.mk thetas (965 / 1000) 5 EmptyString
    (Trainer.mkMeter 0 0) (Trainer.mkMeter 0 0)
    (Trainer.mkMeter 0 0) (Trainer.mkMeter 0 0)
    None None (fun n => INR n) 0 [] (fun _ => None) (fun _ => true).

(** [str] on the value 1.0, the initial theta. *)
Definition str_one (x : R) : string := "1.0".

Section SearchPlan.

Variable Net : Type.
Variable Input Target : Type.
Variable mod_call :
  Net -> Input -> Target -> R -> result (FBNet.ret * Net).
Variable mod_batch_size : Net -> Z.
Variable mod_theta : Net -> list torch.T1.
Variable backward : torch.Tensor R -> Net -> result Net.
Variable w_opt_zero_grad w_opt_step : Net -> Net.
Variable t_opt_zero_grad t_opt_step : Net -> Net.
Variable w_sche_step : Net -> Net.
Variable str : R -> string.

(** The operations [search] is made of. *)
Inductive action : Type :=
| Tic
| Info (r : Trainer.record)
| WeightStep (epoch : Z) (step : nat) (input : Input) (target : Target)
| AdvanceScheduler
| ThetaStep (epoch : Z) (step : nat) (input : Input) (target : Target)
| SaveTheta (epoch : Z)
| DecayTemperature.

(** What each operation does to the trainer: [Tic] restarts the clock of
    the throughput figure, [WeightStep] and [ThetaStep] are [_step] with
    [train_w] and [train_t], [AdvanceScheduler] is [w_sche.step()]. *)
Definition perform (log_frequence : Z) (self : Trainer.t Net) (a : action)
  : result (Trainer.t Net) :=
  match a with
  | Tic => let '(now, self) := Trainer.time self in Ok (Trainer.set_tic self now)
  | Info r => Ok (Trainer.info self r)
  | WeightStep epoch step input target =>
      Trainer._step mod_batch_size self input target epoch step log_frequence
        (fun s x y =>
           Trainer.train_w mod_call backward w_opt_zero_grad w_opt_step s x y false)
  | AdvanceScheduler =>
      Ok (Trainer.set_mod self (w_sche_step (Trainer._mod self)))
  | ThetaStep epoch step input target =>
      Trainer._step mod_batch_size self input target epoch step log_frequence
        (fun s x y =>
           Trainer.train_t mod_call backward t_opt_zero_grad t_opt_step s x y false)
  | SaveTheta epoch =>
      '(_, self) <- Trainer.save_theta mod_theta str self
                      (Trainer.theta_path (Trainer.save_theta_prefix self) epoch) ;;
      Ok self
  | DecayTemperature => Ok (Trainer.decay_temperature self None)
  end.

(** One pass of weight training over a data set: a step on every batch,
    the scheduler advanced after each. *)
Definition weight_pass (epoch : Z) (ds : list (Input * Target)) : list action :=
  Info (Trainer.StartTrainW epoch)
    :: flat_map (fun '(step, (input, target)) =>
                   [WeightStep epoch step input target; AdvanceScheduler])
                (enumerate ds).

(** One pass of architecture training: a step on every batch, theta saved
    after each. *)
Definition theta_pass (epoch : Z) (ds : list (Input * Target)) : list action :=
  Info (Trainer.StartTrainTheta epoch)
    :: flat_map (fun '(step, (input, target)) =>
                   [ThetaStep epoch step input target; SaveTheta epoch])
                (enumerate ds).

(** The operations of a search, in order: the first passes of weight
    training, then per epoch a pass of architecture training, a temperature
    decay and a pass of weight training. *)
Definition search_plan (train_w_ds train_t_ds : list (Input * Target))
  (total_epoch start_w_epoch : Z) : list action :=
  Tic
    :: flat_map (fun epoch => weight_pass epoch train_w_ds)
                (Trainer.range start_w_epoch)
    ++ Tic
    :: flat_map (fun epoch =>
                   theta_pass (epoch + start_w_epoch) train_t_ds
                     ++ DecayTemperature
                     :: weight_pass (epoch + start_w_epoch) train_w_ds)
                (Trainer.range total_epoch).

End SearchPlan.

(** *** A recorded run

    A network that is the list of the calls made on it, so that a run of
    the trainer can be read off its final state.  Every forward pass
    returns loss 3, cross-entropy 1, latency 2 and accuracy 1/2 on a batch
    of 4. *)

Module Recorded.

Definition Net : Type := list string.

Definition out : FBNet.ret :=
  FBNet.mkRet (torch.constant 3%R) (torch.constant 1%R)
    (torch.constant 2%R) (torch.constant (1 / 2)%R).

Definition mod_call (n : Net) (input target : nat) (temp : R)
  : result (FBNet.ret * Net) :=
  Ok (out, n ++ ["forward"%string]).

Definition mod_batch_size (n : Net) : Z := 4%Z.
Definition mod_theta (n : Net) : list torch.T1 := [[1%R; 1%R]].

Definition backward (loss : torch.Tensor R) (n : Net) : result Net :=
  Ok (n ++ ["backward"%string]).

Definition w_opt_zero_grad (n : Net) : Net := n ++ ["w_opt.zero_grad"%string].
Definition w_opt_step (n : Net) : Net := n ++ ["w_opt.step"%string].
Definition t_opt_zero_grad (n : Net) : Net := n ++ ["t_opt.zero_grad"%string].
Definition t_opt_step (n : Net) : Net := n ++ ["t_opt.step"%string].
Definition w_sche_step (n : Net) : Net := n ++ ["w_sche.step"%string].

(** A new trainer: temperature 5, decay 0.965, empty meters, a clock that
    reads 1, 2, 3, ... and a file system that accepts every path. *)
Definition trainer : Trainer.t Net :=
  Trainer.mk [] (965 / 1000)%R 5%R "run"
    (Trainer.mkMeter 0 0) (Trainer.mkMeter 0 0)
    (Trainer.mkMeter 0 0) (Trainer.mkMeter 0 0)
    None None (fun n => (INR n + 1)%R) 0 [] (fun _ => None) (fun _ => true).

(** The same trainer once [search] has set [tic] to 0. *)
Definition started : Trainer.t Net := Trainer.set_tic trainer 0%R.

Definition train_w (s : Trainer.t Net) (x y : nat)
  : result (FBNet.ret * Trainer.t Net) :=
  Trainer.train_w mod_call backward w_opt_zero_grad w_opt_step s x y false.

End Recorded.

(** ** Vocabulary of the further properties *)

(** The candidate groups the loop of [forward] handles, and the theta
    vectors it reads. *)
Definition processed_groups (self : FBNet.t) : list (list Block) :=
  leading_lists (skipn (FBNet._input_conv_count self) (FBNet._blocks self)).

Definition thetas_used (self : FBNet.t)
  (theta_list : option (list (torch.Tensor torch.T1)))
  : list (torch.Tensor torch.T1) :=
  match theta_list with
  | None => FBNet.theta self
  | Some l => l
  end.

(** Layer [i] with candidates [block]: theta has an entry per candidate. *)
Definition theta_fits (thetas : list (torch.Tensor torch.T1))
  (layer : nat * list Block) : Prop :=
  let '(i, block) := layer in
  length (torch.data (nth i thetas no_theta)) = length block.

(** The temperature a call of [forward] uses: 5.0 when none is given. *)
Definition temperature_used (temperature : option R) : R :=
  match temperature with
  | Some v => v
  | None => 5%R
  end.

(** The weights cut to the first [k] columns. *)
Definition first_columns (k : nat) (weights : torch.Tensor torch.T2)
  : torch.Tensor torch.T2 :=
  torch.mkTensor (map (firstn k) (torch.data weights)) (torch.leaves weights).

(** [lo <= v <= hi]. *)
Definition between (lo hi v : R) : Prop := (lo <= v <= hi)%R.

(** Layer [i] with candidates [block]: there is a candidate, and the
    latencies read for the layer lie between [lo] and [hi]. *)
Definition row_within (lo hi : R) (self : FBNet.t) (layer : nat * list Block)
  : Prop :=
  let '(i, block) := layer in
  block <> []
  /\ forall row,
       FBNet.speed_row (nth i (FBNet._speed self) EmptyString) (length block)
       = Ok row ->
       Forall (between lo hi) row.

(** A latency row as the product of line 100 uses it: a row of a single
    value stands for that value at every candidate. *)
Definition stretched (k : nat) (row : torch.T1) : torch.T1 :=
  match row with
  | [v] => List.repeat v k
  | _ => row
  end.

(** The latency row read for a layer, its length, and the row used. *)
Definition row_read (self : FBNet.t) (layer : nat * list Block)
  (row : torch.T1) : Prop :=
  let '(i, block) := layer in
  exists read,
    FBNet.speed_row (nth i (FBNet._speed self) EmptyString) (length block)
    = Ok read
    /\ (length read = length block \/ length read = 1)
    /\ row = stretched (length block) read.

(** The small supernet with a latency file of one value per line. *)
Definition single_value_net : FBNet.t :=
  FBNet.mk (2 / 10) (6 / 10) Tiny.thetas (List.repeat [Tiny.block; Tiny.block] 22)
    Tiny.blocks [Tiny.block] 1 [] (List.repeat ("3.0" ++ Py.newline)%string 22)
    (FBNet.mkLinear 1984 2 (fst Tiny.fc) (snd Tiny.fc)) None None None None None.

(** [k] calls of [decay_temperature] in a row. *)
Fixpoint decays {Net : Type} (k : nat) (decay_ratio : option R)
  (self : Trainer.t Net) : Trainer.t Net :=
  match k with
  | O => self
  | S k => Trainer.decay_temperature (decays k decay_ratio self) decay_ratio
  end.

(** The ratio a call of [decay_temperature] uses. *)
Definition ratio_used {Net : Type} (decay_ratio : option R)
  (self : Trainer.t Net) : R :=
  match decay_ratio with
  | None => Trainer._tem_decay self
  | Some r => r
  end.

(** From [s] to [s'] the decay ratio, the prefix of the theta files and the
    file permissions are the same, and every file of [s] still exists. *)
Definition carried_over {Net : Type} (s s' : Trainer.t Net) : Prop :=
  Trainer._tem_decay s' = Trainer._tem_decay s
  /\ Trainer.save_theta_prefix s' = Trainer.save_theta_prefix s
  /\ Trainer.writable s' = Trainer.writable s
  /\ forall p, Trainer.files s p <> None -> Trainer.files s' p <> None.

(** From [s] to [s'] each of the four meters has received [k] values. *)
Definition received {Net : Type} (k : nat) (s s' : Trainer.t Net) : Prop :=
  Trainer.cnt (Trainer._loss_avg s') = Trainer.cnt (Trainer._loss_avg s) + k
  /\ Trainer.cnt (Trainer._acc_avg s') = Trainer.cnt (Trainer._acc_avg s) + k
  /\ Trainer.cnt (Trainer._ce_avg s') = Trainer.cnt (Trainer._ce_avg s) + k
  /\ Trainer.cnt (Trainer._lat_avg s') = Trainer.cnt (Trainer._lat_avg s) + k.

(** The (epoch, step) pairs of the batch lines of a log, in order. *)
Fixpoint batch_lines (log : list Trainer.record) : list (Z * nat) :=
  match log with
  | [] => []
  | Trainer.Batch epoch step _ _ _ _ _ :: r => (epoch, step) :: batch_lines r
  | _ :: r => batch_lines r
  end.

(** The test of line 227: [step > 1 and (step % log_frequence == 0)].  With
    [log_frequence] 0 no step flushes: the steps 0 and 1 do not reach the
    modulus, and the others raise. *)
Definition flushes (log_frequence : Z) (step : nat) : bool :=
  (1 <? step) && (Z.of_nat step mod log_frequence =? 0)%Z.

(** The batch lines of one pass over [n] batches. *)
Definition pass_lines (log_frequence epoch : Z) (n : nat) : list (Z * nat) :=
  map (pair epoch) (filter (flushes log_frequence) (seq 0 n)).

(** From [s] to [s'] the log has received the batch lines [l]. *)
Definition logged {Net : Type} (l : list (Z * nat)) (s s' : Trainer.t Net) : Prop :=
  batch_lines (Trainer.log s') = batch_lines (Trainer.log s) ++ l.

(** The trainer of the recorded run in a file system that accepts no
    path. *)
Definition read_only_trainer : Trainer.t Recorded.Net :=
  Trainer.mk [] (965 / 1000)%R 5%R "run"
    (Trainer.mkMeter 0 0) (Trainer.mkMeter 0 0)
    (Trainer.mkMeter 0 0) (Trainer.mkMeter 0 0)
    None None (fun n => (INR n + 1)%R) 0 [] (fun _ => None) (fun _ => false).

(** *** A library that records its calls

    Symbols are numbered in the order of their creation, the state is the
    list of the functions called so far, and numbers are kept as text. *)

Module Traced.

Local Open Scope string_scope.

Definition Symbol : Type := nat.
Definition Graph : Type := list string.
Definition number : Type := string.

Definition literal (s : string) : number := s.
Definition mul (a b : number) : result number := Ok (a ++ "*" ++ b).
Definition int (a : number) : result number := Ok ("int(" ++ a ++ ")").

Definition create (op : string) (args : list (blocks_se.value Symbol number))
  (kwargs : list (string * blocks_se.value Symbol number)) (g : Graph)
  : result (Symbol * Graph) :=
  Ok (length g, (g ++ [op])%list).

Definition add (a b : Symbol) (g : Graph) : result (Symbol * Graph) :=
  Ok (length g, (g ++ ["+"])%list).

Definition _set_attr (s : Symbol) (kwargs : list (string * string)) (g : Graph)
  : result Graph :=
  Ok (g ++ ["_set_attr"])%list.

(** [block_factory_se(0, 64, 'b', 3, type, se=se, shuffle=shuffle,
    dim_match=dim_match, memonger=memonger)] in the empty state. *)
Definition block (type : string) (se shuffle dim_match memonger : bool)
  : result (Symbol * Graph) :=
  blocks_se.block_factory_se Symbol Graph number literal mul int create add
    _set_attr 0 "64" "b" "3" type "1" "1" false "0.9" "256" "1" "0.125"
    se shuffle dim_match memonger [] [].

End Traced.

(** * Properties *)

(** ** Results *)

Lemma bind_Ok {A B : Type} (m : result A) (k : A -> result B) (b : B) :
  bind m k = Ok b -> exists a, m = Ok a /\ k a = Ok b.
Proof.
  destruct m as [a | e]; simpl; intros H.
  - exists a; auto.
  - discriminate.
Qed.

Ltac inv_bind H :=
  let a := fresh "v" in
  let H1 := fresh "E" in
  apply bind_Ok in H; destruct H as (a & H1 & H).

Lemma foldM_app {A B : Type} (f : B -> A -> result B) (l1 l2 : list A) (acc : B) :
  foldM f (l1 ++ l2) acc = (acc' <- foldM f l1 acc ;; foldM f l2 acc').
Proof.
  revert acc; induction l1 as [| x l1 IH]; intros acc; simpl; auto.
  destruct (f acc x); simpl; auto.
Qed.

Lemma mapM_length {A B : Type} (f : A -> result B) (l : list A) (r : list B) :
  mapM f l = Ok r -> length r = length l.
Proof.
  revert r; induction l as [| x l IH]; intros r H; simpl in H.
  - inversion H; reflexivity.
  - inv_bind H. inv_bind H. inversion H; subst; simpl. f_equal; auto.
Qed.

Lemma zipM_length {A B C : Type} (f : A -> B -> result C) xs ys zs :
  length xs = length ys -> zipM f xs ys = Ok zs -> length zs = length xs.
Proof.
  revert ys zs; induction xs as [| x xs IH]; intros [| y ys] zs L H;
    simpl in *; try discriminate.
  - inversion H; reflexivity.
  - inv_bind H. inv_bind H. inversion H; subst; simpl. f_equal.
    eapply IH; eauto.
Qed.

(** ** C5: the construction-time contract *)

Lemma lists_length (blocks : list FBNet.entry) :
  length (FBNet.lists blocks) = group_count blocks.
Proof.
  unfold group_count.
  induction blocks as [| [b | bs |] r IH]; simpl; auto.
Qed.

Lemma enumerate_from_length {A : Type} (l : list A) (n : nat) :
  length (enumerate_from n l) = length l.
Proof. revert n; induction l; simpl; auto. Qed.

Lemma init_theta_length files num_classes blocks init_theta speed_f alpha beta fc net :
  FBNet.init files num_classes blocks init_theta speed_f alpha beta fc = Ok net ->
  length (FBNet.theta net) = group_count blocks /\
  FBNet._ops net = FBNet.lists blocks /\
  FBNet._blocks net = blocks /\
  FBNet._input_conv_count net = length (FBNet.leading_modules blocks).
Proof.
  unfold FBNet.init. intros H.
  destruct (negb _); [discriminate |].
  destruct (files speed_f); [| discriminate].
  inversion H; subst; simpl.
  rewrite length_map. unfold enumerate. rewrite enumerate_from_length.
  rewrite lists_length. auto.
Qed.

(** C5.  [FBNet.__init__] returns a network only for a block sequence with
    exactly 22 candidate groups; with any other number, 21 in particular,
    it raises the assertion error of line 76; with 22 groups and a readable
    latency file it returns. *)
Theorem init_requires_22_groups :
  forall files num_classes blocks init_theta speed_f alpha beta fc,
    (forall net,
        FBNet.init files num_classes blocks init_theta speed_f alpha beta fc = Ok net ->
        group_count blocks = 22) /\
    (group_count blocks <> 22 ->
     FBNet.init files num_classes blocks init_theta speed_f alpha beta fc
     = Raise AssertionError) /\
    (group_count blocks = 21 ->
     FBNet.init files num_classes blocks init_theta speed_f alpha beta fc
     = Raise AssertionError) /\
    (group_count blocks = 22 -> files speed_f <> None ->
     exists net,
       FBNet.init files num_classes blocks init_theta speed_f alpha beta fc = Ok net).
Proof.
  intros files num_classes blocks init_theta speed_f alpha beta fc.
  assert (L : forall th : R,
             length (map (fun '(i, b) => torch.nn_Parameter i (List.repeat th (length b)))
                         (enumerate (FBNet.lists blocks)))
             = group_count blocks).
  { intros th. rewrite length_map. unfold enumerate.
    rewrite enumerate_from_length. apply lists_length. }
  assert (N : group_count blocks <> 22 ->
              FBNet.init files num_classes blocks init_theta speed_f alpha beta fc
              = Raise AssertionError).
  { intros H. unfold FBNet.init. rewrite L.
    destruct (Nat.eqb_spec (group_count blocks) 22); [contradiction | reflexivity]. }
  repeat split.
  - intros net H.
    destruct (Nat.eq_dec (group_count blocks) 22) as [E | E]; auto.
    rewrite (N E) in H. discriminate.
  - exact N.
  - intros H. apply N. lia.
  - intros H F. unfold FBNet.init. rewrite L, H. simpl.
    destruct (files speed_f); [eexists; reflexivity | contradiction].
Qed.

(** The small supernet is what [FBNet.__init__] builds from its blocks. *)
Lemma tiny_init :
  FBNet.init Tiny.files 2 Tiny.blocks 1 "./speed.txt" (2 / 10) (6 / 10) Tiny.fc
  = Ok Tiny.net.
Proof. reflexivity. Qed.

(** With 21 groups the construction fails. *)
Example init_21_groups :
  FBNet.init Tiny.files 2 (List.removelast Tiny.blocks) 1 "./speed.txt"
    (2 / 10) (6 / 10) Tiny.fc
  = Raise AssertionError.
Proof. reflexivity. Qed.

(** ** C10: the loop of [forward] stops at the first element that is not a list *)

Ltac same_bind :=
  repeat match goal with
         | |- bind ?m _ = bind ?m _ => destruct m; simpl; auto
         | |- (let '(_, _) := ?p in _) = (let '(_, _) := ?p in _) => destruct p
         end.

Lemma layers_stop g self thetas batch_size temperature gs e rest :
  is_list e = false ->
  forall theta_idx data lat,
    FBNet.layers g self thetas batch_size temperature
      (map FBNet.List_ gs ++ e :: rest) theta_idx data lat
    = FBNet.layers g self thetas batch_size temperature
        (map FBNet.List_ gs) theta_idx data lat.
Proof.
  intros He. induction gs as [| b gs IH]; intros theta_idx data lat.
  - destruct e; simpl in *; auto; discriminate.
  - simpl. same_bind.
Qed.

Lemma layers_lat_length g self thetas batch_size temperature gs :
  forall theta_idx data lat data' lat',
    FBNet.layers g self thetas batch_size temperature
      (map FBNet.List_ gs) theta_idx data lat = Ok (data', lat') ->
    length lat' = length lat + length gs.
Proof.
  induction gs as [| b gs IH]; intros theta_idx data lat data' lat' H; simpl in H.
  - inversion H; subst; simpl; lia.
  - repeat inv_bind H. apply IH in H. rewrite H, length_app; simpl; lia.
Qed.

Lemma leading_modules_stem stem rest :
  (forall b r, rest <> FBNet.Module_ b :: r) ->
  FBNet.leading_modules (map FBNet.Module_ stem ++ rest) = stem.
Proof.
  intros H. induction stem as [| s stem IH]; simpl.
  - destruct rest as [| [b | bs |] r]; auto. exfalso; eapply H; eauto.
  - f_equal; auto.
Qed.

Lemma group_count_app l1 l2 :
  group_count (l1 ++ l2) = group_count l1 + group_count l2.
Proof. unfold group_count. rewrite filter_app, length_app. reflexivity. Qed.

Lemma group_count_modules stem : group_count (map FBNet.Module_ stem) = 0.
Proof. induction stem; simpl; auto. Qed.

Lemma group_count_lists gs : group_count (map FBNet.List_ gs) = length gs.
Proof. unfold group_count. induction gs; simpl; auto. Qed.

(** C10.  The loop of [forward] runs over the lists that directly follow the
    input stem and breaks at the first element that is not a list: what
    comes after that element has no effect on the loop (no mixed operation
    of a later group is applied, no latency is appended for it), and the
    loop appends one latency per list before it.  [FBNet.__init__] however
    counts the later groups too: it creates a theta for each of them. *)
Theorem forward_skips_groups_after_fixed_block :
  forall g self thetas batch_size temperature gs e rest theta_idx data lat,
    (is_list e = false ->
     FBNet.layers g self thetas batch_size temperature
       (map FBNet.List_ gs ++ e :: rest) theta_idx data lat
     = FBNet.layers g self thetas batch_size temperature
         (map FBNet.List_ gs) theta_idx data lat) /\
    (forall data' lat',
        is_list e = false ->
        FBNet.layers g self thetas batch_size temperature
          (map FBNet.List_ gs ++ e :: rest) theta_idx data lat = Ok (data', lat') ->
        length lat' = length lat + length gs) /\
    (forall files num_classes stem g1 b init_theta speed_f alpha beta fc net,
        FBNet.init files num_classes
          (map FBNet.Module_ stem ++ map FBNet.List_ (g1 :: gs)
             ++ FBNet.Module_ b :: rest)
          init_theta speed_f alpha beta fc = Ok net ->
        length (FBNet.theta net) = S (length gs) + group_count rest /\
        skipn (FBNet._input_conv_count net) (FBNet._blocks net)
        = map FBNet.List_ (g1 :: gs) ++ FBNet.Module_ b :: rest).
Proof.
  intros g self thetas batch_size temperature gs e rest theta_idx data lat.
  split; [| split].
  - intros He. apply layers_stop; assumption.
  - intros data' lat' He H. rewrite layers_stop in H by assumption.
    eapply layers_lat_length; eauto.
  - intros files num_classes stem g1 b init_theta speed_f alpha beta fc net H.
    apply init_theta_length in H. destruct H as (Ht & _ & Hb & Hc).
    split.
    + rewrite Ht. rewrite !group_count_app, group_count_modules,
        group_count_lists. simpl. unfold group_count at 1. simpl.
      fold (group_count rest). lia.
    + rewrite Hc, Hb. rewrite leading_modules_stem.
      * rewrite <- (length_map FBNet.Module_ stem) at 1.
        rewrite skipn_app, skipn_all, Nat.sub_diag. reflexivity.
      * intros b' r. simpl. discriminate.
Qed.

(** Built from 22 groups with a module after the second one, the network
    passes the check of [FBNet.__init__] and its loop handles two groups. *)
Example interleaved_blocks :
  exists net,
    FBNet.init Tiny.files 2 Tiny.blocks_interleaved 1 "./speed.txt"
      (2 / 10) (6 / 10) Tiny.fc = Ok net
    /\ length (FBNet.theta net) = 22
    /\ forall data' lat',
        FBNet.layers Tiny.gumbels net (FBNet.theta net) 2 5
          (skipn (FBNet._input_conv_count net) (FBNet._blocks net)) 0
          (PyTensor Tiny.input) [] = Ok (data', lat') ->
        length lat' = 2.
Proof.
  eexists. split; [reflexivity |]. split; [reflexivity |].
  intros data' lat' H.
  match type of H with
  | context [skipn ?a ?b] =>
      change (skipn a b) with
        (map FBNet.List_ [[Tiny.block; Tiny.block]; [Tiny.block; Tiny.block]]
           ++ FBNet.Module_ Tiny.block
           :: List.repeat (FBNet.List_ [Tiny.block; Tiny.block]) 20) in H
  end.
  rewrite layers_stop in H by reflexivity.
  apply layers_lat_length in H. exact H.
Qed.

(** ** C9: the [theta_list] argument *)

Lemma layers_ext g s1 s2 thetas batch_size temperature blocks :
  FBNet._speed s1 = FBNet._speed s2 ->
  FBNet._ops s1 = FBNet._ops s2 ->
  forall theta_idx data lat,
    FBNet.layers g s1 thetas batch_size temperature blocks theta_idx data lat
    = FBNet.layers g s2 thetas batch_size temperature blocks theta_idx data lat.
Proof.
  intros Hs Ho.
  induction blocks as [| [b | bs |] r IH]; intros theta_idx data lat; simpl; auto.
  rewrite Hs, Ho. same_bind.
Qed.

Lemma features_with_theta g self th input temperature tl :
  FBNet.features g (with_theta self th) input temperature (Some tl)
  = FBNet.features g self input temperature (Some tl).
Proof.
  unfold FBNet.features. simpl.
  destruct (Sequential _ _); simpl; auto.
  rewrite (layers_ext g _ self) by reflexivity. reflexivity.
Qed.

Lemma features_stored_theta g self input temperature tl :
  FBNet.features g (with_theta self tl) input temperature None
  = FBNet.features g self input temperature (Some tl).
Proof.
  unfold FBNet.features. simpl.
  destruct (Sequential _ _); simpl; auto.
  rewrite (layers_ext g _ self) by reflexivity. reflexivity.
Qed.

Lemma forward_theta_kept g self input target temperature theta_list out self' :
  FBNet.forward g self input target temperature theta_list = Ok (out, self') ->
  FBNet.theta self' = FBNet.theta self.
Proof.
  unfold FBNet.forward. intros H.
  inv_bind H. destruct v as (logits, lat). repeat inv_bind H.
  inversion H; subst; reflexivity.
Qed.

(** The loop of [forward] handles the lists that follow the input stem one
    by one, each as a searchable layer that takes its weights from the
    entry of [thetas] at its position. *)
Lemma layers_mixed g self thetas batch_size temperature :
  forall blocks theta_idx data lat,
    FBNet.layers g self thetas batch_size temperature blocks theta_idx data lat
    = foldM (mixed_layer g self thetas batch_size temperature)
        (enumerate_from theta_idx (leading_lists blocks)) (data, lat).
Proof.
  induction blocks as [| [b | block |] rest IH]; intros theta_idx data lat;
    simpl; auto.
  unfold layer_weights.
  destruct (index thetas theta_idx) as [theta |]; simpl; auto.
  destruct (index (FBNet._speed self) theta_idx) as [line |]; simpl; auto.
  destruct (FBNet.speed_row line (length block)) as [speed |]; simpl; auto.
  destruct (torch.op2M torch.mul2 _ _) as [lat_ |]; simpl; auto.
  destruct (index (FBNet._ops self) theta_idx) as [op |]; simpl; auto.
  destruct (MixedOp.forward op data _) as [data' |]; simpl; auto.
Qed.

Lemma features_mixed g self input temperature tl :
  FBNet.features g self input temperature (Some tl)
  = features_from g self input
      (match temperature with Some v => v | None => 5%R end) tl.
Proof.
  unfold FBNet.features, features_from, after_layers.
  destruct (Sequential (FBNet._input_conv self) _) as [data0 |]; simpl; auto.
  rewrite layers_mixed. unfold enumerate.
  destruct (foldM _ _ _) as [[data1 lat] |]; simpl; auto.
  destruct (Sequential (FBNet._output_conv self) data1) as [[z | x] |];
    simpl; auto.
  destruct (FBNet.avg_pool2d _) as [pooled |]; simpl; auto.
  destruct (FBNet.reshape _ _) as [flat |]; simpl; auto.
  destruct (FBNet.Linear_forward _ _) as [logits |]; simpl; auto.
Qed.

(** C9.  A call of [forward] never assigns the stored theta.  When a
    [theta_list] is given the call does not read the stored theta either
    (replacing it changes nothing but the stored theta itself), and the
    call computes what a network storing [theta_list] computes without the
    argument.  Without a temperature the call uses 5.0.  With a
    [theta_list] the logits and the latencies are those of the pass in
    which the searchable layer at position [i] takes as selection weights
    the Gumbel-Softmax of entry [i] of [theta_list], repeated once per
    example; the returned cross-entropy and latency loss are computed from
    these. *)
Theorem forward_theta_list_override :
  forall g self input target temperature tl,
    (forall theta_list out self',
        FBNet.forward g self input target temperature theta_list = Ok (out, self') ->
        FBNet.theta self' = FBNet.theta self) /\
    (forall th,
        FBNet.forward g (with_theta self th) input target temperature (Some tl)
        = restore_theta th (FBNet.forward g self input target temperature (Some tl))) /\
    FBNet.forward g self input target temperature (Some tl)
    = restore_theta (FBNet.theta self)
        (FBNet.forward g (with_theta self tl) input target temperature None) /\
    (forall theta_list,
        FBNet.forward g self input target None theta_list
        = FBNet.forward g self input target (Some 5%R) theta_list) /\
    FBNet.features g self input temperature (Some tl)
    = features_from g self input
        (match temperature with Some v => v | None => 5%R end) tl /\
    (forall i,
        layer_weights g tl (length (torch.data input))
          (match temperature with Some v => v | None => 5%R end) i
        = match nth_error tl i with
          | Some theta =>
              Ok (torch.mkTensor
                    (torch.gumbel_softmax (g i)
                       (List.repeat (torch.data theta) (length (torch.data input)))
                       (match temperature with Some v => v | None => 5%R end))
                    (torch.leaves theta))
          | None => Raise IndexError
          end) /\
    (forall out self',
        FBNet.forward g self input target temperature (Some tl) = Ok (out, self') ->
        exists logits lat,
          features_from g self input
            (match temperature with Some v => v | None => 5%R end) tl
          = Ok (logits, lat)
          /\ FBNet.CrossEntropyLoss (torch.data logits) target
             = Ok (torch.data (FBNet.ret_ce out))
          /\ torch.leaves (FBNet.ret_ce out) = torch.leaves logits
          /\ torch.data (FBNet.ret_lat_loss out)
             = (torch.sum1 (map (@torch.data R) lat)
                / INR (length (torch.data input)))%R).
Proof.
  intros g self input target temperature tl.
  split; [| split; [| split; [| split; [| split]]]];
    [| | | | apply features_mixed |].
  5: { split.
       - intros i. unfold layer_weights, index.
         destruct (nth_error tl i); reflexivity.
       - intros out self' H. unfold FBNet.forward in H.
         rewrite features_mixed in H.
         apply bind_Ok in H. destruct H as ([logits lat] & Hf & H).
         apply bind_Ok in H. destruct H as (c & Hc & H).
         apply bind_Ok in H. destruct H as (pred & _ & H).
         apply bind_Ok in H. destruct H as (n & _ & H).
         inversion H; subst; clear H. simpl.
         exists logits, lat. auto. }
  - intros theta_list out self'. apply forward_theta_kept.
  - intros th. unfold FBNet.forward.
    rewrite features_with_theta.
    destruct (FBNet.features g self input temperature (Some tl)) as [[logits lat] | e];
      simpl; auto.
    destruct (FBNet.CrossEntropyLoss _ _); simpl; auto.
    destruct (FBNet.argmax _); simpl; auto.
    destruct (FBNet.count_equal _ _); simpl; auto.
  - unfold FBNet.forward.
    rewrite features_stored_theta.
    destruct (FBNet.features g self input temperature (Some tl)) as [[logits lat] | e];
      simpl; auto.
    destruct (FBNet.CrossEntropyLoss _ _); simpl; auto.
    destruct (FBNet.argmax _); simpl; auto.
    destruct (FBNet.count_equal _ _); simpl; auto.
  - intros theta_list. reflexivity.
Qed.

(** ** The parts of a successful [forward] *)

Lemma forward_Ok g self input target temperature theta_list out self' :
  FBNet.forward g self input target temperature theta_list = Ok (out, self') ->
  exists logits lat c pred n,
    FBNet.features g self input temperature theta_list = Ok (logits, lat)
    /\ FBNet.CrossEntropyLoss (torch.data logits) target = Ok c
    /\ FBNet.argmax (torch.data logits) = Ok pred
    /\ FBNet.count_equal pred target = Ok n
    /\ FBNet.ret_ce out = torch.mkTensor c (torch.leaves logits)
    /\ FBNet.ret_lat_loss out
       = torch.mkTensor
           (torch.sum1 (map (@torch.data R) lat) / INR (length (torch.data input)))%R []
    /\ FBNet.ret_loss out
       = torch.mkTensor
           (c + FBNet._alpha self
                * FBNet.pow (torch.sum1 (map (@torch.data R) lat)
                             / INR (length (torch.data input)))
                            (FBNet._beta self))%R
           (torch.union (torch.leaves logits) [])
    /\ FBNet.ret_acc out
       = torch.mkTensor (n / INR (length (torch.data input)))%R [].
Proof.
  unfold FBNet.forward. intros H.
  inv_bind H. destruct v as (logits, lat). repeat inv_bind H.
  inversion H; subst; clear H. simpl.
  exists logits, lat, v, v0, v1. repeat split; auto.
Qed.

Ltac evaluate :=
  lazy -[Rplus Rmult Rminus Ropp Rdiv Rinv exp ln IZR INR Rpower powerRZ
         Rlt_dec Req_dec_T FBNet.dot FBNet.pow torch.sum1 torch.sum2
         Tiny.zeros].

(** The small supernet on its batch of two. *)
Lemma tiny_features :
  exists logits lat,
    FBNet.features Tiny.gumbels Tiny.net Tiny.input None None = Ok (logits, lat)
    /\ torch.data logits = [[0; 0]; [0; 0]]%R
    /\ length lat = 22
    /\ forall i, i < 22 -> In i (torch.leaves logits).
Proof.
  assert (Z : forall x n, FBNet.dot x (Tiny.zeros n) = 0%R).
  { unfold FBNet.dot, Tiny.zeros.
    induction x as [| a x IH]; intros [| n]; simpl; auto.
    rewrite IH. lra. }
  eexists. eexists. split; [evaluate; reflexivity |].
  split; [| split].
  - simpl. rewrite !Z. repeat f_equal; lra.
  - reflexivity.
  - intros i Hi. simpl.
    do 22 (destruct i as [| i]; [tauto |]). lia.
Qed.

Lemma tiny_forward :
  exists out self',
    FBNet.forward Tiny.gumbels Tiny.net Tiny.input Tiny.target None None
    = Ok (out, self').
Proof.
  destruct tiny_features as ([d l] & lat & Hf & Hd & _).
  simpl in Hd. subst d.
  unfold FBNet.forward. rewrite Hf.
  eexists. eexists. evaluate. reflexivity.
Qed.

(** ** C1: the latency term and the architecture parameters *)

(** Whatever the call, the returned latency loss has no history: its value
    is read off a tensor built by [torch.tensor] (line 110). *)
Lemma lat_loss_has_no_history g self input target temperature theta_list out self' :
  FBNet.forward g self input target temperature theta_list = Ok (out, self') ->
  torch.leaves (FBNet.ret_lat_loss out) = [] /\
  forall i, In i (torch.leaves (FBNet.ret_loss out))
            <-> In i (torch.leaves (FBNet.ret_ce out)).
Proof.
  intros H. apply forward_Ok in H.
  destruct H as (logits & lat & c & pred & n & _ & _ & _ & _ & Hce & Hl & Hloss & _).
  rewrite Hce, Hl, Hloss. simpl. split; auto.
  intros i. unfold torch.union. rewrite nodup_In, app_nil_r. tauto.
Qed.

(** C1, on the small supernet.  The call succeeds; the cross-entropy reaches
    every theta, but the latency loss reaches none, so the loss reaches
    theta through the cross-entropy alone: backpropagation of the combined
    loss passes no gradient of the latency term to the architecture
    parameters. *)
Theorem latency_term_reaches_no_theta :
  exists out self',
    FBNet.forward Tiny.gumbels Tiny.net Tiny.input Tiny.target None None
    = Ok (out, self')
    /\ (forall i, i < 22 -> In i (torch.leaves (FBNet.ret_ce out)))
    /\ torch.leaves (FBNet.ret_lat_loss out) = []
    /\ (forall i, In i (torch.leaves (FBNet.ret_loss out))
                  <-> In i (torch.leaves (FBNet.ret_ce out))).
Proof.
  destruct tiny_forward as (out & self' & H).
  exists out, self'. split; [exact H |].
  destruct (lat_loss_has_no_history _ _ _ _ _ _ _ _ H) as (Hl & Hloss).
  split; [| split; assumption].
  apply forward_Ok in H.
  destruct H as (logits & lat & c & pred & n & Hf & _ & _ & _ & Hce & _).
  destruct tiny_features as (logits' & lat' & Hf' & _ & _ & Hin).
  rewrite Hf in Hf'. inversion Hf'; subst.
  rewrite Hce. simpl. exact Hin.
Qed.

(** ** C2: cross-entropy, combined loss and accuracy *)

Lemma chunks_length size rows l : length (FBNet.chunks size rows l) = rows.
Proof. revert l; induction rows; intros l; simpl; auto. Qed.

Lemma features_logits_length g self input temperature theta_list logits lat :
  FBNet.features g self input temperature theta_list = Ok (logits, lat) ->
  length (torch.data logits) = length (torch.data input)
  /\ length (torch.data input) <> 0.
Proof.
  unfold FBNet.features. intros H.
  inv_bind H. inv_bind H. destruct v0 as (data1, lat1). inv_bind H.
  destruct v0 as [z | x]; [discriminate |].
  inv_bind H. inv_bind H. inv_bind H. inversion H; subst; clear H. simpl.
  match goal with
  | HL : FBNet.Linear_forward _ _ = Ok _ |- _ =>
      unfold FBNet.Linear_forward in HL; apply mapM_length in HL; rewrite HL
  end.
  match goal with
  | HR : FBNet.reshape _ _ = Ok _ |- _ => rename HR into Hr
  end.
  unfold FBNet.reshape in Hr.
  destruct (Nat.eqb_spec (length (torch.data input)) 0); [discriminate |].
  destruct (negb _); [discriminate |].
  inversion Hr; subst. rewrite chunks_length. auto.
Qed.

Lemma zipM_pure2 {A B C : Type} (f : A -> B -> C) xs ys :
  zipM (torch.pure2 f) xs ys = Ok (map (fun '(x, y) => f x y) (combine xs ys)).
Proof.
  revert ys; induction xs as [| x xs IH]; intros [| y ys]; simpl; auto.
  rewrite IH. reflexivity.
Qed.

Lemma filter_true_map {A : Type} (h : A -> bool) (l : list A) :
  length (filter (fun b : bool => b) (map h l)) = length (filter h l).
Proof.
  induction l as [| a l IH]; simpl; auto.
  destruct (h a); simpl; auto.
Qed.

Lemma count_equal_matches pred target n :
  length pred = length target ->
  FBNet.count_equal pred target = Ok n ->
  n = INR (matches pred target).
Proof.
  unfold FBNet.count_equal, torch.broadcast. intros L H.
  rewrite L, Nat.eqb_refl, zipM_pure2 in H. simpl in H.
  inversion H; subst. rewrite filter_true_map. reflexivity.
Qed.

Lemma matches_le pred target : matches pred target <= length target.
Proof.
  unfold matches.
  etransitivity; [apply filter_length_le |].
  rewrite length_combine. lia.
Qed.

(** Targets that are class indices: the loss of every example counts. *)
Lemma example_losses logits target ol :
  ~ In (-100)%Z target ->
  zipM FBNet.example_loss logits target = Ok ol ->
  exists losses,
    zipM (fun row y => FBNet.cross_entropy row (Z.to_nat y)) logits target = Ok losses
    /\ FBNet.somes ol = losses.
Proof.
  revert target ol. induction logits as [| row logits IH];
    intros [| y target] ol Hn H; simpl in *;
    try (inversion H; subst; exists []; split; reflexivity).
  inv_bind H. inv_bind H. inversion H; subst; clear H.
  unfold FBNet.example_loss in E.
  destruct (Z.eqb_spec y (-100)); [exfalso; apply Hn; auto |].
  destruct (y <? 0)%Z; [discriminate |].
  destruct (FBNet.cross_entropy row (Z.to_nat y)) as [c |]; [| discriminate].
  inversion E; subst; clear E.
  destruct (IH target v0) as (losses & Hz & Hs); auto.
  exists (c :: losses). simpl. rewrite Hz. simpl. split; congruence.
Qed.

Lemma ratio_in_unit_interval k n :
  k <= n -> n <> 0 -> (0 <= INR k / INR n <= 1)%R.
Proof.
  intros Hk Hn.
  assert (0 < INR n)%R by (apply lt_0_INR; lia).
  assert (0 <= INR k)%R by apply pos_INR.
  assert (INR k <= INR n)%R by (apply le_INR; assumption).
  split.
  - apply Rmult_le_pos; [assumption | left; apply Rinv_0_lt_compat; assumption].
  - apply (Rmult_le_reg_r (INR n)); [assumption |].
    unfold Rdiv. rewrite Rmult_assoc, Rinv_l, Rmult_1_r by lra. lra.
Qed.

Lemma pow_power_is (x y p : R) : power_is x y p -> FBNet.pow x y = p.
Proof.
  unfold power_is, FBNet.pow.
  intros [(Hx & Hp) | [(Hx & k & Hy & Hp) | [(Hx & Hy & Hp) | (Hx & Hy & Hp)]]];
    subst p.
  - destruct (Rlt_dec 0 x); [reflexivity | contradiction].
  - destruct (Rlt_dec 0 x); [lra |].
    destruct (Req_dec_T x 0); [lra |].
    assert (Ek : Int_part y = k).
    { symmetry. apply Int_part_spec. subst y. lra. }
    rewrite Ek.
    destruct (Req_dec_T y (IZR k)); [reflexivity | contradiction].
  - destruct (Rlt_dec 0 x); [lra |].
    destruct (Req_dec_T x 0); [| contradiction].
    destruct (Req_dec_T y 0); [reflexivity | contradiction].
  - destruct (Rlt_dec 0 x); [lra |].
    destruct (Req_dec_T x 0); [| contradiction].
    destruct (Req_dec_T y 0); [lra | reflexivity].
Qed.

(** C2, as the code has it.  For targets that are class indices (none is
    the ignore index -100) a successful call returns: as cross-entropy the
    mean over the batch of the cross-entropies of the examples; as combined
    loss that cross-entropy plus alpha times the returned latency loss to
    the power beta, whenever that power is a real number; as accuracy the
    fraction of examples whose arg-max logit is the target, a value between
    0 and 1. *)
Theorem forward_cross_entropy_is_batch_mean :
  forall g self input target temperature theta_list out self',
    FBNet.forward g self input target temperature theta_list = Ok (out, self') ->
    ~ In (-100)%Z target ->
    exists logits lat losses pred,
      FBNet.features g self input temperature theta_list = Ok (logits, lat)
      /\ zipM (fun row y => FBNet.cross_entropy row (Z.to_nat y))
              (torch.data logits) target = Ok losses
      /\ length losses = length (torch.data input)
      /\ torch.data (FBNet.ret_ce out)
         = (torch.sum1 losses / INR (length (torch.data input)))%R
      /\ (forall p,
            power_is (torch.data (FBNet.ret_lat_loss out)) (FBNet._beta self) p ->
            torch.data (FBNet.ret_loss out)
            = (torch.data (FBNet.ret_ce out) + FBNet._alpha self * p)%R)
      /\ FBNet.argmax (torch.data logits) = Ok pred
      /\ torch.data (FBNet.ret_acc out)
         = (INR (matches pred target) / INR (length (torch.data input)))%R
      /\ (0 <= torch.data (FBNet.ret_acc out) <= 1)%R.
Proof.
  intros g self input target temperature theta_list out self' H Hn.
  apply forward_Ok in H.
  destruct H as (logits & lat & c & pred & n & Hf & Hc & Ha & Hq
                 & Hce & Hl & Hloss & Hacc).
  destruct (features_logits_length _ _ _ _ _ _ _ Hf) as (Llog & Nz).
  unfold FBNet.CrossEntropyLoss in Hc.
  destruct (Nat.eqb_spec (length (torch.data logits)) (length target)) as [Lt |];
    [| discriminate].
  simpl in Hc. inv_bind Hc. inversion Hc; subst c; clear Hc.
  destruct (example_losses _ _ _ Hn E) as (losses & Hz & Hs).
  assert (Ll : length losses = length (torch.data input)).
  { apply zipM_length in Hz; [| assumption]. congruence. }
  assert (Lp : length pred = length target).
  { apply mapM_length in Ha. congruence. }
  apply (count_equal_matches _ _ _ Lp) in Hq. subst n.
  exists logits, lat, losses, pred.
  rewrite Hce, Hl, Hloss, Hacc. simpl. rewrite Hs, Ll.
  split; [assumption |]. split; [assumption |]. split; [reflexivity |].
  split; [reflexivity |]. split.
  - intros p Hp. apply pow_power_is in Hp. rewrite Hp. reflexivity.
  - split; [assumption |]. split; [reflexivity |].
    apply ratio_in_unit_interval; [| assumption].
    rewrite <- Llog, Lt. apply matches_le.
Qed.

Lemma forward_cross_entropy_is_batch_mean_witness :
  exists out self',
    (FBNet.forward Tiny.gumbels Tiny.net Tiny.input Tiny.target None None
     = Ok (out, self')
     /\ ~ In (-100)%Z Tiny.target)
    /\ exists logits lat losses pred,
      FBNet.features Tiny.gumbels Tiny.net Tiny.input None None = Ok (logits, lat)
      /\ zipM (fun row y => FBNet.cross_entropy row (Z.to_nat y))
              (torch.data logits) Tiny.target = Ok losses
      /\ length losses = length (torch.data Tiny.input)
      /\ torch.data (FBNet.ret_ce out)
         = (torch.sum1 losses / INR (length (torch.data Tiny.input)))%R
      /\ (forall p,
            power_is (torch.data (FBNet.ret_lat_loss out))
                     (FBNet._beta Tiny.net) p ->
            torch.data (FBNet.ret_loss out)
            = (torch.data (FBNet.ret_ce out) + FBNet._alpha Tiny.net * p)%R)
      /\ FBNet.argmax (torch.data logits) = Ok pred
      /\ torch.data (FBNet.ret_acc out)
         = (INR (matches pred Tiny.target) / INR (length (torch.data Tiny.input)))%R
      /\ (0 <= torch.data (FBNet.ret_acc out) <= 1)%R.
Proof.
  destruct tiny_forward as (out & self' & H).
  assert (Hn : ~ In (-100)%Z Tiny.target).
  { simpl. intros [E | [E | []]]; discriminate. }
  exists out, self'. split; [split; assumption |].
  exact (forward_cross_entropy_is_batch_mean
           Tiny.gumbels Tiny.net Tiny.input Tiny.target None None out self' H Hn).
Defined.

(** C2 as stated fails: on the small supernet, with a batch of two, the
    returned cross-entropy is not the sum of the cross-entropies of the two
    examples (it is [ln 2], their sum is [2 ln 2]). *)
Lemma cross_entropy_is_not_batch_sum :
  exists out self' logits lat losses,
    FBNet.forward Tiny.gumbels Tiny.net Tiny.input Tiny.target None None
    = Ok (out, self')
    /\ FBNet.features Tiny.gumbels Tiny.net Tiny.input None None = Ok (logits, lat)
    /\ zipM (fun row y => FBNet.cross_entropy row (Z.to_nat y))
            (torch.data logits) Tiny.target = Ok losses
    /\ torch.data (FBNet.ret_ce out) <> torch.sum1 losses.
Proof.
  destruct tiny_forward as (out & self' & H).
  pose proof (forward_Ok _ _ _ _ _ _ _ _ H)
    as (logits & lat & c & pred & n & Hf & Hc & _ & _ & Hce & _).
  destruct tiny_features as (logits' & lat' & Hf' & Hd & _).
  rewrite Hf in Hf'. inversion Hf'; subst logits' lat'; clear Hf'.
  rewrite Hd in Hc. simpl in Hc. inversion Hc; subst c; clear Hc.
  exists out, self', logits, lat.
  exists [(ln (exp 0 + (exp 0 + 0)) - 0)%R; (ln (exp 0 + (exp 0 + 0)) - 0)%R].
  split; [exact H |]. split; [exact Hf |]. split; [rewrite Hd; reflexivity |].
  rewrite Hce. simpl. unfold torch.sum0.
  rewrite exp_0.
  replace (1 + (1 + 0))%R with 2%R by lra.
  assert (0 < ln 2)%R.
  { rewrite <- ln_1. apply ln_increasing; lra. }
  lra.
Qed.

(** ** C6: the mixed operation is a weighted sum *)

Section Tensors.

Import torch.
Local Open Scope R_scope.

Lemma map_eq_length {A B S : Type} (sa : A -> S) (sb : B -> S) xs ys :
  map sa xs = map sb ys -> length xs = length ys.
Proof.
  intros H. rewrite <- (length_map sa xs), <- (length_map sb ys), H. reflexivity.
Qed.

Lemma zipM_shape {A B C S : Type} (f : A -> B -> result C) (h : A -> B -> C)
  (sa : A -> S) (sb : B -> S) xs ys :
  map sa xs = map sb ys ->
  (forall x y, sa x = sb y -> f x y = Ok (h x y)) ->
  zipM f xs ys = Ok (zip_with h xs ys).
Proof.
  intros E F. revert ys E.
  induction xs as [| x xs IH]; intros [| y ys] E; simpl in *; try discriminate; auto.
  injection E as E1 E2.
  rewrite (F x y E1). simpl. rewrite (IH ys E2). reflexivity.
Qed.

Lemma broadcast_shape {A B C S : Type} (f : A -> B -> result C) (h : A -> B -> C)
  (sa : A -> S) (sb : B -> S) xs ys :
  map sa xs = map sb ys ->
  (forall x y, sa x = sb y -> f x y = Ok (h x y)) ->
  broadcast f xs ys = Ok (zip_with h xs ys).
Proof.
  intros E F. unfold broadcast.
  rewrite (map_eq_length sa sb xs ys E), Nat.eqb_refl.
  eapply zipM_shape; eauto.
Qed.

Lemma zip_with_shape {A S T : Type} (h : A -> A -> A) (sa : A -> S) xs ys :
  map sa xs = map sa ys ->
  (forall x y, sa x = sa y -> sa (h x y) = sa x) ->
  map sa (zip_with h xs ys) = map sa xs.
Proof.
  intros E F. revert ys E.
  induction xs as [| x xs IH]; intros [| y ys] E; simpl in *; try discriminate; auto.
  injection E as E1 E2. unfold zip_with in *. simpl.
  rewrite (F x y E1). f_equal. apply IH; assumption.
Qed.

Lemma nth_zip_with {A B C : Type} (h : A -> B -> C) xs ys dx dy dz i :
  length xs = length ys ->
  h dx dy = dz ->
  nth i (zip_with h xs ys) dz = h (nth i xs dx) (nth i ys dy).
Proof.
  intros L D. subst dz. revert ys i L.
  induction xs as [| x xs IH]; intros [| y ys] i L;
    simpl in *; try discriminate.
  - destruct i; reflexivity.
  - destruct i; [reflexivity |]. apply IH. lia.
Qed.

Lemma nth_map {A B : Type} (f : A -> B) l d d' i :
  f d = d' -> nth i (map f l) d' = f (nth i l d).
Proof. intros D. subst d'. apply map_nth. Qed.

Lemma nth_shape {A S : Type} (sa : A -> S) xs ys d i :
  map sa xs = map sa ys -> sa (nth i xs d) = sa (nth i ys d).
Proof.
  revert ys i. induction xs as [| x xs IH]; intros [| y ys] i E;
    simpl in *; try discriminate; auto.
  injection E as E1 E2. destruct i; auto.
Qed.

Lemma plus1_length x y : length x = length y -> length (plus1 x y) = length x.
Proof.
  intros L. unfold plus1, zip_with. rewrite length_map, length_combine. lia.
Qed.

Lemma plus2_shape x y : shape2 x = shape2 y -> shape2 (plus2 x y) = shape2 x.
Proof.
  intros E. apply (zip_with_shape (T := unit)); auto. apply plus1_length.
Qed.

Lemma plus3_shape x y : shape3 x = shape3 y -> shape3 (plus3 x y) = shape3 x.
Proof.
  intros E. apply (zip_with_shape (T := unit)); auto. apply plus2_shape.
Qed.

Lemma plus4_shape x y : shape4 x = shape4 y -> shape4 (plus4 x y) = shape4 x.
Proof.
  intros E. apply (zip_with_shape (T := unit)); auto. apply plus3_shape.
Qed.

(** On tensors of one shape [a + b] is the entrywise sum. *)
Lemma add4_same_shape a b : shape4 a = shape4 b -> add4 a b = Ok (plus4 a b).
Proof.
  intros E. unfold add4, plus4.
  apply (broadcast_shape _ _ shape3 shape3); auto.
  intros e1 e2 E3. apply (broadcast_shape _ _ shape2 shape2); auto.
  intros c1 c2 E2. apply (broadcast_shape _ _ (@length R) (@length R)); auto.
  intros r1 r2 E1. unfold plus1.
  apply (broadcast_shape _ _ (fun _ : R => tt) (fun _ : R => tt)).
  - clear - E1. revert r2 E1. induction r1; intros [| ? r2] E1;
      simpl in *; try discriminate; auto. f_equal. apply IHr1. lia.
  - reflexivity.
Qed.

Lemma get4_plus4 a b n c h w :
  shape4 a = shape4 b ->
  get4 (plus4 a b) n c h w = get4 a n c h w + get4 b n c h w.
Proof.
  intros E. unfold get4, get3, get2, get1, plus4.
  rewrite (@nth_zip_with T3 T3 T3 plus3 a b [] [] [] n)
    by (reflexivity || (eapply map_eq_length; eauto)).
  pose proof (nth_shape shape3 a b [] n E) as E3.
  unfold plus3.
  rewrite (@nth_zip_with T2 T2 T2 plus2 _ _ [] [] [] c)
    by (reflexivity || (eapply map_eq_length; eauto)).
  pose proof (nth_shape shape2 _ _ [] c E3) as E2.
  unfold plus2.
  rewrite (@nth_zip_with T1 T1 T1 plus1 _ _ [] [] [] h)
    by (reflexivity || (eapply map_eq_length; eauto)).
  pose proof (nth_shape (@length R) _ _ [] h E2) as E1.
  unfold plus1.
  rewrite (@nth_zip_with R R R Rplus _ _ 0 0 0 w) by (assumption || lra).
  reflexivity.
Qed.

Lemma get3_map3 (f : R -> R) e c h w :
  f 0 = 0 -> get3 (map3 f e) c h w = f (get3 e c h w).
Proof.
  intros F. unfold get3, get2, get1, map3, T3, T2, T1 in *.
  rewrite (@nth_map (list (list R)) (list (list R)) (map (map f)) e [] [] c)
    by reflexivity.
  rewrite (@nth_map (list R) (list R) (map f) _ [] [] h) by reflexivity.
  apply nth_map; assumption.
Qed.

Lemma shape3_map3 (f : R -> R) e : shape3 (map3 f e) = shape3 e.
Proof.
  unfold shape3, shape2, map3. rewrite map_map. apply map_ext.
  intros c. rewrite map_map. apply map_ext. intros r. apply length_map.
Qed.

Lemma get4_map4 (f : R -> R) t n c h w :
  f 0 = 0 -> get4 (map4 f t) n c h w = f (get4 t n c h w).
Proof.
  intros F. unfold get4, map4, T4, T3, T2, T1 in *.
  rewrite (@nth_map (list (list (list R))) (list (list (list R))) (map3 f) t [] [] n)
    by reflexivity.
  apply get3_map3; assumption.
Qed.

Lemma shape4_map4 (f : R -> R) t : shape4 (map4 f t) = shape4 t.
Proof.
  unfold shape4, map4. rewrite map_map. apply map_ext. apply shape3_map3.
Qed.

(** Tensors of one shape with the same entries are equal. *)
Lemma same_entries1 (a b : T1) :
  length a = length b -> (forall w, nth w a 0 = nth w b 0) -> a = b.
Proof.
  revert b. induction a as [| x a IH]; intros [| y b] L H;
    simpl in *; try discriminate; auto.
  f_equal.
  - exact (H O).
  - apply IH; [lia |]. intros w. exact (H (S w)).
Qed.

Lemma same_entries {A Sh : Type} (sa : A -> Sh) (d : A) (P : A -> A -> Prop) a b :
  map sa a = map sa b ->
  (forall x y, sa x = sa y -> P x y -> x = y) ->
  (forall i, (i < length a)%nat -> P (nth i a d) (nth i b d)) ->
  a = b.
Proof.
  intros E F. revert b E.
  induction a as [| x a IH]; intros [| y b] E H; simpl in *; try discriminate; auto.
  injection E as E1 E2. f_equal.
  - apply F; auto. apply (H O). lia.
  - apply IH; auto. intros i Hi. apply (H (S i)). lia.
Qed.

Lemma same_entries2 (a b : T2) :
  shape2 a = shape2 b -> (forall h w, get2 a h w = get2 b h w) -> a = b.
Proof.
  intros E H.
  apply (same_entries (@length R) [] (fun x y => forall w, get1 x w = get1 y w));
    [assumption | | intros i _ w; apply H].
  intros r1 r2 E1 H1. apply same_entries1; assumption.
Qed.

Lemma same_entries3 (a b : T3) :
  shape3 a = shape3 b -> (forall c h w, get3 a c h w = get3 b c h w) -> a = b.
Proof.
  intros E H.
  apply (same_entries shape2 [] (fun x y => forall h w, get2 x h w = get2 y h w));
    [assumption | | intros i _ h w; apply H].
  intros c1 c2 E2 H2. apply same_entries2; assumption.
Qed.

Lemma same_entries4 (a b : T4) :
  shape4 a = shape4 b ->
  (forall n c h w, (n < length a)%nat -> get4 a n c h w = get4 b n c h w) ->
  a = b.
Proof.
  intros E H.
  apply (same_entries shape3 []
           (fun x y => forall c h w, get3 x c h w = get3 y c h w));
    [assumption | | intros i Hi c h w; apply H; assumption].
  intros e1 e2 E3 H3. apply same_entries3; assumption.
Qed.

Lemma mapM_pure {A B : Type} (h : A -> B) (l : list A) :
  mapM (fun x => Ok (h x)) l = Ok (map h l).
Proof.
  induction l as [| x l IH]; simpl; auto. rewrite IH. reflexivity.
Qed.

Lemma index_nth {A : Type} (l : list A) (i : nat) (d : A) :
  (i < length l)%nat -> index l i = Ok (nth i l d).
Proof.
  intros H. unfold index. rewrite (nth_error_nth' l d H). reflexivity.
Qed.

Lemma column_nth (i : nat) (ws : T2) :
  Forall (fun row => (i < length row)%nat) ws ->
  column i ws = Ok (map (fun row => nth i row 0) ws).
Proof.
  unfold column. induction 1 as [| row ws Hr _ IH]; simpl; auto.
  rewrite (index_nth row i 0 Hr). simpl. rewrite IH. reflexivity.
Qed.

Lemma nth_nil_zero (i : nat) : nth i (@nil R) 0 = 0.
Proof. destruct i; reflexivity. Qed.

Lemma shape4_scaled (w : T1) (r : T4) :
  length w = length r ->
  shape4 (zip_with (fun wn e => map3 (Rmult wn) e) w r) = shape4 r.
Proof.
  revert r. induction w as [| x w IH]; intros [| e r] L;
    simpl in *; try discriminate; auto.
  unfold shape4, zip_with in *. simpl.
  rewrite shape3_map3. f_equal. apply IH. lia.
Qed.

(** [weights[..., i].reshape((-1, 1, 1, 1)) * r]: every entry of example
    [n] is multiplied by the weight of candidate [i] for that example. *)
Lemma scaled_output (ws : T2) (i : nat) (r : T4) :
  length ws = length r \/ length ws = 1%nat ->
  Forall (fun row => (i < length row)%nat) ws ->
  exists res,
    (w <- column i ws ;; mul_per_example w r) = Ok res
    /\ shape4 res = shape4 r
    /\ forall n c h w, (n < length r)%nat ->
         get4 res n c h w = weight_at ws n i * get4 r n c h w.
Proof.
  intros L F. rewrite (column_nth i ws F). simpl.
  set (col := map (fun row => nth i row 0) ws).
  assert (Lc : length col = length ws) by apply length_map.
  unfold mul_per_example, broadcast.
  destruct (Nat.eqb_spec (length col) (length r)) as [E | E].
  - change (fun wn e => Ok (map3 (Rmult wn) e))
      with (pure2 (fun wn e => map3 (Rmult wn) e)).
    rewrite zipM_pure2.
    eexists. split; [reflexivity |]. split.
    + apply shape4_scaled. assumption.
    + intros n c h w Hn. unfold get4.
      fold (zip_with (fun wn e => map3 (Rmult wn) e) col r).
      rewrite (@nth_zip_with R T3 T3 (fun wn e => map3 (Rmult wn) e)
                 col r 0 [] [] n E eq_refl).
      rewrite get3_map3 by lra. f_equal.
      unfold col, weight_at.
      rewrite (@nth_map (list R) R (fun row => nth i row 0) ws [] 0 n)
        by apply nth_nil_zero.
      destruct (Nat.eqb_spec (length ws) 1) as [E1 | E1]; [| reflexivity].
      replace n with 0%nat by lia. reflexivity.
  - assert (E1 : length ws = 1%nat) by lia.
    destruct ws as [| row [| row' ws]]; simpl in E1; try discriminate.
    simpl in col. subst col. cbv zeta.
    destruct r as [| e r'] eqn:Er.
    + eexists. split; [reflexivity |]. split; [reflexivity |].
      intros n c h w Hn. simpl in Hn. lia.
    + rewrite <- Er in *.
      assert (Hm : mapM (fun e0 => Ok (map3 (Rmult (nth i row 0)) e0)) r
                   = Ok (map4 (Rmult (nth i row 0)) r)) by apply mapM_pure.
      exists (map4 (Rmult (nth i row 0)) r).
      split; [| split].
      * destruct r as [| e1 [| e2 r2]]; simpl in *; try discriminate;
          try (exfalso; apply E; reflexivity); exact Hm.
      * apply shape4_map4.
      * intros n c h w _. rewrite get4_map4 by lra. reflexivity.
Qed.

Lemma terms_scaled (x : Tensor T4) (weights : Tensor T2) :
  forall ops rs k,
    Forall2 (fun (op : Block) r => op (data x) = Ok r) ops rs ->
    Forall (fun r => length (data weights) = length r
                     \/ length (data weights) = 1%nat) rs ->
    Forall (fun row => (k + length ops <= length row)%nat) (data weights) ->
    exists ts,
      mapM (fun '(i, op) => MixedOp.term (PyTensor x) weights i op)
           (enumerate_from k ops) = Ok ts
      /\ Forall2 (fun '(i, r) t => scaled_by (data weights) r i t)
                 (enumerate_from k rs) ts.
Proof.
  intros ops rs k H. revert k.
  induction H as [| op r ops rs Hop _ IH]; intros k HL HW; simpl.
  - exists []. split; [reflexivity | constructor].
  - inversion HL as [| ? ? Hl HL']; subst.
    destruct (scaled_output (data weights) k r Hl) as (res & Hres & Hs & Hg).
    { eapply Forall_impl; [| exact HW]. simpl. intros row Hrow. lia. }
    destruct (IH (S k) HL') as (ts & Hts & Hf).
    { eapply Forall_impl; [| exact HW]. simpl. intros row Hrow. lia. }
    unfold MixedOp.term at 1. simpl. rewrite Hop. simpl.
    apply bind_Ok in Hres. destruct Hres as (col & Hcol & Hmul).
    rewrite Hcol. simpl. rewrite Hmul. simpl. rewrite Hts. simpl.
    eexists. split; [reflexivity |].
    constructor; [| assumption]. split; assumption.
Qed.

(** The running total of the builtin [sum] over tensors of one shape. *)
Lemma running_total (ts : list (Tensor T4)) :
  forall a,
    Forall (fun t => shape4 (data t) = shape4 (data a)) ts ->
    exists out,
      foldM py_add ts (PyTensor a) = Ok (PyTensor out)
      /\ shape4 (data out) = shape4 (data a)
      /\ forall n c h w,
           get4 (data out) n c h w
           = get4 (data a) n c h w
             + sum1 (map (fun t => get4 (data t) n c h w) ts).
Proof.
  induction ts as [| t ts IH]; intros a F; simpl.
  - exists a. repeat split; auto. intros. lra.
  - inversion F as [| ? ? Ht F']; subst.
    unfold op2M. rewrite add4_same_shape by (symmetry; assumption). simpl.
    set (b := mkTensor (plus4 (data a) (data t)) (union (leaves a) (leaves t))).
    assert (Sb : shape4 (data b) = shape4 (data a)).
    { simpl. apply plus4_shape. symmetry; assumption. }
    destruct (IH b) as (out & Hout & Hs & Hg).
    { eapply Forall_impl; [| exact F']. simpl. intros t' Ht'.
      rewrite Ht'. symmetry. apply plus4_shape. symmetry; assumption. }
    exists out. split; [exact Hout |]. split; [congruence |].
    intros n c h w. rewrite Hg. simpl.
    rewrite get4_plus4 by (symmetry; assumption). lra.
Qed.

Lemma sum_of_scaled (ws : T2) n c h w :
  forall rs k ts,
    Forall (fun r => (n < length r)%nat) rs ->
    Forall2 (fun '(i, r) t => scaled_by ws r i t) (enumerate_from k rs) ts ->
    sum1 (map (fun t => get4 (data t) n c h w) ts)
    = sum1 (map (fun '(i, r) => weight_at ws n i * get4 r n c h w)
                (enumerate_from k rs)).
Proof.
  induction rs as [| r rs IH]; intros k ts Hn H; simpl in *.
  - inversion H; subst. reflexivity.
  - inversion H as [| ? t ? ts' Hh H']; subst. simpl.
    destruct Hh as (Hs & Hg).
    inversion Hn; subst.
    rewrite Hg by assumption. f_equal. apply IH; assumption.
Qed.

(** A sum with all the mass on index [k]. *)
Lemma one_hot_sum (k : nat) (F : T4 -> R) (wt : nat -> R) :
  forall rs start,
    (forall i, (start <= i < start + length rs)%nat ->
               wt i = if (i =? k)%nat then 1 else 0) ->
    sum1 (map (fun '(i, r) => wt i * F r) (enumerate_from start rs))
    = if ((start <=? k) && (k <? start + length rs))%nat
      then F (nth (k - start) rs [])
      else 0.
Proof.
  induction rs as [| r rs IH]; intros start Hw; simpl.
  - destruct (Nat.leb_spec start k), (Nat.ltb_spec k (start + 0));
      simpl; try reflexivity; lia.
  - rewrite IH by (intros i Hi; apply Hw; simpl; lia).
    rewrite Hw by (simpl; lia).
    replace (start + S (length rs))%nat with (S start + length rs)%nat by lia.
    destruct (Nat.eqb_spec start k) as [E | E].
    + subst k. rewrite Nat.sub_diag.
      destruct (Nat.leb_spec (S start) start) as [L1 | L1]; [lia |].
      destruct (Nat.leb_spec start start) as [L2 | L2]; [| lia].
      destruct (Nat.ltb_spec start (S start + length rs)) as [L3 | L3]; [| lia].
      simpl. lra.
    + destruct (Nat.leb_spec (S start) k) as [L1 | L1],
        (Nat.leb_spec start k) as [L2 | L2]; try lia; simpl; try lra.
      destruct (Nat.ltb_spec k (S (start + length rs))) as [L3 | L3]; [| lra].
      replace (k - start)%nat with (S (k - S start)) by lia. simpl. lra.
Qed.

End Tensors.

(** C6.  Let the candidate blocks return, on the input, tensors of one
    shape, and let the weights hold one row per example (or a single row,
    the weight vector of the claim) with an entry for every candidate.
    Then [MixedOp.forward] returns a tensor of that shape whose entries are
    the sums over the candidates of weight times block output, each weight
    multiplying every entry of its block's output; with all the mass on
    candidate [k] the result is the output of block [k]. *)
Theorem MixedOp_forward_weighted_sum :
  forall (ops : list Block) (x : torch.Tensor torch.T4)
         (weights : torch.Tensor torch.T2) (r0 : torch.T4) (rs : list torch.T4),
    Forall2 (fun (op : Block) r => op (torch.data x) = Ok r) ops (r0 :: rs) ->
    Forall (fun r => shape4 r = shape4 r0) rs ->
    length (torch.data weights) = length r0
    \/ length (torch.data weights) = 1 ->
    Forall (fun row => length ops <= length row) (torch.data weights) ->
    exists out,
      MixedOp.forward ops (PyTensor x) weights = Ok (PyTensor out)
      /\ shape4 (torch.data out) = shape4 r0
      /\ (forall n c h w,
            n < length r0 ->
            get4 (torch.data out) n c h w
            = torch.sum1
                (map (fun '(i, r) =>
                        (weight_at (torch.data weights) n i * get4 r n c h w)%R)
                     (enumerate (r0 :: rs))))
      /\ (forall k,
            k < length ops ->
            (forall n i, n < length r0 -> i < length ops ->
                         weight_at (torch.data weights) n i
                         = if i =? k then 1%R else 0%R) ->
            torch.data out = nth k (r0 :: rs) []).
Proof.
  intros ops x weights r0 rs Hops Hshape Hlen Hrows.
  assert (Lops : length ops = S (length rs)).
  { apply Forall2_length in Hops. exact Hops. }
  assert (Hall : Forall (fun r => shape4 r = shape4 r0) (r0 :: rs)).
  { constructor; auto. }
  assert (Hlens : Forall (fun r => length r = length r0) (r0 :: rs)).
  { eapply Forall_impl; [| exact Hall]. simpl. intros r Hr.
    eapply map_eq_length; eauto. }
  destruct (terms_scaled x weights ops (r0 :: rs) 0 Hops) as (ts & Hts & Hsc).
  { eapply Forall_impl; [| exact Hlens]. simpl. intros r Hr.
    rewrite Hr. exact Hlen. }
  { exact Hrows. }
  unfold MixedOp.forward, enumerate. rewrite Hts. simpl.
  simpl in Hsc. inversion Hsc as [| ? t0 ? ts' Hh Hsc']; subst.
  destruct Hh as (Hs0 & Hg0).
  unfold py_sum. simpl.
  set (a := torch.op1 (torch.map4 (Rplus 0)) t0).
  assert (Sa : shape4 (torch.data a) = shape4 r0).
  { simpl. rewrite shape4_map4. assumption. }
  destruct (running_total ts' a) as (out & Hout & Hso & Hgo).
  { clear - Hsc' Hshape Sa. revert Hsc' Hshape. generalize 1 as k.
    revert rs. induction ts' as [| t ts IH]; intros rs k H Hshape;
      inversion H; subst; constructor.
    - destruct rs as [| r rs']; simpl in *; [discriminate |].
      match goal with
      | E : _ :: _ = _ :: _ |- _ => injection E as E1 E2; subst
      end.
      match goal with
      | Hs : scaled_by _ _ _ _ |- _ => destruct Hs as (Hs & _)
      end.
      inversion Hshape; subst. congruence.
    - destruct rs as [| r rs']; simpl in *; [discriminate |].
      match goal with
      | E : _ :: _ = _ :: _ |- _ => injection E as E1 E2; subst
      end.
      inversion Hshape; subst. eapply IH; eauto. }
  exists out. split; [exact Hout |]. split; [rewrite Hso; exact Sa |].
  assert (Hsum : forall n c h w,
             n < length r0 ->
             get4 (torch.data out) n c h w
             = torch.sum1
                 (map (fun '(i, r) =>
                         (weight_at (torch.data weights) n i * get4 r n c h w)%R)
                      (enumerate (r0 :: rs)))).
  { intros n c h w Hn. rewrite Hgo. unfold enumerate. simpl.
    rewrite get4_map4 by lra. rewrite Hg0 by assumption.
    rewrite (sum_of_scaled (torch.data weights) n c h w rs 1 ts').
    - rewrite Rplus_0_l. reflexivity.
    - inversion Hlens; subst.
      eapply Forall_impl; [| eassumption]. simpl. intros r Hr. lia.
    - exact Hsc'. }
  split; [exact Hsum |].
  intros k Hk Hw.
  assert (Sk : shape4 (nth k (r0 :: rs) []) = shape4 r0).
  { rewrite Forall_forall in Hall. apply Hall. apply nth_In. simpl. lia. }
  apply same_entries4; [rewrite Hso, Sa; symmetry; exact Sk |].
  intros n c h w Hn.
  assert (Hn0 : n < length r0).
  { rewrite <- (map_eq_length shape3 shape3 (torch.data out) r0 (eq_trans Hso Sa)).
    exact Hn. }
  rewrite (Hsum n c h w Hn0). unfold enumerate.
  rewrite (one_hot_sum k (fun r => get4 r n c h w)
             (fun i => weight_at (torch.data weights) n i) (r0 :: rs) 0).
  - simpl. destruct (Nat.ltb_spec k (S (length rs))); [| lia].
    rewrite Nat.sub_0_r. reflexivity.
  - intros i Hi. apply Hw; [assumption |]. simpl in Hi. lia.
Qed.

Lemma MixedOp_forward_weighted_sum_witness :
  (Forall2 (fun (op : Block) r => op (torch.data one_example) = Ok r)
     [keeping; doubling]
     [torch.data one_example; torch.map4 (Rmult 2) (torch.data one_example)]
   /\ Forall (fun r => shape4 r = shape4 (torch.data one_example))
        [torch.map4 (Rmult 2) (torch.data one_example)]
   /\ (length (torch.data first_only) = length (torch.data one_example)
       \/ length (torch.data first_only) = 1)
   /\ Forall (fun row => length [keeping; doubling] <= length row)
        (torch.data first_only))
  /\ exists out,
      MixedOp.forward [keeping; doubling] (PyTensor one_example) first_only
      = Ok (PyTensor out)
      /\ shape4 (torch.data out) = shape4 (torch.data one_example)
      /\ (forall n c h w,
            n < length (torch.data one_example) ->
            get4 (torch.data out) n c h w
            = torch.sum1
                (map (fun '(i, r) =>
                        (weight_at (torch.data first_only) n i * get4 r n c h w)%R)
                     (enumerate
                        [torch.data one_example;
                         torch.map4 (Rmult 2) (torch.data one_example)])))
      /\ (forall k,
            k < length [keeping; doubling] ->
            (forall n i, n < length (torch.data one_example) ->
                         i < length [keeping; doubling] ->
                         weight_at (torch.data first_only) n i
                         = if i =? k then 1%R else 0%R) ->
            torch.data out
            = nth k [torch.data one_example;
                     torch.map4 (Rmult 2) (torch.data one_example)] []).
Proof.
  assert (H1 : Forall2 (fun (op : Block) r => op (torch.data one_example) = Ok r)
                 [keeping; doubling]
                 [torch.data one_example;
                  torch.map4 (Rmult 2) (torch.data one_example)]).
  { repeat constructor. }
  assert (H2 : Forall (fun r => shape4 r = shape4 (torch.data one_example))
                 [torch.map4 (Rmult 2) (torch.data one_example)]).
  { repeat constructor. }
  assert (H3 : length (torch.data first_only) = length (torch.data one_example)
               \/ length (torch.data first_only) = 1).
  { left. reflexivity. }
  assert (H4 : Forall (fun row => length [keeping; doubling] <= length row)
                 (torch.data first_only)).
  { repeat constructor. }
  split; [repeat split; assumption |].
  exact (MixedOp_forward_weighted_sum
           [keeping; doubling] one_example first_only
           (torch.data one_example)
           [torch.map4 (Rmult 2) (torch.data one_example)] H1 H2 H3 H4).
Defined.

(** ** Python strings: separators, tokens and lines *)

Lemma append_empty (s : string) : (s ++ "")%string = s.
Proof. induction s as [| c s IH]; simpl; [| rewrite IH]; reflexivity. Qed.

Lemma append_assoc (a b c : string) :
  ((a ++ b) ++ c)%string = (a ++ (b ++ c))%string.
Proof. induction a as [| x a IH]; simpl; [| rewrite IH]; reflexivity. Qed.

Lemma split_by_cons (sep : ascii -> bool) (s : string) :
  exists h t, Py.split_by sep s = h :: t.
Proof.
  induction s as [| c s (h & t & IH)]; simpl.
  - eauto.
  - destruct (sep c); [eauto |]. rewrite IH. eauto.
Qed.

Lemma split_by_app (sep : ascii -> bool) (t rest : string) :
  free_of sep t ->
  Py.split_by sep (t ++ rest)
  = match Py.split_by sep rest with
    | h :: tl => (t ++ h)%string :: tl
    | [] => [t]
    end.
Proof.
  induction t as [| c t IH]; simpl; intros F.
  - destruct (split_by_cons sep rest) as (h & tl & E). rewrite E. reflexivity.
  - destruct F as (Fc & Ft). rewrite Fc, (IH Ft).
    destruct (Py.split_by sep rest); reflexivity.
Qed.

Lemma split_by_separator (sep : ascii -> bool) (c : ascii) (s : string) :
  sep c = true ->
  Py.split_by sep (String c s) = EmptyString :: Py.split_by sep s.
Proof. intros H. simpl. rewrite H. reflexivity. Qed.

Lemma join_cons (sep t u : string) (toks : list string) :
  Py.join sep (t :: u :: toks) = (t ++ sep ++ Py.join sep (u :: toks))%string.
Proof. reflexivity. Qed.

(** Cutting a line of tokens joined by one separator character, followed
    by [tail], gives back the tokens; the last one carries what cutting
    [tail] starts with. *)
Lemma split_by_join (sep : ascii -> bool) (c : ascii) (tail : string) :
  sep c = true ->
  forall toks t,
    Forall (free_of sep) (t :: toks) ->
    Py.split_by sep (Py.join (String c EmptyString) (t :: toks) ++ tail)
    = match Py.split_by sep tail with
      | h :: tl =>
          removelast (t :: toks)
            ++ (last (t :: toks) EmptyString ++ h)%string :: tl
      | [] => t :: toks
      end.
Proof.
  intros Hc toks. induction toks as [| u toks IH]; intros t F.
  - simpl. inversion F; subst. rewrite split_by_app by assumption.
    destruct (Py.split_by sep tail); reflexivity.
  - inversion F as [| ? ? Ft F']; subst.
    rewrite join_cons, !append_assoc.
    rewrite split_by_app by assumption.
    change (String c "" ++ Py.join (String c "") (u :: toks) ++ tail)%string
      with (String c (Py.join (String c "") (u :: toks) ++ tail)).
    rewrite (split_by_separator sep c _ Hc).
    rewrite (IH u F'). rewrite append_empty.
    destruct (Py.split_by sep tail) as [| h tl].
    + reflexivity.
    + destruct toks; reflexivity.
Qed.

Lemma space_is_whitespace (s : string) :
  free_of Py.isspace s -> free_of (Ascii.eqb " "%char) s.
Proof.
  induction s as [| c s IH]; cbn [free_of]; auto. intros (Hc & Hs).
  split; [| auto].
  destruct (Ascii.eqb " "%char c) eqn:E; [| reflexivity].
  apply Ascii.eqb_eq in E. subst c. vm_compute in Hc. discriminate.
Qed.

Lemma rstrip_app (s rest : string) :
  Py.rstrip (s ++ rest)
  = match Py.rstrip rest with
    | EmptyString => Py.rstrip s
    | String _ _ => (s ++ Py.rstrip rest)%string
    end.
Proof.
  induction s as [| c s IH]; simpl.
  - destruct (Py.rstrip rest); reflexivity.
  - rewrite IH. destruct (Py.rstrip rest) as [| d r]; [reflexivity |].
    destruct s; reflexivity.
Qed.

Lemma rstrip_token (t : string) : free_of Py.isspace t -> Py.rstrip t = t.
Proof.
  induction t as [| c t IH]; simpl; auto. intros (Hc & Ht).
  rewrite (IH Ht), Hc. destruct t; reflexivity.
Qed.

Lemma rstrip_join (toks : list string) :
  Forall token toks -> toks <> [] ->
  Py.rstrip (Py.join " " toks) = Py.join " " toks
  /\ Py.join " " toks <> EmptyString.
Proof.
  induction toks as [| t toks IH]; intros F N; [contradiction |].
  inversion F as [| ? ? (Hn & Hf) F']; subst.
  destruct toks as [| u toks].
  - simpl. split; [apply rstrip_token; assumption | assumption].
  - destruct IH as (IH1 & IH2); [assumption | discriminate |].
    change (Py.join " " (t :: u :: toks))
      with (t ++ String " " (Py.join " " (u :: toks)))%string.
    split.
    + rewrite rstrip_app.
      change (String " " (Py.join " " (u :: toks)))
        with (String " " "" ++ Py.join " " (u :: toks))%string.
      rewrite rstrip_app, IH1.
      destruct (Py.join " " (u :: toks)) eqn:E; [contradiction | reflexivity].
    + destruct t; [contradiction | discriminate].
Qed.

Lemma lstrip_join (toks : list string) :
  Forall token toks -> Py.lstrip (Py.join " " toks) = Py.join " " toks.
Proof.
  intros F. destruct toks as [| t toks]; [reflexivity |].
  inversion F as [| ? ? (Hn & Hf) F']; subst.
  destruct t as [| c t]; [contradiction |].
  destruct Hf as (Hc & _).
  destruct toks; simpl; rewrite Hc; reflexivity.
Qed.

(** A latency row written as tokens separated by single spaces and ended
    by a newline: [strip] removes the newline and [split(' ')] returns the
    tokens. *)
Lemma split_space_line (toks : list string) :
  Forall token toks -> toks <> [] ->
  Py.split_space (Py.strip (Py.join " " toks ++ Py.newline)) = toks.
Proof.
  intros F N. unfold Py.strip.
  assert (L : Py.lstrip (Py.join " " toks ++ Py.newline)
              = (Py.join " " toks ++ Py.newline)%string).
  { destruct toks as [| t toks]; [contradiction |].
    inversion F as [| ? ? (Hn & Hf) F']; subst.
    destruct t as [| c t]; [contradiction |]. destruct Hf as (Hc & _).
    destruct toks; simpl; rewrite Hc; reflexivity. }
  rewrite L, rstrip_app. simpl.
  destruct (rstrip_join toks F N) as (R1 & R2). rewrite R1.
  destruct toks as [| t toks]; [contradiction |].
  unfold Py.split_space.
  rewrite <- (append_empty (Py.join " " (t :: toks))).
  rewrite split_by_join.
  - simpl Py.split_by. cbv iota. rewrite append_empty.
    symmetry. apply app_removelast_last. discriminate.
  - reflexivity.
  - eapply Forall_impl; [| exact F]. intros s (_ & Hs).
    apply space_is_whitespace; assumption.
Qed.

(** ** C3: the latency rows and the latency loss *)

Lemma softmax_length row : length (torch.softmax row) = length row.
Proof. unfold torch.softmax. apply length_map. Qed.

Lemma gumbel_softmax_rows g t tau :
  map (@length R) (torch.gumbel_softmax g t tau) = map (@length R) t.
Proof.
  unfold torch.gumbel_softmax, enumerate. generalize 0 at 2.
  induction t as [| row t IH]; intros k; simpl; auto.
  rewrite softmax_length, length_map, enumerate_from_length.
  f_equal. apply IH.
Qed.

Lemma mul2_rows (W : torch.T2) (row : torch.T1) :
  Forall (fun wrow => length wrow = length row) W ->
  torch.mul2 W (torch.repeat_rows (length W) row)
  = Ok (map (fun wrow => zip_with Rmult wrow row) W).
Proof.
  intros F. unfold torch.mul2, torch.repeat_rows, torch.broadcast at 1.
  rewrite repeat_length, Nat.eqb_refl.
  induction F as [| wrow W Hw _ IH]; simpl; auto.
  unfold torch.broadcast at 1. rewrite Hw, Nat.eqb_refl, zipM_pure2. simpl.
  rewrite IH. reflexivity.
Qed.

Lemma index_Ok {A : Type} (l : list A) (i : nat) (v d : A) :
  index l i = Ok v -> nth i l d = v.
Proof.
  unfold index. destruct (nth_error l i) eqn:E; [| discriminate].
  intros H. inversion H; subst. apply nth_error_nth. assumption.
Qed.

Lemma layers_latencies g self thetas batch_size temperature :
  forall blocks theta_idx data lat data' lat',
    FBNet.layers g self thetas batch_size temperature blocks theta_idx data lat
    = Ok (data', lat') ->
    Forall (row_fits self thetas) (enumerate_from theta_idx (leading_lists blocks)) ->
    exists rows,
      Forall2 (fun '(i, block) row =>
                 FBNet.speed_row (nth i (FBNet._speed self) EmptyString)
                   (length block) = Ok row)
              (enumerate_from theta_idx (leading_lists blocks)) rows
      /\ map (@torch.data R) lat'
         = map (@torch.data R) lat
           ++ map (fun '(i, row) =>
                     expected_latency
                       (selection_weights g thetas batch_size temperature i) row)
                  (enumerate_from theta_idx rows).
Proof.
  induction blocks as [| [b | block |] rest IH];
    intros theta_idx data lat data' lat' H F; simpl in *;
    try (inversion H; subst; exists []; split;
         [constructor | rewrite app_nil_r; reflexivity]).
  inversion F as [| ? ? Hfit F']; subst.
  unfold row_fits in Hfit. destruct Hfit as (Ht & Hr).
  apply bind_Ok in H. destruct H as (theta & Etheta & H).
  apply bind_Ok in H. destruct H as (line & Eline & H).
  apply bind_Ok in H. destruct H as (speed & Espeed & H).
  apply bind_Ok in H. destruct H as (lat_ & Elat & H).
  apply bind_Ok in H. destruct H as (op & Eop & H).
  apply bind_Ok in H. destruct H as (data1 & Edata & H).
  apply (index_Ok _ _ _ no_theta) in Etheta.
  apply (index_Ok _ _ _ EmptyString) in Eline.
  rewrite Etheta in Ht. rewrite Eline in Hr.
  assert (Ls : length speed = length block).
  { unfold FBNet.speed_row in Espeed. apply mapM_length in Espeed.
    rewrite Espeed, length_firstn. lia. }
  destruct (IH _ _ _ _ _ H F') as (rows & Hrows & Hlat).
  exists (speed :: rows). split.
  - constructor; [rewrite Eline; exact Espeed | exact Hrows].
  - rewrite Hlat, map_app, <- app_assoc. f_equal. simpl. f_equal.
    unfold torch.op2M in Elat. simpl in Elat.
    set (W := torch.gumbel_softmax (g theta_idx)
                (torch.repeat_rows batch_size (torch.data theta)) temperature) in *.
    assert (SW : map (@length R) W
                 = List.repeat (length (torch.data theta)) batch_size).
    { unfold W. rewrite gumbel_softmax_rows. unfold torch.repeat_rows.
      apply map_repeat. }
    assert (LW : length W = batch_size).
    { pose proof (f_equal (@length nat) SW) as E.
      rewrite length_map, repeat_length in E. exact E. }
    rewrite <- LW in Elat at 1.
    rewrite mul2_rows in Elat.
    + simpl in Elat. inversion Elat; subst lat_; clear Elat. simpl.
      unfold torch.sum2, expected_latency, selection_weights.
      rewrite map_map, Etheta. reflexivity.
    + rewrite Forall_forall. intros wrow Hin.
      apply (in_map (@length R)) in Hin. rewrite SW in Hin.
      apply repeat_spec in Hin. lia.
Qed.

Lemma features_layers g self input temperature theta_list logits lat :
  FBNet.features g self input temperature theta_list = Ok (logits, lat) ->
  exists data0 data1,
    FBNet.layers g self
      (match theta_list with None => FBNet.theta self | Some l => l end)
      (length (torch.data input))
      (match temperature with Some v => v | None => 5%R end)
      (skipn (FBNet._input_conv_count self) (FBNet._blocks self)) 0 data0 []
    = Ok (data1, lat).
Proof.
  unfold FBNet.features. intros H.
  apply bind_Ok in H. destruct H as (data0 & _ & H).
  apply bind_Ok in H. destruct H as ([data1 lat1] & El & H).
  apply bind_Ok in H. destruct H as (data2 & _ & H).
  destruct data2 as [z | x]; [discriminate |].
  repeat inv_bind H. inversion H; subst. eauto.
Qed.

(** C3, as the code has it.  A latency row is cut at single spaces: for a
    row of tokens separated by one space each, the first candidate-count
    tokens are converted and the others ignored.  In a successful call,
    when every processed layer has a theta entry per candidate and a row
    with at least as many values, the latency of a layer is the sum over
    the batch and over the candidates of weight times latency, and the
    returned latency loss is the sum of these over the layers divided by
    the batch size. *)
Theorem latency_loss_is_expected_latency :
  forall g self input target temperature theta_list out self',
    FBNet.forward g self input target temperature theta_list = Ok (out, self') ->
    Forall (row_fits self
              (match theta_list with None => FBNet.theta self | Some l => l end))
           (enumerate
              (leading_lists
                 (skipn (FBNet._input_conv_count self) (FBNet._blocks self)))) ->
    (forall toks k,
        Forall token toks -> toks <> [] ->
        FBNet.speed_row (Py.join " " toks ++ Py.newline) k
        = mapM Py.float (firstn k toks))
    /\ exists rows,
        Forall2 (fun '(i, block) row =>
                   FBNet.speed_row (nth i (FBNet._speed self) EmptyString)
                     (length block) = Ok row)
                (enumerate
                   (leading_lists
                      (skipn (FBNet._input_conv_count self) (FBNet._blocks self))))
                rows
        /\ torch.data (FBNet.ret_lat_loss out)
           = (torch.sum1
                (map (fun '(i, row) =>
                        expected_latency
                          (selection_weights g
                             (match theta_list with
                              | None => FBNet.theta self
                              | Some l => l
                              end)
                             (length (torch.data input))
                             (match temperature with Some v => v | None => 5%R end)
                             i)
                          row)
                     (enumerate rows))
              / INR (length (torch.data input)))%R.
Proof.
  intros g self input target temperature theta_list out self' H F.
  split.
  - intros toks k Ft Hn. unfold FBNet.speed_row.
    rewrite split_space_line by assumption. reflexivity.
  - apply forward_Ok in H.
    destruct H as (logits & lat & c & pred & n & Hf & _ & _ & _ & _ & Hl & _).
    apply features_layers in Hf. destruct Hf as (data0 & data1 & Hf).
    destruct (layers_latencies _ _ _ _ _ _ _ _ _ _ _ Hf F) as (rows & Hrows & Hlat).
    exists rows. split; [exact Hrows |].
    rewrite Hl. simpl. rewrite Hlat. reflexivity.
Qed.

Lemma latency_loss_is_expected_latency_witness :
  exists out self',
    (FBNet.forward Tiny.gumbels Tiny.net Tiny.input Tiny.target None None
     = Ok (out, self')
     /\ Forall (row_fits Tiny.net (FBNet.theta Tiny.net))
          (enumerate
             (leading_lists
                (skipn (FBNet._input_conv_count Tiny.net)
                       (FBNet._blocks Tiny.net)))))
    /\ ((forall toks k,
            Forall token toks -> toks <> [] ->
            FBNet.speed_row (Py.join " " toks ++ Py.newline) k
            = mapM Py.float (firstn k toks))
        /\ exists rows,
            Forall2 (fun '(i, block) row =>
                       FBNet.speed_row (nth i (FBNet._speed Tiny.net) EmptyString)
                         (length block) = Ok row)
                    (enumerate
                       (leading_lists
                          (skipn (FBNet._input_conv_count Tiny.net)
                                 (FBNet._blocks Tiny.net))))
                    rows
            /\ torch.data (FBNet.ret_lat_loss out)
               = (torch.sum1
                    (map (fun '(i, row) =>
                            expected_latency
                              (selection_weights Tiny.gumbels
                                 (FBNet.theta Tiny.net)
                                 (length (torch.data Tiny.input)) 5%R i)
                              row)
                         (enumerate rows))
                  / INR (length (torch.data Tiny.input)))%R).
Proof.
  destruct tiny_forward as (out & self' & H).
  assert (F : Forall (row_fits Tiny.net (FBNet.theta Tiny.net))
                (enumerate
                   (leading_lists
                      (skipn (FBNet._input_conv_count Tiny.net)
                             (FBNet._blocks Tiny.net))))).
  { simpl. repeat (constructor; [split; [reflexivity | apply le_n] |]).
    constructor. }
  exists out, self'. split; [split; assumption |].
  exact (latency_loss_is_expected_latency
           Tiny.gumbels Tiny.net Tiny.input Tiny.target None None out self' H F).
Defined.

(** C3 as stated fails: every row of this latency file holds two floats
    separated by whitespace (two spaces), [FBNet.__init__] accepts the
    file, and [forward] raises [ValueError] at the first layer, where
    [split(' ')] yields an empty token between the two spaces. *)
Lemma latency_rows_are_not_cut_at_whitespace :
  FBNet.init Tiny.files2 2 Tiny.blocks 1 "./speed.txt" (2 / 10) (6 / 10) Tiny.fc
  = Ok Tiny.net2
  /\ Forall (fun line => Py.split line = ["1.0"%string; "2.0"%string]
                         /\ mapM Py.float (Py.split line)
                            = Ok [(10 / 10 * powerRZ 10 0)%R;
                                  (20 / 10 * powerRZ 10 0)%R])
       (FBNet._speed Tiny.net2)
  /\ FBNet.forward Tiny.gumbels Tiny.net2 Tiny.input Tiny.target None None
     = Raise ValueError.
Proof.
  split; [reflexivity |]. split.
  - simpl. repeat (constructor; [split; reflexivity |]). constructor.
  - reflexivity.
Qed.

(** ** C8: [save_theta] *)

Lemma whitespace_char (c0 : ascii) (s : string) :
  Py.isspace c0 = true -> free_of Py.isspace s -> free_of (Ascii.eqb c0) s.
Proof.
  intros H0. induction s as [| c s IH]; cbn [free_of]; auto. intros (Hc & Hs).
  split; [| auto].
  destruct (Ascii.eqb c0 c) eqn:E; [| reflexivity].
  apply Ascii.eqb_eq in E. subst c. congruence.
Qed.

Lemma free_of_app (sep : ascii -> bool) (a b : string) :
  free_of sep a -> free_of sep b -> free_of sep (a ++ b).
Proof.
  induction a as [| c a IH]; simpl; auto. intros (Hc & Ha) Hb. auto.
Qed.

Lemma free_of_join (sep : ascii -> bool) (toks : list string) :
  sep " "%char = false ->
  Forall (free_of sep) toks ->
  free_of sep (Py.join " " toks).
Proof.
  intros Hs F. induction F as [| t toks Ht F IH]; [exact I |].
  destruct toks as [| u toks]; [exact Ht |].
  rewrite join_cons. apply free_of_app; [assumption |].
  simpl. split; assumption.
Qed.

Lemma concat_cons (x : string) (rest : list string) :
  String.concat EmptyString (x :: rest)
  = (x ++ String.concat EmptyString rest)%string.
Proof.
  destruct rest; simpl; [rewrite append_empty |]; reflexivity.
Qed.

(** Reading a text that starts with a line. *)
Lemma readlines_from_line (body rest : string) :
  free_of (Ascii.eqb "010"%char) body ->
  forall cur,
    Py.readlines_from cur (body ++ Py.newline ++ rest)
    = (cur ++ body ++ Py.newline)%string :: Py.readlines_from EmptyString rest.
Proof.
  induction body as [| c body IH]; intros F cur.
  - reflexivity.
  - destruct F as (Hc & Hb). simpl.
    rewrite Ascii.eqb_sym in Hc. rewrite Hc.
    rewrite (IH Hb). rewrite append_assoc. reflexivity.
Qed.

Lemma readlines_lines (bodies : list string) :
  Forall (free_of (Ascii.eqb "010"%char)) bodies ->
  Py.readlines
    (String.concat EmptyString (map (fun b => (b ++ Py.newline)%string) bodies))
  = map (fun b => (b ++ Py.newline)%string) bodies.
Proof.
  unfold Py.readlines.
  induction 1 as [| b bodies Hb F IH]; [reflexivity |].
  cbn [map]. rewrite concat_cons, append_assoc.
  rewrite readlines_from_line by assumption.
  simpl map. f_equal. exact IH.
Qed.

(** The whitespace-separated tokens of a written line. *)
Lemma split_line (toks : list string) :
  Forall token toks ->
  Py.split (Py.join " " toks ++ Py.newline) = toks.
Proof.
  intros F. unfold Py.split.
  assert (Fn : filter Py.nonempty toks = toks).
  { clear - F. induction F as [| t toks (Hn & _) _ IH]; simpl; auto.
    destruct t; [contradiction |]. simpl. f_equal. exact IH. }
  destruct toks as [| t toks]; [reflexivity |].
  rewrite (split_by_join Py.isspace " "%char Py.newline eq_refl toks t).
  - simpl Py.split_by. cbv iota. rewrite append_empty.
    assert (E : removelast (t :: toks)
                  ++ [last (t :: toks) EmptyString; EmptyString]
                = (t :: toks) ++ [EmptyString]).
    { rewrite (app_removelast_last (l := t :: toks) EmptyString) at 3
        by discriminate.
      rewrite <- app_assoc. reflexivity. }
    rewrite E, filter_app, Fn. apply (app_nil_r (t :: toks)).
  - eapply Forall_impl; [| exact F]. intros s (_ & Hs). exact Hs.
Qed.

Section TrainerProperties.

Variable Net : Type.
Variable mod_theta : Net -> list torch.T1.
Variable str : R -> string.

(** What [str] returns for a float: non-empty text without whitespace. *)
Hypothesis str_token : forall x, token (str x).

Lemma save_lines (thetas : list torch.T1) :
  forall res text,
    fold_left (Trainer.save_line str) thetas (res, text)
    = (res ++ thetas,
       (text ++ String.concat EmptyString
                  (map (fun b => (b ++ Py.newline)%string)
                       (map (theta_line str) thetas)))%string).
Proof.
  induction thetas as [| t thetas IH]; intros res text.
  - simpl. rewrite app_nil_r, append_empty. reflexivity.
  - cbn [fold_left map].
    change (Trainer.save_line str (res, text) t)
      with ((res ++ [t])%list, (text ++ (theta_line str t ++ Py.newline))%string).
    rewrite IH, <- app_assoc, concat_cons, !append_assoc. reflexivity.
Qed.

Lemma written_lines_split (thetas : list torch.T1) :
  Forall2 (fun line t_list =>
             Py.split line = map str t_list
             /\ length (Py.split line) = length t_list)
          (map (fun t_list => (theta_line str t_list ++ Py.newline)%string) thetas)
          thetas.
Proof.
  induction thetas as [| t_list thetas IH]; simpl; constructor; [| exact IH].
  unfold theta_line. rewrite split_line.
  - split; [reflexivity | apply length_map].
  - rewrite Forall_map. rewrite Forall_forall. intros x _. apply str_token.
Qed.

(** C8.  [save_theta] returns the list of theta vectors and leaves in the
    file one line per vector, in order: the [str] of the values joined by
    single spaces.  Reading the file back gives as many lines as there are
    vectors, and each line splits into as many tokens as its vector has
    entries. *)
Theorem save_theta_writes_one_line_per_vector :
  forall (self : Trainer.t Net) (save_path : string) res self',
    Trainer.save_theta mod_theta str self save_path = Ok (res, self') ->
    res = mod_theta (Trainer._mod self)
    /\ Trainer._mod self' = Trainer._mod self
    /\ exists text,
        Trainer.files self' save_path = Some text
        /\ Py.readlines text
           = map (fun t_list => (theta_line str t_list ++ Py.newline)%string)
                 (mod_theta (Trainer._mod self))
        /\ length (Py.readlines text) = length (mod_theta (Trainer._mod self))
        /\ Forall2 (fun line t_list =>
                      Py.split line = map str t_list
                      /\ length (Py.split line) = length t_list)
                   (Py.readlines text) (mod_theta (Trainer._mod self)).
Proof.
  intros self save_path res self' H.
  unfold Trainer.save_theta in H.
  destruct (Trainer.writable self save_path) eqn:W; [| discriminate].
  simpl in H. rewrite save_lines in H. simpl in H.
  unfold Trainer.write_file in H. rewrite W in H. simpl in H.
  inversion H; subst; clear H. simpl.
  split; [reflexivity |]. split; [reflexivity |].
  eexists. split; [rewrite String.eqb_refl; reflexivity |].
  assert (E : Py.readlines
                (String.concat EmptyString
                   (map (fun b => (b ++ Py.newline)%string)
                        (map (theta_line str) (mod_theta (Trainer._mod self)))))
              = map (fun t_list => (theta_line str t_list ++ Py.newline)%string)
                    (mod_theta (Trainer._mod self))).
  { rewrite readlines_lines.
    - apply map_map.
    - rewrite Forall_map. rewrite Forall_forall. intros t_list _.
      unfold theta_line. apply free_of_join; [reflexivity |].
      rewrite Forall_map. rewrite Forall_forall. intros x _.
      apply whitespace_char; [reflexivity | apply str_token]. }
  rewrite E. split; [reflexivity |]. split; [apply length_map |].
  apply written_lines_split.
Qed.

End TrainerProperties.

Lemma save_theta_writes_one_line_per_vector_witness :
  exists res self',
    ((forall x, token (str_one x))
     /\ Trainer.save_theta (fun thetas => thetas) str_one
          (bare_trainer [[1; 1]; [1; 1; 1]]%R) "theta.txt" = Ok (res, self'))
    /\ (res = [[1; 1]; [1; 1; 1]]%R
        /\ Trainer._mod self' = [[1; 1]; [1; 1; 1]]%R
        /\ exists text,
            Trainer.files self' "theta.txt" = Some text
            /\ Py.readlines text
               = map (fun t_list =>
                        (theta_line str_one t_list ++ Py.newline)%string)
                     [[1; 1]; [1; 1; 1]]%R
            /\ length (Py.readlines text) = 2
            /\ Forall2 (fun line t_list =>
                          Py.split line = map str_one t_list
                          /\ length (Py.split line) = length t_list)
                       (Py.readlines text) [[1; 1]; [1; 1; 1]]%R).
Proof.
  assert (T : forall x, token (str_one x)).
  { intros x. split; [discriminate | repeat split]. }
  eexists. eexists. split; [split; [exact T | reflexivity] |].
  exact (save_theta_writes_one_line_per_vector
           (list torch.T1) (fun thetas => thetas) str_one T
           (bare_trainer [[1; 1]; [1; 1; 1]]%R) "theta.txt" _ _ eq_refl).
Defined.

(** ** C7: the order of operations of [search] *)

Lemma foldM_ext {A B : Type} (f g : B -> A -> result B) (l : list A) :
  (forall acc x, f acc x = g acc x) ->
  forall acc, foldM f l acc = foldM g l acc.
Proof.
  intros E. induction l as [| x l IH]; intros acc; simpl; auto.
  rewrite E. destruct (g acc x); simpl; auto.
Qed.

Lemma foldM_flat_map {A B C : Type} (f : B -> A -> result B) (h : C -> list A)
  (l : list C) :
  forall acc,
    foldM f (flat_map h l) acc = foldM (fun acc c => foldM f (h c) acc) l acc.
Proof.
  induction l as [| c l IH]; intros acc; simpl; auto.
  rewrite foldM_app. destruct (foldM f (h c) acc); simpl; auto.
Qed.

Section SearchProperties.

Variable Net : Type.
Variable Input Target : Type.
Variable mod_call :
  Net -> Input -> Target -> R -> result (FBNet.ret * Net).
Variable mod_batch_size : Net -> Z.
Variable mod_theta : Net -> list torch.T1.
Variable backward : torch.Tensor R -> Net -> result Net.
Variable w_opt_zero_grad w_opt_step : Net -> Net.
Variable t_opt_zero_grad t_opt_step : Net -> Net.
Variable w_sche_step : Net -> Net.
Variable str : R -> string.

Local Abbreviation run :=
  (perform Net Input Target mod_call mod_batch_size mod_theta backward
     w_opt_zero_grad w_opt_step t_opt_zero_grad t_opt_step w_sche_step str).
Local Abbreviation w_pass := (weight_pass Input Target).
Local Abbreviation t_pass := (theta_pass Input Target).
Local Abbreviation plan := (search_plan Input Target).

Lemma perform_weight_pass log_frequence epoch ds self :
  foldM (run log_frequence) (w_pass epoch ds) self
  = foldM (fun self '(step, (input, target)) =>
             self <- Trainer._step mod_batch_size self input target epoch step
                       log_frequence
                       (fun s x y =>
                          Trainer.train_w mod_call backward w_opt_zero_grad
                            w_opt_step s x y false) ;;
             Ok (Trainer.set_mod self (w_sche_step (Trainer._mod self))))
          (enumerate ds) (Trainer.info self (Trainer.StartTrainW epoch)).
Proof.
  unfold weight_pass. simpl. rewrite foldM_flat_map.
  apply foldM_ext. intros acc (step, (input, target)). simpl.
  destruct (Trainer._step _ _ _ _ _ _ _ _); reflexivity.
Qed.

Lemma perform_theta_pass log_frequence epoch ds self :
  foldM (run log_frequence) (t_pass epoch ds) self
  = foldM (fun self '(step, (input, target)) =>
             self <- Trainer._step mod_batch_size self input target epoch step
                       log_frequence
                       (fun s x y =>
                          Trainer.train_t mod_call backward t_opt_zero_grad
                            t_opt_step s x y false) ;;
             '(_, self) <- Trainer.save_theta mod_theta str self
                             (Trainer.theta_path (Trainer.save_theta_prefix self)
                                                 epoch) ;;
             Ok self)
          (enumerate ds) (Trainer.info self (Trainer.StartTrainTheta epoch)).
Proof.
  unfold theta_pass. simpl. rewrite foldM_flat_map.
  apply foldM_ext. intros acc (step, (input, target)). simpl.
  destruct (Trainer._step _ _ _ _ _ _ _ _); simpl; [| reflexivity].
  destruct (Trainer.save_theta _ _ _ _) as [[res s] |]; reflexivity.
Qed.

(** C7.  [search] raises the assertion error when [start_w_epoch] is below
    1.  Otherwise it performs, in this order and with nothing in between:
    [start_w_epoch] passes of weight training over [train_w_ds], the
    scheduler advanced after every step; then [total_epoch] times a pass of
    architecture training over [train_t_ds] with theta saved after every
    step, one temperature decay, and a pass of weight training over
    [train_w_ds].  A failing operation ends the search with its error. *)
Theorem search_follows_plan :
  forall (self : Trainer.t Net) (train_w_ds train_t_ds : list (Input * Target))
         (total_epoch start_w_epoch log_frequence : Z),
    ((start_w_epoch < 1)%Z ->
     Trainer.search mod_call mod_batch_size mod_theta backward
       w_opt_zero_grad w_opt_step t_opt_zero_grad t_opt_step w_sche_step str
       self train_w_ds train_t_ds total_epoch start_w_epoch log_frequence
     = Raise AssertionError)
    /\ ((1 <= start_w_epoch)%Z ->
        Trainer.search mod_call mod_batch_size mod_theta backward
          w_opt_zero_grad w_opt_step t_opt_zero_grad t_opt_step w_sche_step str
          self train_w_ds train_t_ds total_epoch start_w_epoch log_frequence
        = foldM (run log_frequence)
            (plan train_w_ds train_t_ds total_epoch start_w_epoch) self).
Proof.
  intros self train_w_ds train_t_ds total_epoch start_w_epoch log_frequence.
  unfold Trainer.search. split; intros H.
  - destruct (Z.leb_spec 1 start_w_epoch); [lia | reflexivity].
  - destruct (Z.leb_spec 1 start_w_epoch); [| lia]. simpl negb. cbv iota.
    unfold search_plan.
    cbn [foldM perform Trainer.time bind].
    rewrite foldM_app, foldM_flat_map.
    rewrite (foldM_ext _ _ _ (fun acc epoch =>
               perform_weight_pass log_frequence epoch train_w_ds acc)).
    destruct (foldM _ (Trainer.range start_w_epoch) _) as [s1 |]; [| reflexivity].
    cbn [foldM perform Trainer.time bind].
    rewrite foldM_flat_map.
    apply foldM_ext. intros acc epoch.
    rewrite foldM_app, perform_theta_pass.
    destruct (foldM _ (enumerate train_t_ds) _) as [s2 |]; [| reflexivity].
    cbn [foldM perform bind].
    rewrite perform_weight_pass. reflexivity.
Qed.

End SearchProperties.

(** [search] with one epoch of each kind on data sets of one batch: the
    calls on the network, in order, and the temperature at the end. *)
Example search_one_epoch :
  exists self',
    Trainer.search Recorded.mod_call Recorded.mod_batch_size Recorded.mod_theta
      Recorded.backward Recorded.w_opt_zero_grad Recorded.w_opt_step
      Recorded.t_opt_zero_grad Recorded.t_opt_step Recorded.w_sche_step str_one
      Recorded.trainer [(0, 0)] [(1, 1)] 1 1 100
    = Ok self'
    /\ Trainer._mod self'
       = ["w_opt.zero_grad"; "forward"; "backward"; "w_opt.step"; "w_sche.step";
          "t_opt.zero_grad"; "forward"; "backward"; "t_opt.step";
          "w_opt.zero_grad"; "forward"; "backward"; "w_opt.step";
          "w_sche.step"]%string
    /\ Trainer.temp self' = (5 * (965 / 1000))%R
    /\ Trainer.files self' "./theta-result/run_theta_epoch_1.txt"
       = Some ("1.0 1.0" ++ Py.newline)%string.
Proof.
  eexists.
  split; [lazy -[Rplus Rmult Rminus Ropp Rdiv Rinv IZR INR]; reflexivity |].
  repeat split.
Qed.

(** ** C4: the running averages *)

Section StepProperties.

Variable Net : Type.
Variable Input Target : Type.
Variable mod_batch_size : Net -> Z.

(** Whatever the step, [_step] leaves in each meter the value it held after
    the training function plus the value of this step: no step empties a
    meter. *)
Lemma step_updates_meters
  (self : Trainer.t Net) (input : Input) (target : Target)
  (epoch : Z) (step : nat) (log_frequence : Z)
  (func : Trainer.t Net -> Input -> Target -> result (FBNet.ret * Trainer.t Net))
  (out : FBNet.ret) (s1 self' : Trainer.t Net) :
  func self input target = Ok (out, s1) ->
  Trainer._step mod_batch_size self input target epoch step log_frequence func
  = Ok self' ->
  Trainer._acc_avg self' = Trainer.update (Trainer._acc_avg s1) (FBNet.ret_acc out)
  /\ Trainer._ce_avg self' = Trainer.update (Trainer._ce_avg s1) (FBNet.ret_ce out)
  /\ Trainer._lat_avg self'
     = Trainer.update (Trainer._lat_avg s1) (FBNet.ret_lat_loss out)
  /\ Trainer._loss_avg self'
     = Trainer.update (Trainer._loss_avg s1) (FBNet.ret_loss out).
Proof.
  intros Hf H. unfold Trainer._step in H. rewrite Hf in H. simpl in H.
  destruct (1 <? step).
  - destruct (log_frequence =? 0)%Z; [discriminate |].
    destruct (Z.of_nat step mod log_frequence =? 0)%Z.
    + destruct (Trainer.tic s1) as [tic0 |]; [| discriminate].
      destruct (Req_dec_T _ _); [discriminate |].
      inversion H; subst; simpl. auto.
    + inversion H; subst; simpl. auto.
  - inversion H; subst; simpl. auto.
Qed.

End StepProperties.

(** C4, at a step that flushes (step 2 with [log_frequence] 2, on the
    recorded trainer, clock started at 0): the call writes the log line
    with the throughput of 8 samples over the elapsed time and restarts
    the clock, but the four meters keep their sums and counts. *)
Theorem flush_does_not_reset_meters :
  exists self',
    Trainer._step Recorded.mod_batch_size Recorded.started 0 0 0%Z 2 2%Z
      Recorded.train_w
    = Ok self'
    /\ Trainer.log self'
       = [Trainer.Batch 0 2 (1 * IZR (4 * 2) / (INR 0 + 1 - 0))%R
            (Trainer.mkMeter (0 + 3)%R 1) (Trainer.mkMeter (0 + 1 / 2)%R 1)
            (Trainer.mkMeter (0 + 1)%R 1) (Trainer.mkMeter (0 + 2)%R 1)]
    /\ Trainer.tic self' = Some (INR 1 + 1)%R
    /\ Trainer._loss_avg self' = Trainer.mkMeter (0 + 3)%R 1
    /\ Trainer._acc_avg self' = Trainer.mkMeter (0 + 1 / 2)%R 1
    /\ Trainer._ce_avg self' = Trainer.mkMeter (0 + 1)%R 1
    /\ Trainer._lat_avg self' = Trainer.mkMeter (0 + 2)%R 1
    /\ Trainer._loss_avg self' <> Trainer.reset (Trainer._loss_avg self')
    /\ Trainer._acc_avg self' <> Trainer.reset (Trainer._acc_avg self')
    /\ Trainer._ce_avg self' <> Trainer.reset (Trainer._ce_avg self')
    /\ Trainer._lat_avg self' <> Trainer.reset (Trainer._lat_avg self').
Proof.
  unfold Trainer._step, Recorded.train_w, Trainer.train_w. simpl.
  match goal with
  | |- context [Req_dec_T ?a ?b] => destruct (Req_dec_T a b) as [E | E]
  end.
  - exfalso. lra.
  - eexists. split; [reflexivity |]. simpl.
    repeat split; intros D; inversion D.
Qed.


(** * Further properties *)

(** ** The construction: theta vectors and stems *)

Lemma nth_error_enumerate_from {A : Type} (l : list A) (k i : nat) :
  nth_error (enumerate_from k l) i
  = option_map (fun x => (k + i, x)) (nth_error l i).
Proof.
  revert k i; induction l as [| x l IH]; intros k [| i]; simpl; auto.
  - rewrite Nat.add_0_r. reflexivity.
  - rewrite IH. rewrite Nat.add_succ_r. reflexivity.
Qed.

Lemma lists_app l1 l2 : FBNet.lists (l1 ++ l2) = FBNet.lists l1 ++ FBNet.lists l2.
Proof.
  induction l1 as [| [b | bs |] l1 IH]; simpl; auto. rewrite IH. reflexivity.
Qed.

Lemma lists_modules stem : FBNet.lists (map FBNet.Module_ stem) = [].
Proof. induction stem; simpl; auto. Qed.

Lemma lists_lists gs : FBNet.lists (map FBNet.List_ gs) = gs.
Proof. induction gs as [| g gs IH]; simpl; auto. rewrite IH. reflexivity. Qed.

Lemma leading_lists_groups gs rest :
  match rest with FBNet.List_ _ :: _ => False | _ => True end ->
  leading_lists (map FBNet.List_ gs ++ rest) = gs.
Proof.
  intros H. induction gs as [| g gs IH]; simpl.
  - destruct rest as [| [b | bs |] rest]; simpl; auto. contradiction.
  - rewrite IH. reflexivity.
Qed.

(** The theta vectors and the candidate lists a construction stores. *)
Lemma init_theta_per_group files num_classes blocks init_theta speed_f alpha beta
  fc net :
  FBNet.init files num_classes blocks init_theta speed_f alpha beta fc = Ok net ->
  FBNet._ops net = FBNet.lists blocks
  /\ FBNet._blocks net = blocks
  /\ FBNet._input_conv_count net = length (FBNet.leading_modules blocks)
  /\ forall i group,
       nth_error (FBNet.lists blocks) i = Some group ->
       nth_error (FBNet.theta net) i
       = Some (torch.nn_Parameter i (List.repeat init_theta (length group))).
Proof.
  intros H. unfold FBNet.init in H.
  destruct (negb _); [discriminate |].
  destruct (files speed_f) as [text |]; [| discriminate].
  inversion H; subst; clear H. simpl.
  repeat (split; [reflexivity |]).
  intros i group Hg. unfold enumerate.
  rewrite nth_error_map, nth_error_enumerate_from, Hg. reflexivity.
Qed.

Lemma leading_modules_split blocks :
  blocks
  = map FBNet.Module_ (FBNet.leading_modules blocks)
    ++ skipn (length (FBNet.leading_modules blocks)) blocks.
Proof.
  induction blocks as [| [b | bs |] blocks IH]; simpl; auto.
  f_equal. exact IH.
Qed.

Lemma lists_after_stem blocks :
  FBNet.lists (skipn (length (FBNet.leading_modules blocks)) blocks)
  = FBNet.lists blocks.
Proof.
  rewrite (leading_modules_split blocks) at 3.
  rewrite lists_app, lists_modules. reflexivity.
Qed.

Lemma leading_lists_first blocks i group :
  nth_error (leading_lists blocks) i = Some group ->
  nth_error (FBNet.lists blocks) i = Some group.
Proof.
  revert i; induction blocks as [| [b | bs |] blocks IH]; intros [| i] H;
    simpl in *; try discriminate; auto.
Qed.

Lemma forall_enumerate_from {A : Type} (P : nat * A -> Prop) (l : list A) (k : nat) :
  (forall i x, nth_error l i = Some x -> P (k + i, x)) ->
  Forall P (enumerate_from k l).
Proof.
  revert k; induction l as [| y l IH]; intros k H; simpl; constructor.
  - rewrite <- (Nat.add_0_r k). apply H. reflexivity.
  - apply IH. intros i x Hx. rewrite Nat.add_succ_l, <- Nat.add_succ_r.
    apply H. exact Hx.
Qed.

(** X1.  [__init__] finds the candidate lists by a filter over all blocks,
    [forward] finds its layers by position, after the input stem and up to
    the first element that is not a list.  On a constructed network the
    two agree: the layer that the loop of [forward] handles at position
    [i] is the [i]-th stored candidate list, and the [i]-th theta vector
    has one entry per candidate of that layer, each equal to [init_theta].
    So every layer of a fresh network has a theta entry per candidate. *)
Theorem init_aligns_theta_with_forward_layers :
  forall files num_classes blocks init_theta speed_f alpha beta fc net,
    FBNet.init files num_classes blocks init_theta speed_f alpha beta fc = Ok net ->
    (forall i block,
        nth_error (processed_groups net) i = Some block ->
        nth_error (FBNet._ops net) i = Some block
        /\ nth_error (map (@torch.data torch.T1) (FBNet.theta net)) i
           = Some (List.repeat init_theta (length block)))
    /\ Forall (theta_fits (FBNet.theta net)) (enumerate (processed_groups net)).
Proof.
  intros files num_classes blocks init_theta speed_f alpha beta fc net H.
  destruct (init_theta_per_group _ _ _ _ _ _ _ _ _ H) as (Ho & Hb & Hc & Ht).
  assert (A : forall i block,
             nth_error (processed_groups net) i = Some block ->
             nth_error (FBNet.lists blocks) i = Some block).
  { intros i block Hi. unfold processed_groups in Hi. rewrite Hb, Hc in Hi.
    apply leading_lists_first in Hi. rewrite lists_after_stem in Hi. exact Hi. }
  split.
  - intros i block Hi. apply A in Hi. split; [rewrite Ho; exact Hi |].
    rewrite nth_error_map, (Ht _ _ Hi). reflexivity.
  - apply forall_enumerate_from. intros i block Hi. apply A in Hi.
    apply Ht in Hi. unfold theta_fits. simpl.
    rewrite (nth_error_nth _ _ _ Hi). simpl. apply repeat_length.
Qed.

Lemma init_aligns_theta_with_forward_layers_witness :
  exists net,
    FBNet.init Tiny.files 2 Tiny.blocks 1 "./speed.txt" (2 / 10) (6 / 10) Tiny.fc
    = Ok net
    /\ ((forall i block,
            nth_error (processed_groups net) i = Some block ->
            nth_error (FBNet._ops net) i = Some block
            /\ nth_error (map (@torch.data torch.T1) (FBNet.theta net)) i
               = Some (List.repeat 1%R (length block)))
        /\ Forall (theta_fits (FBNet.theta net))
             (enumerate (processed_groups net))).
Proof.
  exists Tiny.net. split; [reflexivity |].
  apply (init_aligns_theta_with_forward_layers Tiny.files 2 Tiny.blocks 1
           "./speed.txt" (2 / 10) (6 / 10) Tiny.fc Tiny.net).
  reflexivity.
Defined.

(** X2.  For a sequence made of stem modules, then the candidate groups,
    then modules again, the construction finds the parts: the input stem is
    the modules before the groups, the output stem the modules after them,
    and the loop of [forward] runs over exactly the groups. *)
Theorem init_finds_stems_and_groups :
  forall files num_classes stem groups tail init_theta speed_f alpha beta fc net,
    FBNet.init files num_classes
      (map FBNet.Module_ stem ++ map FBNet.List_ groups ++ map FBNet.Module_ tail)
      init_theta speed_f alpha beta fc = Ok net ->
    length groups = 22
    /\ FBNet._input_conv net = stem
    /\ FBNet._input_conv_count net = length stem
    /\ FBNet._output_conv net = tail
    /\ FBNet._ops net = groups
    /\ skipn (FBNet._input_conv_count net) (FBNet._blocks net)
       = map FBNet.List_ groups ++ map FBNet.Module_ tail
    /\ leading_lists (skipn (FBNet._input_conv_count net) (FBNet._blocks net))
       = groups.
Proof.
  intros files num_classes stem groups tail init_theta speed_f alpha beta fc net H.
  assert (Hl : FBNet.lists
                 (map FBNet.Module_ stem ++ map FBNet.List_ groups
                  ++ map FBNet.Module_ tail) = groups).
  { rewrite !lists_app, !lists_modules, lists_lists, app_nil_r. reflexivity. }
  assert (Hs : FBNet.leading_modules
                 (map FBNet.Module_ stem ++ map FBNet.List_ groups
                  ++ map FBNet.Module_ tail) = stem).
  { apply leading_modules_stem. intros b r.
    destruct groups as [| g groups]; [| discriminate].
    unfold FBNet.init in H. rewrite Hl in H. discriminate. }
  unfold FBNet.init in H. rewrite Hl, Hs in H.
  destruct (negb _) eqn:En; [discriminate |].
  apply negb_false_iff, Nat.eqb_eq in En.
  unfold enumerate in En. rewrite length_map, enumerate_from_length in En.
  destruct (files speed_f) as [text |]; [| discriminate].
  inversion H; subst; clear H. simpl.
  assert (Hk : skipn (length stem)
                 (map FBNet.Module_ stem ++ map FBNet.List_ groups
                  ++ map FBNet.Module_ tail)
               = map FBNet.List_ groups ++ map FBNet.Module_ tail).
  { rewrite skipn_app, length_map, Nat.sub_diag, skipn_all2
      by (rewrite length_map; lia). reflexivity. }
  repeat match goal with |- _ /\ _ => split end; auto.
  - rewrite app_assoc, skipn_app.
    rewrite skipn_all2 by (rewrite length_app, !length_map; lia).
    rewrite length_app, !length_map, Nat.sub_diag. simpl.
    rewrite <- (app_nil_r (map FBNet.Module_ tail)).
    apply leading_modules_stem. discriminate.
  - rewrite Hk. apply leading_lists_groups.
    destruct tail; simpl; auto.
Qed.

Lemma init_finds_stems_and_groups_witness :
  exists net,
    FBNet.init Tiny.files 2
      (map FBNet.Module_ [Tiny.block]
       ++ map FBNet.List_ (List.repeat [Tiny.block; Tiny.block] 22)
       ++ map FBNet.Module_ [])
      1 "./speed.txt" (2 / 10) (6 / 10) Tiny.fc = Ok net
    /\ (length (List.repeat [Tiny.block; Tiny.block] 22) = 22
        /\ FBNet._input_conv net = [Tiny.block]
        /\ FBNet._input_conv_count net = length [Tiny.block]
        /\ FBNet._output_conv net = []
        /\ FBNet._ops net = List.repeat [Tiny.block; Tiny.block] 22
        /\ skipn (FBNet._input_conv_count net) (FBNet._blocks net)
           = map FBNet.List_ (List.repeat [Tiny.block; Tiny.block] 22)
             ++ map FBNet.Module_ []
        /\ leading_lists (skipn (FBNet._input_conv_count net) (FBNet._blocks net))
           = List.repeat [Tiny.block; Tiny.block] 22).
Proof.
  exists Tiny.net. split; [reflexivity |].
  apply (init_finds_stems_and_groups Tiny.files 2 [Tiny.block]
           (List.repeat [Tiny.block; Tiny.block] 22) [] 1 "./speed.txt"
           (2 / 10) (6 / 10) Tiny.fc Tiny.net).
  reflexivity.
Defined.

(** ** What a successful forward pass needs *)

Lemma layers_needs_rows g self thetas batch_size temperature :
  forall blocks theta_idx data lat r,
    FBNet.layers g self thetas batch_size temperature blocks theta_idx data lat
    = Ok r ->
    leading_lists blocks = []
    \/ (theta_idx + length (leading_lists blocks) <= length thetas
        /\ theta_idx + length (leading_lists blocks) <= length (FBNet._speed self)
        /\ theta_idx + length (leading_lists blocks) <= length (FBNet._ops self)).
Proof.
  induction blocks as [| [b | block |] rest IH];
    intros theta_idx data lat r H; simpl in *; auto.
  right.
  apply bind_Ok in H. destruct H as (theta & Etheta & H).
  apply bind_Ok in H. destruct H as (line & Eline & H).
  apply bind_Ok in H. destruct H as (speed & Espeed & H).
  apply bind_Ok in H. destruct H as (lat_ & Elat & H).
  apply bind_Ok in H. destruct H as (op & Eop & H).
  apply bind_Ok in H. destruct H as (data1 & Edata & H).
  assert (B : forall (A : Type) (l : list A) v, index l theta_idx = Ok v ->
                theta_idx < length l).
  { intros A l v E. unfold index in E.
    destruct (nth_error l theta_idx) eqn:En; [| discriminate].
    apply nth_error_Some. congruence. }
  apply B in Etheta. apply B in Eline. apply B in Eop.
  destruct (IH _ _ _ _ H) as [E | (H1 & H2 & H3)].
  - rewrite E. simpl. lia.
  - lia.
Qed.

(** X3.  A forward pass that returns had what it needs: a batch that is not
    empty, one target per example, and for every layer its loop handles a
    theta vector, a line of the latency file and a candidate list.  The
    batch size is recorded on the network. *)
Theorem forward_needs_batch_targets_and_rows :
  forall g self input target temperature theta_list out self',
    FBNet.forward g self input target temperature theta_list = Ok (out, self') ->
    length (torch.data input) <> 0
    /\ length target = length (torch.data input)
    /\ length (processed_groups self) <= length (thetas_used self theta_list)
    /\ length (processed_groups self) <= length (FBNet._speed self)
    /\ length (processed_groups self) <= length (FBNet._ops self)
    /\ FBNet.batch_size self' = Some (length (torch.data input)).
Proof.
  intros g self input target temperature theta_list out self' H.
  assert (Hb : FBNet.batch_size self' = Some (length (torch.data input))).
  { unfold FBNet.forward in H.
    apply bind_Ok in H. destruct H as ([logits lat] & _ & H).
    repeat inv_bind H. inversion H; reflexivity. }
  apply forward_Ok in H.
  destruct H as (logits & lat & c & pred & n & Hf & Hc & _).
  destruct (features_logits_length _ _ _ _ _ _ _ Hf) as (Hlen & Hn).
  assert (Ht : length target = length (torch.data input)).
  { unfold FBNet.CrossEntropyLoss in Hc.
    destruct (negb _) eqn:E; [discriminate |].
    apply negb_false_iff, Nat.eqb_eq in E. congruence. }
  apply features_layers in Hf. destruct Hf as (data0 & data1 & Hf).
  apply layers_needs_rows in Hf. fold (processed_groups self) in Hf.
  fold (thetas_used self theta_list) in Hf. simpl in Hf.
  repeat match goal with |- _ /\ _ => split end; auto;
    destruct Hf as [E | (H1 & H2 & H3)]; try assumption;
    rewrite E; simpl; lia.
Qed.

Lemma forward_needs_batch_targets_and_rows_witness :
  exists out self',
    FBNet.forward Tiny.gumbels Tiny.net Tiny.input Tiny.target None None
    = Ok (out, self')
    /\ (length (torch.data Tiny.input) <> 0
        /\ length Tiny.target = length (torch.data Tiny.input)
        /\ length (processed_groups Tiny.net) <= length (thetas_used Tiny.net None)
        /\ length (processed_groups Tiny.net) <= length (FBNet._speed Tiny.net)
        /\ length (processed_groups Tiny.net) <= length (FBNet._ops Tiny.net)
        /\ FBNet.batch_size self' = Some (length (torch.data Tiny.input))).
Proof.
  destruct tiny_forward as (out & self' & H).
  exists out, self'. split; [exact H |].
  exact (forward_needs_batch_targets_and_rows
           Tiny.gumbels Tiny.net Tiny.input Tiny.target None None out self' H).
Defined.

(** ** Weights beyond the candidates *)

Lemma mapM_ext_in {A B : Type} (f h : A -> result B) (l : list A) :
  (forall x, In x l -> f x = h x) -> mapM f l = mapM h l.
Proof.
  induction l as [| x l IH]; intros H; simpl; auto.
  rewrite (H x) by (left; reflexivity).
  rewrite IH by (intros y Hy; apply H; right; exact Hy). reflexivity.
Qed.

Lemma in_enumerate_from {A : Type} (l : list A) (k i : nat) (x : A) :
  In (i, x) (enumerate_from k l) -> k <= i < k + length l.
Proof.
  revert k; induction l as [| y l IH]; intros k H; simpl in *; [contradiction |].
  destruct H as [E | H].
  - inversion E; subst. lia.
  - apply IH in H. lia.
Qed.

Lemma column_first_columns (k i : nat) (w : torch.T2) :
  i < k -> torch.column i (map (firstn k) w) = torch.column i w.
Proof.
  intros Hi. unfold torch.column.
  induction w as [| row w IH]; simpl; auto.
  rewrite IH. unfold index at 1 3.
  rewrite nth_error_firstn.
  destruct (Nat.ltb_spec i k); [reflexivity | lia].
Qed.

(** X5.  [MixedOp.forward] reads one weight column per candidate and no
    other: weight rows longer than the candidate list give the same
    result, value or exception, as the rows cut to its length. *)
Theorem MixedOp_forward_ignores_extra_weights :
  forall ops x weights,
    MixedOp.forward ops x weights
    = MixedOp.forward ops x (first_columns (length ops) weights).
Proof.
  intros ops x weights. unfold MixedOp.forward.
  rewrite (mapM_ext_in
             (fun '(i, op) => MixedOp.term x weights i op)
             (fun '(i, op) =>
                MixedOp.term x (first_columns (length ops) weights) i op));
    [reflexivity |].
  intros [i op] Hin. apply in_enumerate_from in Hin. simpl in Hin.
  unfold MixedOp.term, first_columns. simpl.
  rewrite column_first_columns by lia. reflexivity.
Qed.

Lemma mapM_Ok_in {A B : Type} (f : A -> result B) (l : list A) (r : list B) (x : A) :
  mapM f l = Ok r -> In x l -> exists y, f x = Ok y.
Proof.
  revert r; induction l as [| a l IH]; intros r H Hin; [contradiction |].
  simpl in H. apply bind_Ok in H. destruct H as (y & Ey & H).
  apply bind_Ok in H. destruct H as (ys & Eys & _).
  destruct Hin as [E | Hin]; [subst a; eauto | eauto].
Qed.

Lemma in_enumerate_from_nth {A : Type} (l : list A) (k i : nat) (x : A) :
  nth_error l i = Some x -> In (k + i, x) (enumerate_from k l).
Proof.
  revert k i; induction l as [| y l IH]; intros k [| i] H; simpl in *;
    try discriminate.
  - inversion H; subst. rewrite Nat.add_0_r. left; reflexivity.
  - right. rewrite Nat.add_succ_r. apply (IH (S k)). exact H.
Qed.

(** X6.  [MixedOp.forward] returns only when every row of the weights has
    an entry for every candidate: a row with fewer entries than there are
    candidates makes the call raise. *)
Theorem MixedOp_forward_needs_weight_per_candidate :
  forall ops x weights r,
    MixedOp.forward ops x weights = Ok r ->
    Forall (fun row => length ops <= length row) (torch.data weights).
Proof.
  intros ops x weights r H. unfold MixedOp.forward in H.
  apply bind_Ok in H. destruct H as (tmp & Etmp & _).
  rewrite Forall_forall. intros row Hrow.
  destruct (Nat.le_gt_cases (length ops) (length row)) as [Hle | Hlt]; [exact Hle |].
  exfalso.
  destruct (nth_error ops (length row)) as [op |] eqn:Eop;
    [| apply nth_error_None in Eop; lia].
  apply (in_enumerate_from_nth _ 0) in Eop.
  destruct (mapM_Ok_in _ _ _ _ Etmp Eop) as (t & Et).
  simpl in Et. unfold MixedOp.term in Et.
  apply bind_Ok in Et. destruct Et as (res & _ & Et).
  apply bind_Ok in Et. destruct Et as (w & Ew & _).
  unfold torch.column in Ew.
  destruct (mapM_Ok_in _ _ _ _ Ew Hrow) as (v & Ev).
  unfold index in Ev.
  destruct (nth_error row (length row)) eqn:En; [| discriminate].
  assert (Hn : nth_error row (length row) <> None) by congruence.
  apply nth_error_Some in Hn. lia.
Qed.

Lemma MixedOp_forward_needs_weight_per_candidate_witness :
  exists r,
    MixedOp.forward [keeping; doubling] (PyTensor one_example) first_only = Ok r
    /\ Forall (fun row => length [keeping; doubling] <= length row)
         (torch.data first_only).
Proof.
  assert (H : exists r,
             MixedOp.forward [keeping; doubling] (PyTensor one_example) first_only
             = Ok r).
  { eexists. lazy -[Rplus Rmult Rminus Ropp Rdiv Rinv IZR INR]. reflexivity. }
  destruct H as (r & H). exists r. split; [exact H |].
  exact (MixedOp_forward_needs_weight_per_candidate
           [keeping; doubling] (PyTensor one_example) first_only r H).
Defined.

(** ** Bounds of the latency loss *)

Section LatencyBounds.

Local Open Scope R_scope.

Lemma sum_exp_nonneg (ys : list R) : 0 <= torch.sum1 (map exp ys).
Proof.
  induction ys as [| y ys IH]; simpl; [lra |].
  pose proof (exp_pos y). lra.
Qed.

Lemma sum_exp_pos (ys : list R) : ys <> [] -> 0 < torch.sum1 (map exp ys).
Proof.
  destruct ys as [| y ys]; [congruence |]. intros _. simpl.
  pose proof (exp_pos y). pose proof (sum_exp_nonneg ys). lra.
Qed.

Lemma weighted_sum_bounds (s lo hi : R) (ys row : list R) :
  0 < s -> length ys = length row -> Forall (between lo hi) row ->
  lo * (torch.sum1 (map exp ys) / s)
  <= torch.sum1 (zip_with Rmult (map (fun x => exp x / s) ys) row)
  <= hi * (torch.sum1 (map exp ys) / s).
Proof.
  intros HS. revert row.
  induction ys as [| y ys IH]; intros [| r row] L F; simpl in *; try discriminate.
  - unfold Rdiv. rewrite Rmult_0_l, !Rmult_0_r. lra.
  - inversion F as [| ? ? (Hlo & Hhi) F']; subst.
    injection L as L. specialize (IH row L F').
    unfold zip_with in IH.
    assert (He : 0 < exp y / s).
    { apply Rdiv_lt_0_compat; [apply exp_pos | exact HS]. }
    replace ((exp y + torch.sum1 (map exp ys)) / s)
      with (exp y / s + torch.sum1 (map exp ys) / s) by (unfold Rdiv; ring).
    split; nra.
Qed.

Lemma softmax_mean_bounds (lo hi : R) (ys row : list R) :
  ys <> [] -> length ys = length row -> Forall (between lo hi) row ->
  lo <= torch.sum1 (zip_with Rmult (torch.softmax ys) row) <= hi.
Proof.
  intros Hn L F. pose proof (sum_exp_pos ys Hn) as HS.
  pose proof (weighted_sum_bounds _ lo hi ys row HS L F) as B.
  unfold Rdiv in B. rewrite Rinv_r, !Rmult_1_r in B by lra. exact B.
Qed.

Lemma forall_map_enumerate_from {A B : Type} (f : nat * A -> B) (P : B -> Prop)
  (l : list A) (k : nat) :
  (forall n x, In x l -> P (f (n, x))) -> Forall P (map f (enumerate_from k l)).
Proof.
  revert k; induction l as [| x l IH]; intros k H; simpl; constructor.
  - apply H. left; reflexivity.
  - apply IH. intros n y Hy. apply H. right; exact Hy.
Qed.

Lemma rows_sum_bounds (W : torch.T2) (row : torch.T1) (lo hi : R) :
  Forall (fun w => lo <= torch.sum1 (zip_with Rmult w row) <= hi) W ->
  INR (length W) * lo <= expected_latency W row <= INR (length W) * hi.
Proof.
  unfold expected_latency, torch.T2, torch.T1 in *.
  induction 1 as [| w W Hw _ IH].
  - simpl. lra.
  - change (length (w :: W)) with (S (length W)). rewrite S_INR.
    cbn [map torch.sum1 fold_right]. unfold torch.sum1 in *.
    cbv beta in *. lra.
Qed.

Lemma expected_latency_bounds g thetas (N : nat) tau i row lo hi :
  length (torch.data (nth i thetas no_theta)) = length row ->
  row <> [] -> Forall (between lo hi) row ->
  INR N * lo
  <= expected_latency (selection_weights g thetas N tau i) row
  <= INR N * hi.
Proof.
  intros L Hn F.
  assert (LW : length (selection_weights g thetas N tau i) = N).
  { unfold selection_weights.
    pose proof (f_equal (@length nat) (gumbel_softmax_rows (g i)
                  (torch.repeat_rows N (torch.data (nth i thetas no_theta))) tau))
      as E.
    rewrite !length_map in E. unfold torch.repeat_rows in E.
    rewrite repeat_length in E. exact E. }
  pose proof (rows_sum_bounds (selection_weights g thetas N tau i) row lo hi) as B.
  rewrite LW in B. apply B. clear B LW.
  unfold selection_weights, torch.gumbel_softmax.
  apply forall_map_enumerate_from.
  intros n x Hx. apply repeat_spec in Hx. subst x.
  apply softmax_mean_bounds; auto.
  - destruct (torch.data (nth i thetas no_theta)); simpl in *; [| discriminate].
    destruct row; [congruence | discriminate].
  - unfold enumerate. rewrite length_map, enumerate_from_length. exact L.
Qed.

Lemma layers_sum_bounds g self thetas (N : nat) tau lo hi :
  forall groups k rows,
    Forall (row_fits self thetas) (enumerate_from k groups) ->
    Forall (row_within lo hi self) (enumerate_from k groups) ->
    Forall2 (fun '(i, block) row =>
               FBNet.speed_row (nth i (FBNet._speed self) EmptyString)
                 (length block) = Ok row)
            (enumerate_from k groups) rows ->
    INR (length groups) * (INR N * lo)
    <= torch.sum1
         (map (fun '(i, row) =>
                 expected_latency (selection_weights g thetas N tau i) row)
              (enumerate_from k rows))
    <= INR (length groups) * (INR N * hi).
Proof.
  induction groups as [| block groups IH]; intros k rows Ff Fw F2;
    inversion F2 as [| ? row ? rows' Hrow F2']; subst.
  - simpl. lra.
  - inversion Ff as [| ? ? Hfit Ff']; subst.
    inversion Fw as [| ? ? Hwithin Fw']; subst.
    destruct Hfit as (Ht & Hs). destruct Hwithin as (Hb & Hw).
    specialize (IH _ _ Ff' Fw' F2').
    assert (Lr : length row = length block).
    { unfold FBNet.speed_row in Hrow. apply mapM_length in Hrow.
      rewrite Hrow, length_firstn. lia. }
    pose proof (expected_latency_bounds g thetas N tau k row lo hi) as B.
    destruct B as (B1 & B2).
    + congruence.
    + destruct row; [| discriminate]. destruct block; [congruence | discriminate].
    + apply Hw; exact Hrow.
    + change (length (block :: groups)) with (S (length groups)).
      rewrite S_INR. simpl. unfold torch.sum1 in *.
      set (x := INR N * lo) in *. set (y := INR N * hi) in *. lra.
Qed.

Lemma mean_bounds (L lo hi s N : R) :
  0 < N -> L * (N * lo) <= s <= L * (N * hi) -> L * lo <= s / N <= L * hi.
Proof.
  intros HN (B1 & B2).
  assert (E : s / N * N = s) by (field; lra).
  split; apply (Rmult_le_reg_r N); try exact HN; rewrite E;
    [rewrite Rmult_assoc, (Rmult_comm lo) | rewrite Rmult_assoc, (Rmult_comm hi)];
    assumption.
Qed.

End LatencyBounds.

(** X7.  For a temperature other than 0 (at 0 the weights of the code are
    not numbers): when every layer the loop handles has a candidate, a
    theta entry per candidate and a latency row of at least as many
    values, all between [lo] and [hi], the latency loss a forward pass
    returns lies between [lo] and [hi] times the number of layers; with
    non-negative latencies it is not negative. *)
Theorem forward_latency_loss_bounds :
  forall g self input target temperature theta_list out self' lo hi,
    FBNet.forward g self input target temperature theta_list = Ok (out, self') ->
    temperature_used temperature <> 0%R ->
    Forall (row_fits self (thetas_used self theta_list))
           (enumerate (processed_groups self)) ->
    Forall (row_within lo hi self) (enumerate (processed_groups self)) ->
    (INR (length (processed_groups self)) * lo
     <= torch.data (FBNet.ret_lat_loss out)
     <= INR (length (processed_groups self)) * hi)%R.
Proof.
  intros g self input target temperature theta_list out self' lo hi H _ Ff Fw.
  apply forward_Ok in H.
  destruct H as (logits & lat & c & pred & n & Hf & _ & _ & _ & _ & Hl & _).
  destruct (features_logits_length _ _ _ _ _ _ _ Hf) as (_ & Hn).
  apply features_layers in Hf. destruct Hf as (data0 & data1 & Hf).
  destruct (layers_latencies _ _ _ _ _ _ _ _ _ _ _ Hf Ff) as (rows & Hrows & Hlat).
  rewrite Hl. simpl. rewrite Hlat. simpl.
  pose proof (layers_sum_bounds g self (thetas_used self theta_list)
                (length (torch.data input))
                (match temperature with Some v => v | None => 5%R end)
                lo hi _ _ _ Ff Fw Hrows) as B.
  fold (processed_groups self) in B. unfold thetas_used in B.
  assert (HN : (0 < INR (length (torch.data input)))%R).
  { apply lt_0_INR. lia. }
  apply (mean_bounds _ _ _ _ _ HN). exact B.
Qed.

Lemma forward_latency_loss_bounds_witness :
  exists out self',
    (FBNet.forward Tiny.gumbels Tiny.net Tiny.input Tiny.target None None
     = Ok (out, self')
     /\ temperature_used None <> 0%R
     /\ Forall (row_fits Tiny.net (thetas_used Tiny.net None))
          (enumerate (processed_groups Tiny.net))
     /\ Forall (row_within 1 2 Tiny.net) (enumerate (processed_groups Tiny.net)))
    /\ (INR (length (processed_groups Tiny.net)) * 1
        <= torch.data (FBNet.ret_lat_loss out)
        <= INR (length (processed_groups Tiny.net)) * 2)%R.
Proof.
  destruct tiny_forward as (out & self' & H).
  assert (Ff : Forall (row_fits Tiny.net (thetas_used Tiny.net None))
                 (enumerate (processed_groups Tiny.net))).
  { simpl. repeat (constructor; [split; [reflexivity | apply le_n] |]).
    constructor. }
  assert (Fw : Forall (row_within 1 2 Tiny.net)
                 (enumerate (processed_groups Tiny.net))).
  { assert (R12 : forall row,
               FBNet.speed_row ("1.0 2.0" ++ Py.newline) 2 = Ok row ->
               Forall (between 1 2) row).
    { intros row Hr.
      lazy -[Rplus Rmult Rminus Ropp Rdiv Rinv IZR INR powerRZ] in Hr.
      inversion Hr; subst row; clear Hr.
      repeat constructor; simpl; lra. }
    simpl. repeat (constructor; [split; [discriminate | exact R12] |]).
    constructor. }
  assert (Ht : temperature_used None <> 0%R) by (simpl; lra).
  exists out, self'. split; [split; [| split; [| split]]; assumption |].
  exact (forward_latency_loss_bounds
           Tiny.gumbels Tiny.net Tiny.input Tiny.target None None out self' 1 2
           H Ht Ff Fw).
Defined.

(** ** Latency rows shorter than the candidate list *)

Lemma split_by_nonempty (sep : ascii -> bool) (s : string) :
  Py.split_by sep s <> [].
Proof.
  destruct s as [| c r]; simpl; [discriminate |].
  destruct (sep c); [discriminate |].
  destruct (Py.split_by sep r); discriminate.
Qed.

Lemma speed_row_length line k row :
  FBNet.speed_row line k = Ok row ->
  length row <= k /\ (k <> 0 -> length row <> 0).
Proof.
  unfold FBNet.speed_row. intros H. apply mapM_length in H.
  rewrite H, length_firstn. split; [lia |].
  intros Hk. unfold Py.split_space.
  pose proof (split_by_nonempty (Ascii.eqb " "%char) (Py.strip line)) as Hn.
  destruct (Py.split_by _ _); [congruence |]. simpl. lia.
Qed.

Section Broadcast.

Local Open Scope R_scope.

Lemma mul1_stretched (w row : torch.T1) (r : torch.T1) :
  (length row <= length w)%nat ->
  (length w <> 0%nat -> length row <> 0%nat) ->
  torch.broadcast (torch.pure2 Rmult) w row = Ok r ->
  (length row = length w \/ length row = 1%nat)
  /\ r = zip_with Rmult w (stretched (length w) row).
Proof.
  intros Hle Hz. unfold torch.broadcast.
  destruct (Nat.eqb_spec (length w) (length row)) as [E | N].
  - rewrite zipM_pure2. intros H. inversion H; subst. split; [auto |].
    unfold stretched. destruct row as [| v [| v' row]]; auto.
    destruct w as [| x [| x' w]]; simpl in E; try discriminate. reflexivity.
  - destruct w as [| x [| x' w]].
    + simpl in Hle. destruct row; simpl in *; [congruence | lia].
    + simpl in Hle. exfalso.
      destruct row as [| v [| v' row]]; simpl in *; lia.
    + destruct row as [| v [| v' row]]; try discriminate.
      unfold torch.pure2. rewrite mapM_pure. intros H. inversion H; subst.
      split; [auto |].
      unfold stretched, zip_with.
      cbn [length List.repeat combine map]. f_equal. f_equal.
      clear. generalize dependent w. induction w as [| y w IH]; simpl; auto.
      rewrite IH. reflexivity.
Qed.

Lemma mul2_stretched (W : torch.T2) (row : torch.T1) (k : nat) (r : torch.T2) :
  W <> [] ->
  Forall (fun w => length w = k) W ->
  (length row <= k)%nat ->
  (k <> 0%nat -> length row <> 0%nat) ->
  torch.mul2 W (torch.repeat_rows (length W) row) = Ok r ->
  (length row = k \/ length row = 1%nat)
  /\ r = map (fun w => zip_with Rmult w (stretched k row)) W.
Proof.
  intros Hn F Hle Hz. unfold torch.mul2, torch.repeat_rows, torch.broadcast at 1.
  rewrite repeat_length, Nat.eqb_refl.
  revert r Hn. induction F as [| w W Hw F IH]; intros r Hn H;
    [exfalso; apply Hn; reflexivity |].
  simpl in H.
  apply bind_Ok in H. destruct H as (z & Ez & H).
  apply bind_Ok in H. destruct H as (zs & Ezs & H).
  inversion H; subst r; clear H.
  apply mul1_stretched in Ez; [| lia | rewrite Hw; exact Hz]. rewrite Hw in Ez.
  destruct Ez as (Hl & Ez). split; [exact Hl |].
  simpl. f_equal; [exact Ez |].
  destruct W as [| w' W].
  - simpl in Ezs. inversion Ezs. reflexivity.
  - apply IH; [discriminate | exact Ezs].
Qed.

End Broadcast.

Lemma layers_latencies_stretched g self thetas batch_size temperature :
  batch_size <> 0 ->
  forall blocks theta_idx data lat data' lat',
    FBNet.layers g self thetas batch_size temperature blocks theta_idx data lat
    = Ok (data', lat') ->
    Forall (theta_fits thetas) (enumerate_from theta_idx (leading_lists blocks)) ->
    exists rows,
      Forall2 (row_read self)
              (enumerate_from theta_idx (leading_lists blocks)) rows
      /\ map (@torch.data R) lat'
         = map (@torch.data R) lat
           ++ map (fun '(i, row) =>
                     expected_latency
                       (selection_weights g thetas batch_size temperature i) row)
                  (enumerate_from theta_idx rows).
Proof.
  intros HN.
  induction blocks as [| [b | block |] rest IH];
    intros theta_idx data lat data' lat' H F; simpl in *;
    try (inversion H; subst; exists []; split;
         [constructor | rewrite app_nil_r; reflexivity]).
  inversion F as [| ? ? Ht F']; subst. unfold theta_fits in Ht.
  apply bind_Ok in H. destruct H as (theta & Etheta & H).
  apply bind_Ok in H. destruct H as (line & Eline & H).
  apply bind_Ok in H. destruct H as (speed & Espeed & H).
  apply bind_Ok in H. destruct H as (lat_ & Elat & H).
  apply bind_Ok in H. destruct H as (op & Eop & H).
  apply bind_Ok in H. destruct H as (data1 & Edata & H).
  apply (index_Ok _ _ _ no_theta) in Etheta.
  apply (index_Ok _ _ _ EmptyString) in Eline.
  rewrite Etheta in Ht.
  destruct (speed_row_length _ _ _ Espeed) as (Hle & Hz).
  destruct (IH _ _ _ _ _ H F') as (rows & Hrows & Hlat).
  unfold torch.op2M in Elat. simpl in Elat.
  set (W := torch.gumbel_softmax (g theta_idx)
              (torch.repeat_rows batch_size (torch.data theta)) temperature) in *.
  assert (SW : map (@length R) W
               = List.repeat (length (torch.data theta)) batch_size).
  { unfold W. rewrite gumbel_softmax_rows. unfold torch.repeat_rows.
    apply map_repeat. }
  assert (LW : length W = batch_size).
  { pose proof (f_equal (@length nat) SW) as E.
    rewrite length_map, repeat_length in E. exact E. }
  apply bind_Ok in Elat. destruct Elat as (prod & Eprod & Elat).
  rewrite <- LW in Eprod at 1.
  apply (mul2_stretched W speed (length block)) in Eprod.
  - destruct Eprod as (Hl & Eprod).
    exists (stretched (length block) speed :: rows). split.
    + constructor; [| exact Hrows].
      exists speed. rewrite Eline. auto.
    + rewrite Hlat, map_app, <- app_assoc. f_equal. simpl. f_equal.
      inversion Elat; subst lat_ prod; clear Elat. simpl.
      unfold torch.sum2, expected_latency, selection_weights.
      rewrite map_map, Etheta. reflexivity.
  - intros E. rewrite E in LW. simpl in LW. congruence.
  - rewrite Forall_forall. intros wrow Hin.
    apply (in_map (@length R)) in Hin. rewrite SW in Hin.
    apply repeat_spec in Hin. lia.
  - exact Hle.
  - exact Hz.
Qed.

(** X8.  A latency row may hold fewer values than its layer has
    candidates only if it holds exactly one: the product of line 100 then
    uses the single value for every candidate.  In a successful forward
    pass over layers with a theta entry per candidate, every row read has
    as many values as candidates or one, and the latency loss is the sum
    over the layers of the expected latencies of the rows so used, divided
    by the batch size.  For a temperature other than 0 (at 0 the weights
    of the code are not numbers) a layer with a single value counts the
    batch size times that value. *)
Theorem forward_stretches_single_latencies :
  forall g self input target temperature theta_list out self',
    FBNet.forward g self input target temperature theta_list = Ok (out, self') ->
    Forall (theta_fits (thetas_used self theta_list))
           (enumerate (processed_groups self)) ->
    (exists rows,
        Forall2 (row_read self) (enumerate (processed_groups self)) rows
        /\ torch.data (FBNet.ret_lat_loss out)
           = (torch.sum1
                (map (fun '(i, row) =>
                        expected_latency
                          (selection_weights g (thetas_used self theta_list)
                             (length (torch.data input))
                             (match temperature with Some v => v | None => 5%R end)
                             i)
                          row)
                     (enumerate rows))
              / INR (length (torch.data input)))%R)
    /\ (forall i block v,
          temperature_used temperature <> 0%R ->
          In (i, block) (enumerate (processed_groups self)) -> block <> [] ->
          expected_latency
            (selection_weights g (thetas_used self theta_list)
               (length (torch.data input))
               (match temperature with Some v => v | None => 5%R end) i)
            (stretched (length block) [v])
          = (INR (length (torch.data input)) * v)%R).
Proof.
  intros g self input target temperature theta_list out self' H F.
  split.
  - apply forward_Ok in H.
    destruct H as (logits & lat & c & pred & n & Hf & _ & _ & _ & _ & Hl & _).
    destruct (features_logits_length _ _ _ _ _ _ _ Hf) as (_ & Hn).
    apply features_layers in Hf. destruct Hf as (data0 & data1 & Hf).
    destruct (layers_latencies_stretched _ _ _ _ _ Hn _ _ _ _ _ _ Hf F)
      as (rows & Hrows & Hlat).
    exists rows. split; [exact Hrows |].
    rewrite Hl. simpl. rewrite Hlat. reflexivity.
  - intros i block v _ Hin Hb.
    rewrite Forall_forall in F. specialize (F _ Hin). unfold theta_fits in F.
    simpl stretched.
    pose proof (expected_latency_bounds g (thetas_used self theta_list)
                  (length (torch.data input))
                  (match temperature with Some v => v | None => 5%R end)
                  i (List.repeat v (length block)) v v) as B.
    destruct B as (B1 & B2).
    + rewrite repeat_length. exact F.
    + destruct block; [congruence | discriminate].
    + rewrite Forall_forall. intros x Hx. apply repeat_spec in Hx. subst x.
      unfold between. lra.
    + apply Rle_antisym; assumption.
Qed.

(** The small supernet with one latency value per line, for layers of two
    candidates, on its batch of two. *)
Lemma single_value_forward :
  exists out self',
    FBNet.forward Tiny.gumbels single_value_net Tiny.input Tiny.target None None
    = Ok (out, self').
Proof.
  assert (Z : forall x n, FBNet.dot x (Tiny.zeros n) = 0%R).
  { unfold FBNet.dot, Tiny.zeros.
    induction x as [| a x IH]; intros [| n]; simpl; auto.
    rewrite IH. lra. }
  assert (Hf : exists logits lat,
             FBNet.features Tiny.gumbels single_value_net Tiny.input None None
             = Ok (logits, lat)
             /\ torch.data logits = [[0; 0]; [0; 0]]%R).
  { eexists. eexists. split; [evaluate; reflexivity |].
    simpl. rewrite !Z. repeat f_equal; lra. }
  destruct Hf as ([d l] & lat & Hf & Hd).
  simpl in Hd. subst d.
  unfold FBNet.forward. rewrite Hf.
  eexists. eexists. evaluate. reflexivity.
Qed.

Lemma forward_stretches_single_latencies_witness :
  exists out self',
    (FBNet.forward Tiny.gumbels single_value_net Tiny.input Tiny.target None None
     = Ok (out, self')
     /\ Forall (theta_fits (thetas_used single_value_net None))
          (enumerate (processed_groups single_value_net)))
    /\ ((exists rows,
            Forall2 (row_read single_value_net)
                    (enumerate (processed_groups single_value_net)) rows
            /\ torch.data (FBNet.ret_lat_loss out)
               = (torch.sum1
                    (map (fun '(i, row) =>
                            expected_latency
                              (selection_weights Tiny.gumbels
                                 (thetas_used single_value_net None)
                                 (length (torch.data Tiny.input)) 5%R i)
                              row)
                         (enumerate rows))
                  / INR (length (torch.data Tiny.input)))%R)
        /\ (forall i block v,
              temperature_used None <> 0%R ->
              In (i, block) (enumerate (processed_groups single_value_net)) ->
              block <> [] ->
              expected_latency
                (selection_weights Tiny.gumbels (thetas_used single_value_net None)
                   (length (torch.data Tiny.input)) 5%R i)
                (stretched (length block) [v])
              = (INR (length (torch.data Tiny.input)) * v)%R)).
Proof.
  destruct single_value_forward as (out & self' & H).
  assert (F : Forall (theta_fits (thetas_used single_value_net None))
                (enumerate (processed_groups single_value_net))).
  { simpl. repeat (constructor; [reflexivity |]). constructor. }
  exists out, self'. split; [split; assumption |].
  exact (forward_stretches_single_latencies
           Tiny.gumbels single_value_net Tiny.input Tiny.target None None
           out self' H F).
Defined.

(** ** Temperature decay *)

(** X9.  [k] calls of [decay_temperature] multiply the temperature, in
    exact arithmetic, by the [k]-th power of the ratio (the given one, or
    the trainer's own decay when none is given), and leave the network and
    the decay ratio as they were; each call appends one record to the log,
    holding the temperature before and after it. *)
Theorem decay_temperature_iterated :
  forall (Net : Type) (self : Trainer.t Net) (decay_ratio : option R) (k : nat),
    Trainer.temp (decays k decay_ratio self)
    = (Trainer.temp self * ratio_used decay_ratio self ^ k)%R
    /\ Trainer._tem_decay (decays k decay_ratio self) = Trainer._tem_decay self
    /\ Trainer._mod (decays k decay_ratio self) = Trainer._mod self
    /\ Trainer.log (decays k decay_ratio self)
       = Trainer.log self
         ++ map (fun i =>
                   Trainer.ChangeTemperature
                     (Trainer.temp self * ratio_used decay_ratio self ^ i)%R
                     (Trainer.temp self * ratio_used decay_ratio self ^ S i)%R)
                (seq 0 k).
Proof.
  intros Net self decay_ratio k.
  induction k as [| k (Ht & Hd & Hm & Hl)].
  - simpl. repeat split; auto; [lra | rewrite app_nil_r; reflexivity].
  - cbn [decays]. set (s := decays k decay_ratio self) in *.
    assert (E : Trainer.temp (Trainer.decay_temperature s decay_ratio)
                = (Trainer.temp s * ratio_used decay_ratio self)%R).
    { unfold ratio_used. destruct decay_ratio as [r |]; simpl; congruence. }
    split; [| split; [| split]].
    + rewrite E, Ht. simpl. ring.
    + destruct decay_ratio; simpl; exact Hd.
    + destruct decay_ratio; simpl; exact Hm.
    + rewrite seq_S, map_app, app_assoc, <- Hl. simpl.
      assert (L : Trainer.log (Trainer.decay_temperature s decay_ratio)
                  = Trainer.log s
                    ++ [Trainer.ChangeTemperature (Trainer.temp s)
                          (Trainer.temp s * ratio_used decay_ratio self)%R]).
      { unfold ratio_used. destruct decay_ratio as [r |]; simpl;
          [reflexivity | rewrite Hd; reflexivity]. }
      rewrite L, Ht. do 2 f_equal. f_equal. ring.
Qed.

(** ** What [search] does to the temperature and to the files *)

Lemma foldM_related {A B : Type} (f : B -> A -> result B) (Rel : B -> B -> Prop) :
  (forall s, Rel s s) ->
  (forall s1 s2 s3, Rel s1 s2 -> Rel s2 s3 -> Rel s1 s3) ->
  forall l,
    (forall acc x acc', In x l -> f acc x = Ok acc' -> Rel acc acc') ->
    forall acc acc', foldM f l acc = Ok acc' -> Rel acc acc'.
Proof.
  intros Hrefl Htrans. induction l as [| x l IH]; intros Hf acc acc' H; simpl in H.
  - inversion H; subst. apply Hrefl.
  - apply bind_Ok in H. destruct H as (s1 & E1 & H).
    apply (Htrans _ s1).
    + apply (Hf _ x); [left; reflexivity | exact E1].
    + apply IH; [| exact H]. intros a y a' Hy. apply Hf. right; exact Hy.
Qed.

Lemma foldM_fails {A B : Type} (f : B -> A -> result B) (l : list A) (x : A) :
  In x l -> (forall acc acc', f acc x <> Ok acc') ->
  forall acc acc', foldM f l acc <> Ok acc'.
Proof.
  intros Hin Hx. induction l as [| y l IH]; intros acc acc' H; [contradiction |].
  simpl in H. apply bind_Ok in H. destruct H as (s1 & E1 & H).
  destruct Hin as [E | Hin].
  - subst y. exact (Hx _ _ E1).
  - exact (IH Hin _ _ H).
Qed.

Lemma range_length (n : Z) : length (Trainer.range n) = Z.to_nat n.
Proof. unfold Trainer.range. rewrite length_map, length_seq. reflexivity. Qed.

Lemma in_range (n e : Z) : In e (Trainer.range n) <-> (0 <= e < n)%Z.
Proof.
  unfold Trainer.range. rewrite in_map_iff. split.
  - intros (k & E & Hk). apply in_seq in Hk. lia.
  - intros H. exists (Z.to_nat e). split; [lia |]. apply in_seq. lia.
Qed.

Section SearchEffects.

Variable Net : Type.
Variable Input Target : Type.
Variable mod_call :
  Net -> Input -> Target -> R -> result (FBNet.ret * Net).
Variable mod_batch_size : Net -> Z.
Variable mod_theta : Net -> list torch.T1.
Variable backward : torch.Tensor R -> Net -> result Net.
Variable w_opt_zero_grad w_opt_step : Net -> Net.
Variable t_opt_zero_grad t_opt_step : Net -> Net.
Variable w_sche_step : Net -> Net.
Variable str : R -> string.

(** The temperature is the same and the rest is carried over. *)
Local Abbreviation steady :=
  (fun s s' : Trainer.t Net =>
     Trainer.temp s' = Trainer.temp s /\ carried_over s s').

Lemma steady_refl (s : Trainer.t Net) : steady s s.
Proof. unfold carried_over. auto 6. Qed.

Lemma steady_trans (s1 s2 s3 : Trainer.t Net) :
  steady s1 s2 -> steady s2 s3 -> steady s1 s3.
Proof.
  unfold carried_over.
  intros (T1 & D1 & P1 & W1 & F1) (T2 & D2 & P2 & W2 & F2).
  repeat split; try congruence. auto.
Qed.

Lemma train_w_steady s x y out s' :
  Trainer.train_w mod_call backward w_opt_zero_grad w_opt_step s x y false
  = Ok (out, s') ->
  steady s s'.
Proof.
  unfold Trainer.train_w. intros H.
  apply bind_Ok in H. destruct H as ([o n] & _ & H).
  apply bind_Ok in H. destruct H as (n' & _ & H).
  inversion H; subst. unfold carried_over. simpl. auto 6.
Qed.

Lemma train_t_steady s x y out s' :
  Trainer.train_t mod_call backward t_opt_zero_grad t_opt_step s x y false
  = Ok (out, s') ->
  steady s s'.
Proof.
  unfold Trainer.train_t. intros H.
  apply bind_Ok in H. destruct H as ([o n] & _ & H).
  apply bind_Ok in H. destruct H as (n' & _ & H).
  inversion H; subst. unfold carried_over. simpl. auto 6.
Qed.

Lemma step_steady
  (func : Trainer.t Net -> Input -> Target -> result (FBNet.ret * Trainer.t Net)) :
  (forall s x y out s', func s x y = Ok (out, s') -> steady s s') ->
  forall s x y epoch step log_frequence s',
    Trainer._step mod_batch_size s x y epoch step log_frequence func = Ok s' ->
    steady s s'.
Proof.
  intros Hf s x y epoch step log_frequence s' H.
  unfold Trainer._step in H.
  apply bind_Ok in H. destruct H as ([out s1] & E & H).
  apply Hf in E. apply (steady_trans _ s1); [exact E |]. clear E.
  destruct (1 <? step).
  - destruct (log_frequence =? 0)%Z; [discriminate |].
    destruct (Z.of_nat step mod log_frequence =? 0)%Z.
    + simpl in H. destruct (Trainer.tic s1) as [tic0 |]; [| discriminate].
      destruct (Req_dec_T _ _); [discriminate |].
      inversion H; subst. unfold carried_over. simpl. auto 6.
    + inversion H; subst. unfold carried_over. simpl. auto 6.
  - inversion H; subst. unfold carried_over. simpl. auto 6.
Qed.

Lemma save_theta_steady s path res s' :
  Trainer.save_theta mod_theta str s path = Ok (res, s') ->
  steady s s' /\ Trainer.files s' path <> None.
Proof.
  unfold Trainer.save_theta. intros H.
  destruct (negb _); [discriminate |].
  destruct (fold_left _ _ _) as [r text].
  apply bind_Ok in H. destruct H as (s1 & E & H).
  inversion H; subst; clear H.
  unfold Trainer.write_file in E.
  destruct (Trainer.writable s path); [| discriminate].
  inversion E; subst; clear E. unfold carried_over. simpl.
  rewrite String.eqb_refl.
  repeat split; try discriminate.
  intros p Hp. destruct (String.eqb p path); [discriminate | exact Hp].
Qed.

Local Abbreviation weight_loop log_frequence epoch ds :=
  (foldM (fun self '(step, (input, target)) =>
            self <- Trainer._step mod_batch_size self input target epoch step
                      log_frequence
                      (fun s x y =>
                         Trainer.train_w mod_call backward w_opt_zero_grad
                           w_opt_step s x y false) ;;
            Ok (Trainer.set_mod self (w_sche_step (Trainer._mod self))))
         (enumerate ds)).

Local Abbreviation theta_loop log_frequence epoch ds :=
  (foldM (fun self '(step, (input, target)) =>
            self <- Trainer._step mod_batch_size self input target epoch step
                      log_frequence
                      (fun s x y =>
                         Trainer.train_t mod_call backward t_opt_zero_grad
                           t_opt_step s x y false) ;;
            '(_, self) <- Trainer.save_theta mod_theta str self
                            (Trainer.theta_path (Trainer.save_theta_prefix self)
                                                epoch) ;;
            Ok self)
         (enumerate ds)).

Lemma weight_loop_steady log_frequence epoch (ds : list (Input * Target)) s s' :
  weight_loop log_frequence epoch ds s = Ok s' -> steady s s'.
Proof.
  apply (foldM_related _ steady steady_refl steady_trans).
  intros acc [step [x y]] acc' _ H.
  apply bind_Ok in H. destruct H as (s1 & E & H).
  apply (step_steady _ train_w_steady) in E.
  inversion H; subst. apply (steady_trans _ s1); [exact E |].
  unfold carried_over. simpl. auto 6.
Qed.

Lemma theta_step_steady log_frequence epoch step x y s s' :
  (self <- Trainer._step mod_batch_size s x y epoch step log_frequence
             (fun s x y =>
                Trainer.train_t mod_call backward t_opt_zero_grad t_opt_step
                  s x y false) ;;
   '(_, self) <- Trainer.save_theta mod_theta str self
                   (Trainer.theta_path (Trainer.save_theta_prefix self) epoch) ;;
   Ok self) = Ok s' ->
  steady s s'
  /\ Trainer.files s' (Trainer.theta_path (Trainer.save_theta_prefix s) epoch)
     <> None.
Proof.
  intros H.
  apply bind_Ok in H. destruct H as (s1 & E & H).
  apply (step_steady _ train_t_steady) in E.
  apply bind_Ok in H. destruct H as ([res s2] & E2 & H).
  inversion H; subst; clear H.
  apply save_theta_steady in E2. destruct E2 as (E2 & Hfile).
  split; [apply (steady_trans _ s1); assumption |].
  destruct E as (_ & _ & Hp & _). rewrite <- Hp. exact Hfile.
Qed.

Lemma theta_loop_steady log_frequence epoch (ds : list (Input * Target)) s s' :
  theta_loop log_frequence epoch ds s = Ok s' ->
  steady s s'
  /\ (ds <> [] ->
      Trainer.files s' (Trainer.theta_path (Trainer.save_theta_prefix s) epoch)
      <> None).
Proof.
  intros H. split.
  - revert H. apply (foldM_related _ steady steady_refl steady_trans).
    intros acc [step [x y]] acc' _ H.
    apply theta_step_steady in H. tauto.
  - intros Hn. unfold enumerate in H.
    destruct ds as [| [x y] ds]; [congruence |].
    cbn [enumerate_from foldM] in H.
    apply bind_Ok in H. destruct H as (s1 & E & H).
    apply theta_step_steady in E. destruct E as (E & Hfile).
    assert (S1 : steady s1 s').
    { revert H. apply (foldM_related _ steady steady_refl steady_trans).
      intros acc [step [x' y']] acc' _ H.
      apply theta_step_steady in H. tauto. }
    destruct S1 as (_ & _ & _ & _ & Hk). apply Hk. exact Hfile.
Qed.

(** One epoch of the second loop of [search]. *)
Local Abbreviation search_epoch train_w_ds train_t_ds start_w_epoch log_frequence :=
  (fun (self : Trainer.t Net) (epoch : Z) =>
     let self := Trainer.info self (Trainer.StartTrainTheta (epoch + start_w_epoch)) in
     self <- theta_loop log_frequence (epoch + start_w_epoch)%Z train_t_ds self ;;
     let self := Trainer.decay_temperature self None in
     let self := Trainer.info self (Trainer.StartTrainW (epoch + start_w_epoch)) in
     weight_loop log_frequence (epoch + start_w_epoch)%Z train_w_ds self).

Lemma search_epoch_effects train_w_ds train_t_ds start_w_epoch log_frequence
  s epoch s' :
  search_epoch train_w_ds train_t_ds start_w_epoch log_frequence s epoch = Ok s' ->
  Trainer.temp s' = (Trainer.temp s * Trainer._tem_decay s)%R
  /\ carried_over s s'
  /\ (train_t_ds <> [] ->
      Trainer.files s'
        (Trainer.theta_path (Trainer.save_theta_prefix s) (epoch + start_w_epoch))
      <> None).
Proof.
  intros H.
  apply bind_Ok in H. destruct H as (s1 & E1 & H).
  apply theta_loop_steady in E1. destruct E1 as (E1 & Hfile).
  apply weight_loop_steady in H.
  simpl in E1, Hfile.
  destruct E1 as (T1 & D1 & P1 & W1 & F1).
  destruct H as (T2 & D2 & P2 & W2 & F2). simpl in *.
  split; [| split].
  - rewrite T2, T1, D1. reflexivity.
  - unfold carried_over. repeat split; try congruence. auto.
  - intros Hn. apply F2. apply Hfile. exact Hn.
Qed.

Lemma search_epochs_effects train_w_ds train_t_ds start_w_epoch log_frequence :
  forall epochs s s',
    foldM (search_epoch train_w_ds train_t_ds start_w_epoch log_frequence)
      epochs s = Ok s' ->
    Trainer.temp s' = (Trainer.temp s * Trainer._tem_decay s ^ length epochs)%R
    /\ carried_over s s'
    /\ (train_t_ds <> [] ->
        forall epoch, In epoch epochs ->
          Trainer.files s'
            (Trainer.theta_path (Trainer.save_theta_prefix s)
                                (epoch + start_w_epoch))
          <> None).
Proof.
  induction epochs as [| e epochs IH]; intros s s' H.
  - inversion H; subst. unfold carried_over. simpl.
    split; [lra |]. split; [auto |]. intros _ epoch [].
  - cbn [foldM] in H. apply bind_Ok in H. destruct H as (s1 & E1 & H).
    apply search_epoch_effects in E1. destruct E1 as (T1 & C1 & Hf1).
    apply IH in H. destruct H as (T2 & C2 & Hf2).
    destruct C1 as (D1 & P1 & W1 & F1). destruct C2 as (D2 & P2 & W2 & F2).
    split; [| split].
    + rewrite T2, T1, D1. simpl. ring.
    + unfold carried_over. repeat split; try congruence. auto.
    + intros Hn epoch [E | Hin].
      * subst e. apply F2. auto.
      * rewrite <- P1. auto.
Qed.

Lemma search_effects self train_w_ds train_t_ds total_epoch start_w_epoch
  log_frequence self' :
  Trainer.search mod_call mod_batch_size mod_theta backward
    w_opt_zero_grad w_opt_step t_opt_zero_grad t_opt_step w_sche_step str
    self train_w_ds train_t_ds total_epoch start_w_epoch log_frequence
  = Ok self' ->
  Trainer.temp self'
  = (Trainer.temp self * Trainer._tem_decay self ^ Z.to_nat total_epoch)%R
  /\ carried_over self self'
  /\ (train_t_ds <> [] ->
      forall epoch, (0 <= epoch < total_epoch)%Z ->
        Trainer.files self'
          (Trainer.theta_path (Trainer.save_theta_prefix self)
                              (epoch + start_w_epoch))
        <> None).
Proof.
  unfold Trainer.search. intros H.
  destruct (negb _); [discriminate |].
  cbn [Trainer.time] in H.
  apply bind_Ok in H. destruct H as (s1 & E1 & H).
  apply (foldM_related _ steady steady_refl steady_trans) in E1;
    [| intros acc epoch acc' _ E; apply weight_loop_steady in E; exact E].
  rename E1 into S1.
  cbn [Trainer.time] in H.
  apply search_epochs_effects in H. simpl in H.
  destruct H as (T2 & C2 & Hf2).
  destruct S1 as (T1 & D1 & P1 & W1 & F1).
  destruct C2 as (D2 & P2 & W2 & F2).
  simpl in *. split; [| split].
  - rewrite T2, T1, D1, range_length. reflexivity.
  - unfold carried_over. repeat split; try congruence. auto.
  - intros Hn epoch He. rewrite <- P1. apply Hf2; auto. apply in_range. exact He.
Qed.

(** X10.  A search that returns has multiplied the temperature by the decay
    ratio once per epoch of its second loop, whatever the sizes of the
    data sets: the final temperature is the initial one times the
    [total_epoch]-th power of the ratio, and the ratio itself is
    unchanged. *)
Theorem search_decays_once_per_epoch :
  forall self train_w_ds train_t_ds total_epoch start_w_epoch log_frequence self',
    Trainer.search mod_call mod_batch_size mod_theta backward
      w_opt_zero_grad w_opt_step t_opt_zero_grad t_opt_step w_sche_step str
      self train_w_ds train_t_ds total_epoch start_w_epoch log_frequence
    = Ok self' ->
    Trainer.temp self'
    = (Trainer.temp self * Trainer._tem_decay self ^ Z.to_nat total_epoch)%R
    /\ Trainer._tem_decay self' = Trainer._tem_decay self.
Proof.
  intros self train_w_ds train_t_ds total_epoch start_w_epoch log_frequence
    self' H.
  apply search_effects in H. destruct H as (T & (D & _) & _). auto.
Qed.

(** X11.  A search that returns on a non-empty architecture data set has
    left a theta file for every epoch of its second loop, named after the
    prefix and the epoch number counted from [start_w_epoch]; no file that
    existed before is removed. *)
Theorem search_leaves_theta_file_per_epoch :
  forall self train_w_ds train_t_ds total_epoch start_w_epoch log_frequence self',
    Trainer.search mod_call mod_batch_size mod_theta backward
      w_opt_zero_grad w_opt_step t_opt_zero_grad t_opt_step w_sche_step str
      self train_w_ds train_t_ds total_epoch start_w_epoch log_frequence
    = Ok self' ->
    train_t_ds <> [] ->
    (forall epoch, (0 <= epoch < total_epoch)%Z ->
       Trainer.files self'
         (Trainer.theta_path (Trainer.save_theta_prefix self)
                             (epoch + start_w_epoch))
       <> None)
    /\ (forall p, Trainer.files self p <> None -> Trainer.files self' p <> None).
Proof.
  intros self train_w_ds train_t_ds total_epoch start_w_epoch log_frequence
    self' H Hn.
  apply search_effects in H. destruct H as (_ & (_ & _ & _ & F) & Hf).
  split; auto.
Qed.

(** X12.  With [log_frequence] 0 a search over a weight data set of three
    or more batches never returns: the step numbered 2 of the first pass
    divides by zero, unless an earlier operation has failed. *)
Theorem search_fails_without_log_frequence :
  forall self train_w_ds train_t_ds total_epoch start_w_epoch self',
    3 <= length train_w_ds ->
    Trainer.search mod_call mod_batch_size mod_theta backward
      w_opt_zero_grad w_opt_step t_opt_zero_grad t_opt_step w_sche_step str
      self train_w_ds train_t_ds total_epoch start_w_epoch 0
    <> Ok self'.
Proof.
  intros self train_w_ds train_t_ds total_epoch start_w_epoch self' Hlen H.
  unfold Trainer.search in H.
  destruct (Z.leb_spec 1 start_w_epoch) as [Hs |]; [| discriminate].
  cbn [negb Trainer.time] in H.
  apply bind_Ok in H. destruct H as (s1 & E1 & _).
  revert E1. apply (foldM_fails _ _ 0%Z).
  - apply in_range. lia.
  - intros acc acc'.
    destruct train_w_ds as [| b0 [| b1 [| [x y] ds]]]; simpl in Hlen; try lia.
    apply (foldM_fails _ _ (2, (x, y))).
    + unfold enumerate. simpl. auto.
    + intros a a' E.
      apply bind_Ok in E. destruct E as (s2 & E & _).
      unfold Trainer._step in E.
      apply bind_Ok in E. destruct E as ([out s3] & _ & E).
      discriminate.
Qed.

End SearchEffects.

Lemma search_decays_once_per_epoch_witness :
  exists self',
    Trainer.search Recorded.mod_call Recorded.mod_batch_size Recorded.mod_theta
      Recorded.backward Recorded.w_opt_zero_grad Recorded.w_opt_step
      Recorded.t_opt_zero_grad Recorded.t_opt_step Recorded.w_sche_step str_one
      Recorded.trainer [(0, 0)] [(1, 1)] 1 1 100
    = Ok self'
    /\ (Trainer.temp self'
        = (Trainer.temp Recorded.trainer
           * Trainer._tem_decay Recorded.trainer ^ Z.to_nat 1)%R
        /\ Trainer._tem_decay self' = Trainer._tem_decay Recorded.trainer).
Proof.
  destruct search_one_epoch as (self' & H & _).
  exists self'. split; [exact H |].
  exact (search_decays_once_per_epoch _ _ _ _ _ _ _ _ _ _ _ _ _
           _ _ _ _ _ _ _ H).
Defined.

Lemma search_leaves_theta_file_per_epoch_witness :
  exists self',
    (Trainer.search Recorded.mod_call Recorded.mod_batch_size Recorded.mod_theta
       Recorded.backward Recorded.w_opt_zero_grad Recorded.w_opt_step
       Recorded.t_opt_zero_grad Recorded.t_opt_step Recorded.w_sche_step str_one
       Recorded.trainer [(0, 0)] [(1, 1)] 1 1 100
     = Ok self'
     /\ [(1, 1)] <> [])
    /\ ((forall epoch, (0 <= epoch < 1)%Z ->
           Trainer.files self'
             (Trainer.theta_path (Trainer.save_theta_prefix Recorded.trainer)
                                 (epoch + 1))
           <> None)
        /\ (forall p, Trainer.files Recorded.trainer p <> None ->
                      Trainer.files self' p <> None)).
Proof.
  destruct search_one_epoch as (self' & H & _).
  assert (Hn : [(1, 1)] <> @nil (nat * nat)) by discriminate.
  exists self'. split; [split; assumption |].
  exact (search_leaves_theta_file_per_epoch _ _ _ _ _ _ _ _ _ _ _ _ _
           _ _ _ _ _ _ _ H Hn).
Defined.

Lemma search_fails_without_log_frequence_witness :
  3 <= length [(0, 0); (0, 0); (0, 0)]
  /\ Trainer.search Recorded.mod_call Recorded.mod_batch_size Recorded.mod_theta
       Recorded.backward Recorded.w_opt_zero_grad Recorded.w_opt_step
       Recorded.t_opt_zero_grad Recorded.t_opt_step Recorded.w_sche_step str_one
       Recorded.trainer [(0, 0); (0, 0); (0, 0)] [(1, 1)] 1 1 0
     <> Ok Recorded.trainer.
Proof.
  assert (Hl : 3 <= length [(0, 0); (0, 0); (0, 0)]) by (simpl; lia).
  split; [exact Hl |].
  exact (search_fails_without_log_frequence _ _ _ _ _ _ _ _ _ _ _ _ _
           _ _ _ _ _ _ Hl).
Defined.

(** ** The meters over a whole search *)

Lemma foldM_counted {A B : Type} (f : B -> A -> result B)
  (Rel : nat -> B -> B -> Prop) (c : nat) :
  (forall s, Rel 0 s s) ->
  (forall a b s1 s2 s3, Rel a s1 s2 -> Rel b s2 s3 -> Rel (a + b) s1 s3) ->
  (forall acc x acc', f acc x = Ok acc' -> Rel c acc acc') ->
  forall l acc acc', foldM f l acc = Ok acc' -> Rel (length l * c) acc acc'.
Proof.
  intros Hzero Hadd Hf. induction l as [| x l IH]; intros acc acc' H; simpl in H.
  - inversion H; subst. apply Hzero.
  - apply bind_Ok in H. destruct H as (s1 & E1 & H).
    simpl. apply (Hadd _ _ _ s1); [apply (Hf _ x); exact E1 | apply IH; exact H].
Qed.

Section Meters.

Variable Net : Type.
Variable Input Target : Type.
Variable mod_call :
  Net -> Input -> Target -> R -> result (FBNet.ret * Net).
Variable mod_batch_size : Net -> Z.
Variable mod_theta : Net -> list torch.T1.
Variable backward : torch.Tensor R -> Net -> result Net.
Variable w_opt_zero_grad w_opt_step : Net -> Net.
Variable t_opt_zero_grad t_opt_step : Net -> Net.
Variable w_sche_step : Net -> Net.
Variable str : R -> string.

Lemma received_zero (s : Trainer.t Net) : received 0 s s.
Proof. unfold received. rewrite !Nat.add_0_r. auto. Qed.

Lemma received_add a b (s1 s2 s3 : Trainer.t Net) :
  received a s1 s2 -> received b s2 s3 -> received (a + b) s1 s3.
Proof. unfold received. intros (A1 & A2 & A3 & A4) (B1 & B2 & B3 & B4). lia. Qed.

Lemma received_same k (s s1 s' : Trainer.t Net) :
  received 0 s s1 -> received k s1 s' -> received k s s'.
Proof. intros H0 H. exact (received_add 0 k _ _ _ H0 H). Qed.

Lemma train_w_meters s x y out s' :
  Trainer.train_w mod_call backward w_opt_zero_grad w_opt_step s x y false
  = Ok (out, s') ->
  received 0 s s'.
Proof.
  unfold Trainer.train_w. intros H.
  apply bind_Ok in H. destruct H as ([o n] & _ & H).
  apply bind_Ok in H. destruct H as (n' & _ & H).
  inversion H; subst. unfold received. simpl. lia.
Qed.

Lemma train_t_meters s x y out s' :
  Trainer.train_t mod_call backward t_opt_zero_grad t_opt_step s x y false
  = Ok (out, s') ->
  received 0 s s'.
Proof.
  unfold Trainer.train_t. intros H.
  apply bind_Ok in H. destruct H as ([o n] & _ & H).
  apply bind_Ok in H. destruct H as (n' & _ & H).
  inversion H; subst. unfold received. simpl. lia.
Qed.

Lemma step_meters
  (func : Trainer.t Net -> Input -> Target -> result (FBNet.ret * Trainer.t Net)) :
  (forall s x y out s', func s x y = Ok (out, s') -> received 0 s s') ->
  forall s x y epoch step log_frequence s',
    Trainer._step mod_batch_size s x y epoch step log_frequence func = Ok s' ->
    received 1 s s'.
Proof.
  intros Hf s x y epoch step log_frequence s' H.
  pose proof H as H0. unfold Trainer._step in H0.
  apply bind_Ok in H0. destruct H0 as ([out s1] & E & _).
  destruct (step_updates_meters _ _ _ _ _ _ _ _ _ _ _ _ _ _ E H)
    as (A1 & A2 & A3 & A4).
  apply Hf in E. apply (received_same _ _ s1); [exact E |].
  unfold received. rewrite A1, A2, A3, A4. simpl. lia.
Qed.

Lemma save_theta_meters s path res s' :
  Trainer.save_theta mod_theta str s path = Ok (res, s') -> received 0 s s'.
Proof.
  unfold Trainer.save_theta. intros H.
  destruct (negb _); [discriminate |].
  destruct (fold_left _ _ _) as [r text].
  apply bind_Ok in H. destruct H as (s1 & E & H).
  inversion H; subst; clear H.
  unfold Trainer.write_file in E.
  destruct (Trainer.writable s path); [| discriminate].
  inversion E; subst. unfold received. simpl. lia.
Qed.

Lemma weight_loop_meters log_frequence epoch (ds : list (Input * Target)) s s' :
  foldM (fun self '(step, (input, target)) =>
           self <- Trainer._step mod_batch_size self input target epoch step
                     log_frequence
                     (fun s x y =>
                        Trainer.train_w mod_call backward w_opt_zero_grad
                          w_opt_step s x y false) ;;
           Ok (Trainer.set_mod self (w_sche_step (Trainer._mod self))))
        (enumerate ds) s = Ok s' ->
  received (length ds) s s'.
Proof.
  intros H.
  apply (foldM_counted _ received 1 received_zero received_add) in H.
  - unfold enumerate in H. rewrite enumerate_from_length, Nat.mul_1_r in H.
    exact H.
  - clear. intros acc [step [x y]] acc' H.
    apply bind_Ok in H. destruct H as (s1 & E & H).
    apply (step_meters _ train_w_meters) in E.
    inversion H; subst. unfold received in *. simpl. exact E.
Qed.

Lemma theta_loop_meters log_frequence epoch (ds : list (Input * Target)) s s' :
  foldM (fun self '(step, (input, target)) =>
           self <- Trainer._step mod_batch_size self input target epoch step
                     log_frequence
                     (fun s x y =>
                        Trainer.train_t mod_call backward t_opt_zero_grad
                          t_opt_step s x y false) ;;
           '(_, self) <- Trainer.save_theta mod_theta str self
                           (Trainer.theta_path (Trainer.save_theta_prefix self)
                                               epoch) ;;
           Ok self)
        (enumerate ds) s = Ok s' ->
  received (length ds) s s'.
Proof.
  intros H.
  apply (foldM_counted _ received 1 received_zero received_add) in H.
  - unfold enumerate in H. rewrite enumerate_from_length, Nat.mul_1_r in H.
    exact H.
  - clear. intros acc [step [x y]] acc' H.
    apply bind_Ok in H. destruct H as (s1 & E & H).
    apply (step_meters _ train_t_meters) in E.
    apply bind_Ok in H. destruct H as ([res s2] & E2 & H).
    inversion H; subst. apply save_theta_meters in E2.
    exact (received_add 1 0 _ _ _ E E2).
Qed.

(** X13.  Nothing in a search empties a meter: when it returns, each of
    the four meters has received one value for every step taken, that is
    [start_w_epoch] passes over the weight data set, then [total_epoch]
    passes over both data sets. *)
Theorem search_meters_count_every_step :
  forall self train_w_ds train_t_ds total_epoch start_w_epoch log_frequence self',
    Trainer.search mod_call mod_batch_size mod_theta backward
      w_opt_zero_grad w_opt_step t_opt_zero_grad t_opt_step w_sche_step str
      self train_w_ds train_t_ds total_epoch start_w_epoch log_frequence
    = Ok self' ->
    received
      (Z.to_nat start_w_epoch * length train_w_ds
       + Z.to_nat total_epoch * (length train_t_ds + length train_w_ds))
      self self'.
Proof.
  intros self train_w_ds train_t_ds total_epoch start_w_epoch log_frequence
    self' H.
  unfold Trainer.search in H.
  destruct (negb _); [discriminate |].
  cbn [Trainer.time] in H.
  apply bind_Ok in H. destruct H as (s1 & E1 & H).
  apply (foldM_counted _ received (length train_w_ds) received_zero received_add)
    in E1.
  - cbn [Trainer.time] in H.
    apply (foldM_counted _ received (length train_t_ds + length train_w_ds)
             received_zero received_add) in H.
    + rewrite range_length in E1, H.
      pose proof (received_add _ _ _ _ _ E1 H) as T.
      unfold received in *. simpl in *. exact T.
    + clear. intros acc epoch acc' H.
      apply bind_Ok in H. destruct H as (s2 & E2 & H).
      apply theta_loop_meters in E2. apply weight_loop_meters in H.
      pose proof (received_add _ _ _ _ _ E2 H) as T.
      unfold received in *. simpl in *. exact T.
  - clear. intros acc epoch acc' H.
    apply weight_loop_meters in H. unfold received in *. simpl in *. exact H.
Qed.

End Meters.

Lemma search_meters_count_every_step_witness :
  exists self',
    Trainer.search Recorded.mod_call Recorded.mod_batch_size Recorded.mod_theta
      Recorded.backward Recorded.w_opt_zero_grad Recorded.w_opt_step
      Recorded.t_opt_zero_grad Recorded.t_opt_step Recorded.w_sche_step str_one
      Recorded.trainer [(0, 0)] [(1, 1)] 1 1 100
    = Ok self'
    /\ received
         (Z.to_nat 1 * length [(0, 0)]
          + Z.to_nat 1 * (length [(1, 1)] + length [(0, 0)]))
         Recorded.trainer self'.
Proof.
  destruct search_one_epoch as (self' & H & _).
  exists self'. split; [exact H |].
  exact (search_meters_count_every_step _ _ _ _ _ _ _ _ _ _ _ _ _
           _ _ _ _ _ _ _ H).
Defined.

(** ** The batch lines of a search *)

Lemma batch_lines_app l1 l2 :
  batch_lines (l1 ++ l2) = batch_lines l1 ++ batch_lines l2.
Proof.
  induction l1 as [| [| | |] l1 IH]; simpl; auto. rewrite IH. reflexivity.
Qed.

Lemma foldM_logged {A B : Type} (f : B -> A -> result B)
  (Rel : list (Z * nat) -> B -> B -> Prop) (h : A -> list (Z * nat)) :
  (forall s, Rel [] s s) ->
  (forall a b s1 s2 s3, Rel a s1 s2 -> Rel b s2 s3 -> Rel (a ++ b) s1 s3) ->
  (forall acc x acc', f acc x = Ok acc' -> Rel (h x) acc acc') ->
  forall l acc acc', foldM f l acc = Ok acc' -> Rel (flat_map h l) acc acc'.
Proof.
  intros Hzero Hadd Hf. induction l as [| x l IH]; intros acc acc' H; simpl in H.
  - inversion H; subst. apply Hzero.
  - apply bind_Ok in H. destruct H as (s1 & E1 & H).
    simpl. apply (Hadd _ _ _ s1); [apply (Hf _ x); exact E1 | apply IH; exact H].
Qed.

Lemma flat_map_enumerate_from {A : Type} (log_frequence epoch : Z) (l : list A) k :
  flat_map (fun '(step, _) =>
              if flushes log_frequence step then [(epoch, step)] else [])
           (enumerate_from k l)
  = map (pair epoch) (filter (flushes log_frequence) (seq k (length l))).
Proof.
  revert k; induction l as [| x l IH]; intros k; simpl; auto.
  rewrite IH. destruct (flushes log_frequence k); reflexivity.
Qed.

Section BatchLines.

Variable Net : Type.
Variable Input Target : Type.
Variable mod_call :
  Net -> Input -> Target -> R -> result (FBNet.ret * Net).
Variable mod_batch_size : Net -> Z.
Variable mod_theta : Net -> list torch.T1.
Variable backward : torch.Tensor R -> Net -> result Net.
Variable w_opt_zero_grad w_opt_step : Net -> Net.
Variable t_opt_zero_grad t_opt_step : Net -> Net.
Variable w_sche_step : Net -> Net.
Variable str : R -> string.

Lemma logged_nil (s : Trainer.t Net) : logged [] s s.
Proof. unfold logged. rewrite app_nil_r. reflexivity. Qed.

Lemma logged_app a b (s1 s2 s3 : Trainer.t Net) :
  logged a s1 s2 -> logged b s2 s3 -> logged (a ++ b) s1 s3.
Proof. unfold logged. intros H1 H2. rewrite H2, H1, app_assoc. reflexivity. Qed.

Lemma train_w_logged s x y out s' :
  Trainer.train_w mod_call backward w_opt_zero_grad w_opt_step s x y false
  = Ok (out, s') ->
  logged [] s s'.
Proof.
  unfold Trainer.train_w. intros H.
  apply bind_Ok in H. destruct H as ([o n] & _ & H).
  apply bind_Ok in H. destruct H as (n' & _ & H).
  inversion H; subst. unfold logged. simpl. rewrite app_nil_r. reflexivity.
Qed.

Lemma train_t_logged s x y out s' :
  Trainer.train_t mod_call backward t_opt_zero_grad t_opt_step s x y false
  = Ok (out, s') ->
  logged [] s s'.
Proof.
  unfold Trainer.train_t. intros H.
  apply bind_Ok in H. destruct H as ([o n] & _ & H).
  apply bind_Ok in H. destruct H as (n' & _ & H).
  inversion H; subst. unfold logged. simpl. rewrite app_nil_r. reflexivity.
Qed.

Lemma step_logged
  (func : Trainer.t Net -> Input -> Target -> result (FBNet.ret * Trainer.t Net)) :
  (forall s x y out s', func s x y = Ok (out, s') -> logged [] s s') ->
  forall s x y epoch step log_frequence s',
    Trainer._step mod_batch_size s x y epoch step log_frequence func = Ok s' ->
    logged (if flushes log_frequence step then [(epoch, step)] else []) s s'.
Proof.
  intros Hf s x y epoch step log_frequence s' H.
  unfold Trainer._step in H.
  apply bind_Ok in H. destruct H as ([out s1] & E & H).
  apply Hf in E. unfold logged in *. rewrite app_nil_r in E. unfold flushes.
  destruct (1 <? step).
  - destruct (log_frequence =? 0)%Z; [discriminate |].
    destruct (Z.of_nat step mod log_frequence =? 0)%Z.
    + simpl in H. destruct (Trainer.tic s1) as [tic0 |]; [| discriminate].
      destruct (Req_dec_T _ _); [discriminate |].
      inversion H; subst. simpl. rewrite batch_lines_app, E. reflexivity.
    + inversion H; subst. simpl. rewrite app_nil_r. exact E.
  - inversion H; subst. simpl. rewrite app_nil_r. exact E.
Qed.

Lemma save_theta_logged s path res s' :
  Trainer.save_theta mod_theta str s path = Ok (res, s') -> logged [] s s'.
Proof.
  unfold Trainer.save_theta. intros H.
  destruct (negb _); [discriminate |].
  destruct (fold_left _ _ _) as [r text].
  apply bind_Ok in H. destruct H as (s1 & E & H).
  inversion H; subst; clear H.
  unfold Trainer.write_file in E.
  destruct (Trainer.writable s path); [| discriminate].
  inversion E; subst. unfold logged. simpl. rewrite app_nil_r. reflexivity.
Qed.

Lemma weight_loop_logged log_frequence epoch (ds : list (Input * Target)) s s' :
  foldM (fun self '(step, (input, target)) =>
           self <- Trainer._step mod_batch_size self input target epoch step
                     log_frequence
                     (fun s x y =>
                        Trainer.train_w mod_call backward w_opt_zero_grad
                          w_opt_step s x y false) ;;
           Ok (Trainer.set_mod self (w_sche_step (Trainer._mod self))))
        (enumerate ds) s = Ok s' ->
  logged (pass_lines log_frequence epoch (length ds)) s s'.
Proof.
  intros H. unfold pass_lines, enumerate in *.
  rewrite <- (flat_map_enumerate_from log_frequence epoch ds 0).
  revert H. apply (foldM_logged _ logged _ logged_nil logged_app).
  clear. intros acc [step [x y]] acc' H.
  apply bind_Ok in H. destruct H as (s1 & E & H).
  apply (step_logged _ train_w_logged) in E.
  inversion H; subst. exact E.
Qed.

Lemma theta_loop_logged log_frequence epoch (ds : list (Input * Target)) s s' :
  foldM (fun self '(step, (input, target)) =>
           self <- Trainer._step mod_batch_size self input target epoch step
                     log_frequence
                     (fun s x y =>
                        Trainer.train_t mod_call backward t_opt_zero_grad
                          t_opt_step s x y false) ;;
           '(_, self) <- Trainer.save_theta mod_theta str self
                           (Trainer.theta_path (Trainer.save_theta_prefix self)
                                               epoch) ;;
           Ok self)
        (enumerate ds) s = Ok s' ->
  logged (pass_lines log_frequence epoch (length ds)) s s'.
Proof.
  intros H. unfold pass_lines, enumerate in *.
  rewrite <- (flat_map_enumerate_from log_frequence epoch ds 0).
  revert H. apply (foldM_logged _ logged _ logged_nil logged_app).
  clear. intros acc [step [x y]] acc' H.
  apply bind_Ok in H. destruct H as (s1 & E & H).
  apply (step_logged _ train_t_logged) in E.
  apply bind_Ok in H. destruct H as ([res s2] & E2 & H).
  inversion H; subst. apply save_theta_logged in E2.
  pose proof (logged_app _ _ _ _ _ E E2) as T. rewrite app_nil_r in T. exact T.
Qed.

(** X14.  The batch lines a search logs, in order: in every pass over a
    data set one line for each step from 2 on that [log_frequence]
    divides, and none for the steps 0 and 1; first the [start_w_epoch]
    passes of weight training, then per epoch the pass of architecture
    training and the pass of weight training, both under the epoch number
    counted from [start_w_epoch]. *)
Theorem search_logs_batches_from_step_two :
  forall self train_w_ds train_t_ds total_epoch start_w_epoch log_frequence self',
    Trainer.search mod_call mod_batch_size mod_theta backward
      w_opt_zero_grad w_opt_step t_opt_zero_grad t_opt_step w_sche_step str
      self train_w_ds train_t_ds total_epoch start_w_epoch log_frequence
    = Ok self' ->
    batch_lines (Trainer.log self')
    = batch_lines (Trainer.log self)
      ++ flat_map (fun epoch =>
                     pass_lines log_frequence epoch (length train_w_ds))
                  (Trainer.range start_w_epoch)
      ++ flat_map (fun epoch =>
                     pass_lines log_frequence (epoch + start_w_epoch)
                       (length train_t_ds)
                     ++ pass_lines log_frequence (epoch + start_w_epoch)
                          (length train_w_ds))
                  (Trainer.range total_epoch).
Proof.
  intros self train_w_ds train_t_ds total_epoch start_w_epoch log_frequence
    self' H.
  unfold Trainer.search in H.
  destruct (negb _); [discriminate |].
  cbn [Trainer.time] in H.
  apply bind_Ok in H. destruct H as (s1 & E1 & H).
  apply (foldM_logged _ logged
           (fun epoch => pass_lines log_frequence epoch (length train_w_ds))
           logged_nil logged_app) in E1.
  - cbn [Trainer.time] in H.
    apply (foldM_logged _ logged
             (fun epoch =>
                pass_lines log_frequence (epoch + start_w_epoch)
                  (length train_t_ds)
                ++ pass_lines log_frequence (epoch + start_w_epoch)
                     (length train_w_ds))
             logged_nil logged_app) in H.
    + unfold logged in *. simpl in *. rewrite H, E1, app_assoc. reflexivity.
    + clear. intros acc epoch acc' H.
      apply bind_Ok in H. destruct H as (s2 & E2 & H).
      apply theta_loop_logged in E2. apply weight_loop_logged in H.
      unfold logged in *. simpl in *.
      rewrite !batch_lines_app in H. simpl in H. rewrite !app_nil_r in H.
      rewrite batch_lines_app in E2. simpl in E2. rewrite app_nil_r in E2.
      rewrite H, E2, app_assoc. reflexivity.
  - clear. intros acc epoch acc' H.
    apply weight_loop_logged in H. unfold logged in *. simpl in *.
    rewrite batch_lines_app in H. simpl in H. rewrite app_nil_r in H. exact H.
Qed.

End BatchLines.

Lemma search_logs_batches_from_step_two_witness :
  exists self',
    Trainer.search Recorded.mod_call Recorded.mod_batch_size Recorded.mod_theta
      Recorded.backward Recorded.w_opt_zero_grad Recorded.w_opt_step
      Recorded.t_opt_zero_grad Recorded.t_opt_step Recorded.w_sche_step str_one
      Recorded.trainer [(0, 0)] [(1, 1)] 1 1 100
    = Ok self'
    /\ batch_lines (Trainer.log self')
       = batch_lines (Trainer.log Recorded.trainer)
         ++ flat_map (fun epoch => pass_lines 100 epoch (length [(0, 0)]))
                     (Trainer.range 1)
         ++ flat_map (fun epoch =>
                        pass_lines 100 (epoch + 1) (length [(1, 1)])
                        ++ pass_lines 100 (epoch + 1) (length [(0, 0)]))
                     (Trainer.range 1).
Proof.
  destruct search_one_epoch as (self' & H & _).
  exists self'. split; [exact H |].
  exact (search_logs_batches_from_step_two _ _ _ _ _ _ _ _ _ _ _ _ _
           _ _ _ _ _ _ _ H).
Defined.

(** ** A theta file that cannot be written *)

Section UnwritableThetaFile.

Variable Net : Type.
Variable Input Target : Type.
Variable mod_call :
  Net -> Input -> Target -> R -> result (FBNet.ret * Net).
Variable mod_batch_size : Net -> Z.
Variable mod_theta : Net -> list torch.T1.
Variable backward : torch.Tensor R -> Net -> result Net.
Variable w_opt_zero_grad w_opt_step : Net -> Net.
Variable t_opt_zero_grad t_opt_step : Net -> Net.
Variable w_sche_step : Net -> Net.
Variable str : R -> string.

(** X15.  When the theta file of the first architecture epoch cannot be
    opened for writing (the directory ./theta-result is missing, say), a
    search with at least one epoch over a non-empty architecture data set
    never returns: it fails at the first [save_theta], after the whole
    first phase of weight training, unless an earlier operation has
    failed. *)
Theorem search_fails_on_unwritable_theta_file :
  forall self train_w_ds train_t_ds total_epoch start_w_epoch log_frequence self',
    Trainer.writable self
      (Trainer.theta_path (Trainer.save_theta_prefix self) (0 + start_w_epoch))
    = false ->
    train_t_ds <> [] ->
    (1 <= total_epoch)%Z ->
    Trainer.search mod_call mod_batch_size mod_theta backward
      w_opt_zero_grad w_opt_step t_opt_zero_grad t_opt_step w_sche_step str
      self train_w_ds train_t_ds total_epoch start_w_epoch log_frequence
    <> Ok self'.
Proof.
  intros self train_w_ds train_t_ds total_epoch start_w_epoch log_frequence
    self' Hw Hn Ht H.
  unfold Trainer.search in H.
  destruct (negb _); [discriminate |].
  cbn [Trainer.time] in H.
  apply bind_Ok in H. destruct H as (s1 & E1 & H).
  apply (foldM_related _ _ (steady_refl Net) (steady_trans Net)) in E1;
    [| intros acc epoch acc' _ E;
       apply (weight_loop_steady Net Input Target mod_call mod_batch_size
                backward w_opt_zero_grad w_opt_step w_sche_step) in E;
       exact E].
  destruct E1 as (_ & _ & P1 & W1 & _). simpl in P1, W1.
  cbn [Trainer.time] in H.
  assert (Hin : In 0%Z (Trainer.range total_epoch)) by (apply in_range; lia).
  unfold Trainer.range in H, Hin.
  destruct (Z.to_nat total_epoch) as [| k]; [contradiction |].
  cbn [seq map foldM] in H.
  apply bind_Ok in H. destruct H as (s2 & E2 & _).
  apply bind_Ok in E2. destruct E2 as (s3 & E3 & _).
  destruct train_t_ds as [| [x y] ds]; [congruence |].
  unfold enumerate in E3. cbn [enumerate_from foldM] in E3.
  apply bind_Ok in E3. destruct E3 as (s4 & E4 & _).
  apply bind_Ok in E4. destruct E4 as (s5 & E5 & E4).
  apply (step_steady Net Input Target mod_batch_size _
           (train_t_steady Net Input Target mod_call backward
              t_opt_zero_grad t_opt_step)) in E5.
  destruct E5 as (_ & _ & P5 & W5 & _). simpl in P5, W5.
  unfold Trainer.save_theta in E4.
  change (Z.of_nat 0) with 0%Z in E4.
  rewrite P5, P1, W5, W1, Hw in E4. discriminate.
Qed.

End UnwritableThetaFile.

Lemma search_fails_on_unwritable_theta_file_witness :
  (Trainer.writable read_only_trainer
     (Trainer.theta_path (Trainer.save_theta_prefix read_only_trainer) (0 + 1))
   = false
   /\ [(1, 1)] <> @nil (nat * nat)
   /\ (1 <= 1)%Z)
  /\ Trainer.search Recorded.mod_call Recorded.mod_batch_size Recorded.mod_theta
       Recorded.backward Recorded.w_opt_zero_grad Recorded.w_opt_step
       Recorded.t_opt_zero_grad Recorded.t_opt_step Recorded.w_sche_step str_one
       read_only_trainer [(0, 0)] [(1, 1)] 1 1 100
     <> Ok Recorded.trainer.
Proof.
  assert (Hw : Trainer.writable read_only_trainer
                 (Trainer.theta_path
                    (Trainer.save_theta_prefix read_only_trainer) (0 + 1))
               = false) by reflexivity.
  assert (Hn : [(1, 1)] <> @nil (nat * nat)) by discriminate.
  assert (Ht : (1 <= 1)%Z) by lia.
  split; [split; [exact Hw | split; [exact Hn | exact Ht]] |].
  exact (search_fails_on_unwritable_theta_file _ _ _ _ _ _ _ _ _ _ _ _ _
           _ _ _ _ _ _ _ Hw Hn Ht).
Defined.

(** ** The types of block the factory builds *)

(** X16.  [block_factory_se] builds a block for the types 'bottle_neck' and
    'resnet' only.  The type 'shape' passes the assertion of line 44, but
    the test of line 127 compares the string with a list, so the call
    reaches the [raise] of line 167, whose operand is a string: the call
    ends in a [TypeError] before any call into MXNet.  Any other type
    fails the assertion. *)
Theorem block_factory_se_builds_two_types :
  forall (Symbol Graph number : Type) (literal : string -> number)
         (mul : number -> number -> result number)
         (int : number -> result number)
         (create : string -> list (blocks_se.value Symbol number)
                   -> list (string * blocks_se.value Symbol number) -> Graph
                   -> result (Symbol * Graph))
         (add : Symbol -> Symbol -> Graph -> result (Symbol * Graph))
         (_set_attr : Symbol -> list (string * string) -> Graph -> result Graph)
         input_symbol num_filter name k_size type group stride bn bn_mom
         workspace expansion ratio se shuffle dim_match memonger kwargs g,
    let built :=
      blocks_se.block_factory_se Symbol Graph number literal mul int create add
        _set_attr input_symbol num_filter name k_size type group stride bn
        bn_mom workspace expansion ratio se shuffle dim_match memonger kwargs g
    in
    (type = "shape"%string -> built = Raise TypeError)
    /\ (type <> "bottle_neck"%string -> type <> "resnet"%string ->
        type <> "shape"%string -> built = Raise AssertionError)
    /\ (forall r, built = Ok r ->
          type = "bottle_neck"%string \/ type = "resnet"%string).
Proof.
  intros. unfold built, blocks_se.block_factory_se, blocks_se.known_type,
    blocks_se.eq_str_list.
  cbn [existsb].
  destruct (String.eqb_spec type "bottle_neck") as [E1 | N1];
    destruct (String.eqb_spec type "resnet") as [E2 | N2];
    destruct (String.eqb_spec type "shape") as [E3 | N3];
    cbn [orb negb]; repeat split; intros; subst;
    try discriminate; try contradiction; auto.
Qed.

(** On the recording library: the calls of a 'resnet' block, and of a
    'bottle_neck' block with channel shuffle. *)
Example traced_blocks :
  Traced.block "resnet" false false false false
  = Ok (7, ["BatchNorm"; "Activation"; "Convolution";
            "BatchNorm"; "Activation"; "Convolution";
            "Convolution"; "+"]%string)
  /\ Traced.block "bottle_neck" false true true true
     = Ok (13, ["BatchNorm"; "Activation"; "Convolution";
                "reshape"; "swapaxes"; "reshape";
                "BatchNorm"; "Activation"; "Convolution";
                "BatchNorm"; "Activation"; "Convolution";
                "_set_attr"; "+"]%string)
  /\ Traced.block "shape" false false false false = Raise TypeError
  /\ Traced.block "other" false false false false = Raise AssertionError.
Proof. repeat split. Qed.
